(** * Centscape: the extraction pipeline, URL canonicalisation, the client
      retry wrapper and the wishlist store, embedded in Rocq.

    The TypeScript sources are embedded shallowly: pure functions become
    Rocq functions, [throw] becomes the [Thrown] constructor of a completion
    type, mutable storage becomes explicit state passing.

    Conventions used throughout:
    - a JavaScript string is a [string] of bytes; on ASCII text a byte is a
      UTF-16 code unit, so [length], [includes], [startsWith] agree with
      JavaScript.  [toLowerCase] is the ASCII case mapping;
    - a JavaScript number that the code only compares, adds and multiplies by
      decimal constants is a rational ([Q]) or an integer ([Z], [N]); where
      the rounding of double precision shows in a result, the computation
      is given a second time on binary64 numbers (module [Doubles]);
    - [async] functions are run sequentially, an awaited rejection is a
      [Thrown] completion. *)

From Stdlib Require Import Strings.String Strings.Ascii Lists.List Bool.Bool.
From Stdlib Require Import ZArith.ZArith NArith.NArith QArith.QArith QArith.Qminmax.
From Stdlib Require Import Arith.PeanoNat micromega.Lia.
From Stdlib Require Import Sorting.Permutation Sorting.Sorted.
From Stdlib Require Import Numbers.DecimalString Numbers.HexadecimalString.
From Stdlib Require Floats.PrimFloat.
Import ListNotations.

Local Open Scope string_scope.
Local Open Scope bool_scope.

(* ================================================================== *)
(** * Completions: what a call returns or throws *)

Module Completion.

(** The kinds of object the application throws: an [Error] instance,
    which has a [message], or a plain object literal cast to [AppError]
    (src/app/src/types/index.ts). *)
Inductive ErrorType := NETWORK | VALIDATION | NOT_FOUND | DUPLICATE | UNKNOWN.

Record AppError := mkAppError
  { type : ErrorType; message : string; retryable : bool }.

Inductive Exception :=
| ErrorObject (msg : string)      (* new Error(msg) *)
| AppErrorObject (e : AppError).  (* throw { type, message, retryable } *)

(** [error.message] for either kind of thrown object. *)
Definition messageOf (e : Exception) : string :=
  match e with
  | ErrorObject m => m
  | AppErrorObject a => message a
  end.

(** [error instanceof Error] *)
Definition instanceofError (e : Exception) : bool :=
  match e with
  | ErrorObject _ => true
  | AppErrorObject _ => false
  end.

Inductive t (A : Type) :=
| Returned (a : A)
| Thrown (e : Exception).
Arguments Returned {A} a.
Arguments Thrown {A} e.

Definition bind {A B} (c : t A) (k : A -> t B) : t B :=
  match c with
  | Returned a => k a
  | Thrown e => Thrown e
  end.

(** [try { c } catch (error) { h error }] *)
Definition tryCatch {A} (c : t A) (h : Exception -> t A) : t A :=
  match c with
  | Returned a => Returned a
  | Thrown e => h e
  end.

End Completion.
Import Completion.

Declare Scope completion_scope.
Delimit Scope completion_scope with completion.
Notation "'let*' x ':=' c 'in' k" := (Completion.bind c (fun x => k))
  (at level 61, x name, c at next level, right associativity)
  : completion_scope.
Local Open Scope completion_scope.

(* ================================================================== *)
(** * JavaScript string primitives *)

Module Js.

Definition is_upper (c : ascii) : bool :=
  let n := nat_of_ascii c in (65 <=? n)%nat && (n <=? 90)%nat.
Definition is_lower (c : ascii) : bool :=
  let n := nat_of_ascii c in (97 <=? n)%nat && (n <=? 122)%nat.
Definition is_alpha (c : ascii) : bool := is_upper c || is_lower c.
Definition is_digit (c : ascii) : bool :=
  let n := nat_of_ascii c in (48 <=? n)%nat && (n <=? 57)%nat.
Definition is_alnum (c : ascii) : bool := is_alpha c || is_digit c.
Definition is_hex_digit (c : ascii) : bool :=
  let n := nat_of_ascii c in
  is_digit c || ((65 <=? n)%nat && (n <=? 70)%nat)
             || ((97 <=? n)%nat && (n <=? 102)%nat).

Definition lower_char (c : ascii) : ascii :=
  if is_upper c then ascii_of_nat (nat_of_ascii c + 32) else c.
Definition upper_char (c : ascii) : ascii :=
  if is_lower c then ascii_of_nat (nat_of_ascii c - 32) else c.

Fixpoint map (f : ascii -> ascii) (s : string) : string :=
  match s with
  | EmptyString => EmptyString
  | String c s' => String (f c) (map f s')
  end.

Fixpoint forallb (p : ascii -> bool) (s : string) : bool :=
  match s with
  | EmptyString => true
  | String c s' => p c && forallb p s'
  end.

Fixpoint existsb (p : ascii -> bool) (s : string) : bool :=
  match s with
  | EmptyString => false
  | String c s' => p c || existsb p s'
  end.

Fixpoint filter (p : ascii -> bool) (s : string) : string :=
  match s with
  | EmptyString => EmptyString
  | String c s' => if p c then String c (filter p s') else filter p s'
  end.

(** [s.toLowerCase()] and [s.toUpperCase()] *)
Definition toLowerCase (s : string) : string := map lower_char s.
Definition toUpperCase (s : string) : string := map upper_char s.

(** [s.startsWith(p)] *)
Definition startsWith (s p : string) : bool := String.prefix p s.

(** [s.includes(sub)] *)
Fixpoint includes (s sub : string) : bool :=
  String.prefix sub s ||
  match s with
  | EmptyString => false
  | String _ s' => includes s' sub
  end.

(** [s.substring(n)] / [s.slice(n)] for [0 <= n] *)
Fixpoint drop (n : nat) (s : string) : string :=
  match n, s with
  | O, _ => s
  | S n', String _ s' => drop n' s'
  | S _, EmptyString => EmptyString
  end.

(** Longest prefix whose characters all satisfy [p], and the rest. *)
Fixpoint span (p : ascii -> bool) (s : string) : string * string :=
  match s with
  | EmptyString => (EmptyString, EmptyString)
  | String c s' =>
      if p c then let (a, b) := span p s' in (String c a, b)
      else (EmptyString, s)
  end.

Definition dropWhile (p : ascii -> bool) (s : string) : string :=
  snd (span p s).

Fixpoint rev_acc (s acc : string) : string :=
  match s with
  | EmptyString => acc
  | String c s' => rev_acc s' (String c acc)
  end.
Definition rev (s : string) : string := rev_acc s EmptyString.

Definition dropWhileEnd (p : ascii -> bool) (s : string) : string :=
  rev (dropWhile p (rev s)).

(** ECMAScript WhiteSpace and LineTerminator code points below U+0080:
    TAB, LF, VT, FF, CR, SPACE. *)
Definition is_js_space (c : ascii) : bool :=
  let n := nat_of_ascii c in
  ((9 <=? n)%nat && (n <=? 13)%nat) || (n =? 32)%nat.

(** [s.trim()] *)
Definition trim (s : string) : string :=
  dropWhileEnd is_js_space (dropWhile is_js_space s).

(** Last character of a string. *)
Fixpoint last (s : string) : option ascii :=
  match s with
  | EmptyString => None
  | String c EmptyString => Some c
  | String _ s' => last s'
  end.

(** Whether the last character of [s] is [c]. *)
Definition endsWithChar (s : string) (c : ascii) : bool :=
  match last s with
  | Some x => Ascii.eqb x c
  | None => false
  end.

(** All characters but the last. *)
Fixpoint removeLast (s : string) : string :=
  match s with
  | EmptyString => EmptyString
  | String _ EmptyString => EmptyString
  | String c s' => String c (removeLast s')
  end.

End Js.

(* ================================================================== *)
(** * The platform's URL parser

    [new URL(input)] with a single argument is the basic URL parser of the
    WHATWG URL Standard run without a base URL.  The sources read only
    [protocol] and [hostname] of the parsed record and otherwise only ask
    whether the constructor throws, so the model follows the parser's state
    machine up to the end of the authority: the path, query and fragment
    states never fail.

    Outside the modelled fragment: IDNA processing of the host.  A host with
    a byte above 0x7F after percent-decoding, or with a label that starts
    with [xn--], is answered with failure. *)

Module WhatwgUrl.

Record URL := mkURL
  { protocol : string;   (* scheme followed by ":" *)
    hostname : string;   (* serialised host, "" when the host is null or empty *)
    port : string }.     (* serialised port, "" when it is null *)

Definition code (c : ascii) : nat := nat_of_ascii c.

Definition is_c0_or_space (c : ascii) : bool := (code c <=? 32)%nat.
Definition is_tab_or_newline (c : ascii) : bool :=
  (code c =? 9)%nat || (code c =? 10)%nat || (code c =? 13)%nat.

(** Steps 1-3 of the basic URL parser: strip leading and trailing C0
    control or space, remove every ASCII tab or newline. *)
Definition preprocess (input : string) : string :=
  Js.filter (fun c => negb (is_tab_or_newline c))
    (Js.dropWhileEnd is_c0_or_space (Js.dropWhile is_c0_or_space input)).

Definition is_scheme_char (c : ascii) : bool :=
  Js.is_alnum c || Ascii.eqb c "+" || Ascii.eqb c "-" || Ascii.eqb c ".".

(** Scheme start state and scheme state.  Without a base URL the no scheme
    state is a failure. *)
Definition parse_scheme (s : string) : option (string * string) :=
  match s with
  | String c _ =>
      if Js.is_alpha c then
        match Js.span is_scheme_char s with
        | (run, String ":" rest) => Some (Js.toLowerCase run, rest)
        | _ => None
        end
      else None
  | EmptyString => None
  end.

Definition is_special (scheme : string) : bool :=
  String.eqb scheme "ftp" || String.eqb scheme "file"
  || String.eqb scheme "http" || String.eqb scheme "https"
  || String.eqb scheme "ws" || String.eqb scheme "wss".

Definition default_port (scheme : string) : option N :=
  if String.eqb scheme "ftp" then Some 21%N
  else if String.eqb scheme "http" || String.eqb scheme "ws" then Some 80%N
  else if String.eqb scheme "https" || String.eqb scheme "wss" then Some 443%N
  else None.

(** ** Numbers *)

Definition digit_value (c : ascii) : N :=
  let n := N_of_ascii c in
  if Js.is_digit c then (n - 48)%N
  else if Js.is_upper c then (n - 55)%N
  else (n - 87)%N.

Definition is_radix_digit (R : N) (c : ascii) : bool :=
  Js.is_hex_digit c && (digit_value c <? R)%N.

Fixpoint parse_radix_acc (R : N) (s : string) (acc : N) : N :=
  match s with
  | EmptyString => acc
  | String c s' => parse_radix_acc R s' (acc * R + digit_value c)%N
  end.

Definition parse_radix (R : N) (s : string) : option N :=
  if Js.forallb (is_radix_digit R) s then Some (parse_radix_acc R s 0%N) else None.

Definition decimal (n : N) : string :=
  DecimalString.NilEmpty.string_of_uint (N.to_uint n).

Definition lower_hex (n : N) : string :=
  HexadecimalString.NilEmpty.string_of_uint (N.to_hex_uint n).

(** ** Percent decoding *)

Fixpoint percent_decode (s : string) : string :=
  match s with
  | EmptyString => EmptyString
  | String c t1 =>
      match t1 with
      | String a (String b rest) =>
          if Ascii.eqb c "%" && Js.is_hex_digit a && Js.is_hex_digit b
          then String (ascii_of_N (16 * digit_value a + digit_value b)) (percent_decode rest)
          else String c (percent_decode t1)
      | _ => String c (percent_decode t1)
      end
  end.

(** ** Hosts *)

(** Strictly split on a separator. *)
Fixpoint split (sep : ascii) (s : string) : list string :=
  match s with
  | EmptyString => [EmptyString]
  | String c s' =>
      if Ascii.eqb c sep then EmptyString :: split sep s'
      else match split sep s' with
           | [] => [String c EmptyString]
           | h :: t => String c h :: t
           end
  end.

Definition forbidden_host_code_point (c : ascii) : bool :=
  let n := code c in
  (n =? 0)%nat || (n =? 9)%nat || (n =? 10)%nat || (n =? 13)%nat || (n =? 32)%nat
  || Ascii.eqb c "#" || Ascii.eqb c "/" || Ascii.eqb c ":" || Ascii.eqb c "<"
  || Ascii.eqb c ">" || Ascii.eqb c "?" || Ascii.eqb c "@" || Ascii.eqb c "["
  || Ascii.eqb c "\" || Ascii.eqb c "]" || Ascii.eqb c "^" || Ascii.eqb c "|".

Definition forbidden_domain_code_point (c : ascii) : bool :=
  forbidden_host_code_point c || (code c <=? 31)%nat
  || Ascii.eqb c "%" || (code c =? 127)%nat.

(** Domain to ASCII with [beStrict] false, on the modelled fragment: ASCII
    lower-casing; an empty result is a failure. *)
Definition domain_to_ascii (domain : string) : option string :=
  if Js.existsb (fun c => (128 <=? code c)%nat) domain then None
  else
    let lowered := Js.toLowerCase domain in
    if List.existsb (fun label => String.prefix "xn--" label) (split "." lowered) then None
    else if String.eqb lowered "" then None
    else Some lowered.

(** IPv4 number parser. *)
Definition ipv4_number (input : string) : option N :=
  match input with
  | EmptyString => None
  | String "0" (String x rest) =>
      if Ascii.eqb x "x" || Ascii.eqb x "X" then
        (if String.eqb rest "" then Some 0%N else parse_radix 16 rest)
      else parse_radix 8 (String x rest)
  | _ => parse_radix 10 input
  end.

Definition is_Some {A} (o : option A) : bool :=
  match o with Some _ => true | None => false end.

(** Removes a trailing empty part when it is not the only part. *)
Definition drop_trailing_empty (parts : list string) : list string :=
  match List.rev parts with
  | EmptyString :: (_ :: _) as others => List.rev others
  | _ => parts
  end.

(** Ends-in-a-number checker. *)
Definition ends_in_number (input : string) : bool :=
  match List.rev (drop_trailing_empty (split "." input)) with
  | lastPart :: _ =>
      (negb (String.eqb lastPart "") && Js.forallb Js.is_digit lastPart)
      || is_Some (ipv4_number lastPart)
  | [] => false
  end.

Fixpoint sequence {A} (l : list (option A)) : option (list A) :=
  match l with
  | [] => Some []
  | None :: _ => None
  | Some a :: l' =>
      match sequence l' with
      | Some r => Some (a :: r)
      | None => None
      end
  end.

(** Folds the numbers but the last into the address: [numbers[i] * 256^(3-i)]. *)
Fixpoint ipv4_sum (numbers : list N) (counter : N) : N :=
  match numbers with
  | [] => 0%N
  | n :: rest => (n * 256 ^ (3 - counter) + ipv4_sum rest (counter + 1))%N
  end.

(** IPv4 parser. *)
Definition ipv4_parse (input : string) : option N :=
  let parts := drop_trailing_empty (split "." input) in
  if (4 <? List.length parts)%nat then None
  else
    match sequence (List.map ipv4_number parts) with
    | None => None
    | Some numbers =>
        match List.rev numbers with
        | [] => None
        | lastNumber :: initRev =>
            if List.existsb (fun n => (255 <? n)%N) initRev then None
            else if (256 ^ (5 - N.of_nat (List.length numbers)) <=? lastNumber)%N then None
            else Some (lastNumber + ipv4_sum (List.rev initRev) 0)%N
        end
    end.

(** IPv4 serializer. *)
Definition ipv4_serialize (address : N) : string :=
  decimal (address / 16777216 mod 256) ++ "."
  ++ decimal (address / 65536 mod 256) ++ "."
  ++ decimal (address / 256 mod 256) ++ "."
  ++ decimal (address mod 256).

(** ** IPv6 *)

(** Up to four hexadecimal digits: value, number of digits, rest. *)
Fixpoint read_hex4 (budget : nat) (s : string) (value : N) (len : nat)
  : N * nat * string :=
  match budget, s with
  | S b, String c s' =>
      if Js.is_hex_digit c
      then read_hex4 b s' (value * 16 + digit_value c)%N (S len)
      else (value, len, s)
  | _, _ => (value, len, s)
  end.

(** One decimal part of an IPv4-in-IPv6 suffix: digits without a leading
    zero, at most 255. *)
Definition ipv4_in_ipv6_piece (part : string) : option N :=
  match part with
  | EmptyString => None
  | String "0" (String _ _) => None
  | _ =>
      match parse_radix 10 part with
      | Some n => if (255 <? n)%N then None else Some n
      | None => None
      end
  end.

Definition ipv4_in_ipv6 (s : string) : option (N * N) :=
  match List.map ipv4_in_ipv6_piece (split "." s) with
  | [Some a; Some b; Some c; Some d] => Some (a * 256 + b, c * 256 + d)%N
  | _ => None
  end.

(** The main loop of the IPv6 parser.  [pieces] are the pieces read so far,
    in order, so that [pieceIndex] is their number; [compress] is the piece
    index at which the [::] was seen. *)
Fixpoint ipv6_loop (fuel : nat) (s : string) (pieces : list N)
         (compress : option nat) : option (list N * option nat) :=
  match fuel with
  | O => None
  | S fuel' =>
      match s with
      | EmptyString => Some (pieces, compress)
      | String c s' =>
          if (List.length pieces =? 8)%nat then None
          else if Ascii.eqb c ":" then
            match compress with
            | Some _ => None
            | None => ipv6_loop fuel' s' (pieces ++ [0%N])%list (Some (S (List.length pieces)))
            end
          else
            match read_hex4 4 s 0%N 0 with
            | (value, len, rest) =>
                match rest with
                | String "." _ =>
                    if (len =? 0)%nat then None
                    else if (6 <? List.length pieces)%nat then None
                    else
                      match ipv4_in_ipv6 s with
                      | Some (hi, lo) => Some ((pieces ++ [hi; lo])%list, compress)
                      | None => None
                      end
                | String ":" EmptyString => None
                | String ":" rest' =>
                    if (len =? 0)%nat then None
                    else ipv6_loop fuel' rest' (pieces ++ [value])%list compress
                | EmptyString =>
                    if (len =? 0)%nat then None
                    else Some ((pieces ++ [value])%list, compress)
                | _ => None
                end
            end
      end
  end.

(** IPv6 parser: the eight pieces of the address. *)
Definition ipv6_parse (input : string) : option (list N) :=
  let start :=
    match input with
    | String ":" (String ":" rest) => Some (rest, [0%N], Some 1%nat)
    | String ":" _ => None
    | _ => Some (input, [], None)
    end in
  match start with
  | None => None
  | Some (s, pieces0, compress0) =>
      match ipv6_loop (S (String.length s)) s pieces0 compress0 with
      | None => None
      | Some (pieces, Some k) =>
          if (8 <? List.length pieces)%nat then None
          else Some (List.firstn k pieces
                     ++ List.repeat 0%N (8 - List.length pieces)
                     ++ List.skipn k pieces)%list
      | Some (pieces, None) =>
          if (List.length pieces =? 8)%nat then Some pieces else None
      end
  end.

(** Length of the run of zero pieces at the head of a list. *)
Fixpoint zero_run (l : list N) : nat :=
  match l with
  | 0%N :: l' => S (zero_run l')
  | _ => 0
  end.

(** Start and length of the first longest run of zero pieces. *)
Fixpoint longest_zero_run (l : list N) (index : nat) (best : nat * nat) : nat * nat :=
  match l with
  | [] => best
  | _ :: l' =>
      let r := zero_run l in
      longest_zero_run l' (S index) (if (snd best <? r)%nat then (index, r) else best)
  end.

Fixpoint ipv6_serialize_from (l : list N) (index : nat) (compress : option nat)
         (ignore0 : bool) : string :=
  match l with
  | [] => EmptyString
  | piece :: l' =>
      if ignore0 && (piece =? 0)%N then ipv6_serialize_from l' (S index) compress true
      else if match compress with Some k => (k =? index)%nat | None => false end
      then (if (index =? 0)%nat then "::" else ":")
           ++ ipv6_serialize_from l' (S index) compress true
      else lower_hex piece
           ++ (if (index =? 7)%nat then "" else ":")
           ++ ipv6_serialize_from l' (S index) compress false
  end.

(** IPv6 serializer. *)
Definition ipv6_serialize (address : list N) : string :=
  let (start, len) := longest_zero_run address 0 (0, 0)%nat in
  ipv6_serialize_from address 0 (if (1 <? len)%nat then Some start else None) false.

(** ** Host parser *)

Definition upper_hex_digit (n : N) : ascii :=
  if (n <? 10)%N then ascii_of_N (48 + n) else ascii_of_N (55 + n).

(** Percent-encode after encoding with the C0 control percent-encode set. *)
Fixpoint percent_encode_c0 (s : string) : string :=
  match s with
  | EmptyString => EmptyString
  | String c s' =>
      if (code c <=? 31)%nat || (126 <? code c)%nat
      then String "%" (String (upper_hex_digit (N_of_ascii c / 16))
                        (String (upper_hex_digit (N_of_ascii c mod 16)) (percent_encode_c0 s')))
      else String c (percent_encode_c0 s')
  end.

Definition opaque_host_parse (input : string) : option string :=
  if Js.existsb forbidden_host_code_point input then None
  else Some (percent_encode_c0 input).

Definition host_parse (isOpaque : bool) (input : string) : option string :=
  if Js.startsWith input "[" then
    if Js.endsWithChar input "]" then
      match ipv6_parse (Js.removeLast (Js.drop 1 input)) with
      | Some address => Some ("[" ++ ipv6_serialize address ++ "]")
      | None => None
      end
    else None
  else if isOpaque then opaque_host_parse input
  else
    match domain_to_ascii (percent_decode input) with
    | None => None
    | Some asciiDomain =>
        if Js.existsb forbidden_domain_code_point asciiDomain then None
        else if ends_in_number asciiDomain
             then option_map ipv4_serialize (ipv4_parse asciiDomain)
             else Some asciiDomain
    end.

(** ** Authority, host and port states *)

Definition is_authority_end (special : bool) (c : ascii) : bool :=
  Ascii.eqb c "/" || Ascii.eqb c "?" || Ascii.eqb c "#"
  || (special && Ascii.eqb c "\").

(** The part of the authority after the last ["@"], and whether an ["@"]
    was seen. *)
Fixpoint after_last_at (s : string) : string * bool :=
  match s with
  | EmptyString => (EmptyString, false)
  | String c s' =>
      let (tail, seen) := after_last_at s' in
      if seen then (tail, true)
      else if Ascii.eqb c "@" then (s', true)
      else (s, false)
  end.

(** Splits at the first [":"] that is not inside square brackets. *)
Fixpoint split_host_port (s : string) (insideBrackets : bool) : string * option string :=
  match s with
  | EmptyString => (EmptyString, None)
  | String c s' =>
      if Ascii.eqb c ":" && negb insideBrackets then (EmptyString, Some s')
      else
        let inside := if Ascii.eqb c "[" then true
                      else if Ascii.eqb c "]" then false
                      else insideBrackets in
        let (h, p) := split_host_port s' inside in
        (String c h, p)
  end.

(** Port state. *)
Definition parse_port (scheme buffer : string) : option string :=
  if Js.forallb Js.is_digit buffer then
    if String.eqb buffer "" then Some ""
    else
      let p := parse_radix_acc 10 buffer 0%N in
      if (65535 <? p)%N then None
      else match default_port scheme with
           | Some d => if (p =? d)%N then Some "" else Some (decimal p)
           | None => Some (decimal p)
           end
  else None.

Definition parse_authority (scheme : string) (special : bool) (s : string) : option URL :=
  let authority := fst (Js.span (fun c => negb (is_authority_end special c)) s) in
  let (hostport, atSignSeen) := after_last_at authority in
  if atSignSeen && String.eqb hostport "" then None
  else
    match split_host_port hostport false with
    | (buffer, Some portBuffer) =>
        if String.eqb buffer "" then None
        else
          match host_parse (negb special) buffer, parse_port scheme portBuffer with
          | Some host, Some p => Some (mkURL (scheme ++ ":") host p)
          | _, _ => None
          end
    | (buffer, None) =>
        if special && String.eqb buffer "" then None
        else
          match host_parse (negb special) buffer with
          | Some host => Some (mkURL (scheme ++ ":") host "")
          | None => None
          end
    end.

(** ** File states *)

Definition is_slash (c : ascii) : bool := Ascii.eqb c "/" || Ascii.eqb c "\".

Definition is_windows_drive_letter (s : string) : bool :=
  match s with
  | String a (String b EmptyString) =>
      Js.is_alpha a && (Ascii.eqb b ":" || Ascii.eqb b "|")
  | _ => false
  end.

Definition parse_file (s : string) : option URL :=
  match s with
  | String c1 (String c2 rest) =>
      if is_slash c1 && is_slash c2 then
        let buffer := fst (Js.span (fun c => negb (is_authority_end true c)) rest) in
        if is_windows_drive_letter buffer then Some (mkURL "file:" "" "")
        else if String.eqb buffer "" then Some (mkURL "file:" "" "")
        else
          match host_parse false buffer with
          | Some host =>
              Some (mkURL "file:" (if String.eqb host "localhost" then "" else host) "")
          | None => None
          end
      else Some (mkURL "file:" "" "")
  | _ => Some (mkURL "file:" "" "")
  end.

(** ** The constructor *)

(** [new URL(input)]: [None] when the constructor throws a [TypeError]. *)
Definition parse (input : string) : option URL :=
  match parse_scheme (preprocess input) with
  | None => None
  | Some (scheme, rest) =>
      if String.eqb scheme "file" then parse_file rest
      else if is_special scheme then
        parse_authority scheme true (Js.dropWhile is_slash rest)
      else if Js.startsWith rest "//" then
        parse_authority scheme false (Js.drop 2 rest)
      else Some (mkURL (scheme ++ ":") "" "")
  end.

End WhatwgUrl.

(* ================================================================== *)
(** * The [querystringify] package, as [url-parse] uses it *)

Module Querystringify.

Inductive token := Lit (c : ascii) | Esc (b : N).

(** Splits a string into literal characters and [%XX] escapes; a ["%"]
    that two hexadecimal digits do not follow is a [URIError]. *)
Fixpoint tokenize (s : string) : option (list token) :=
  match s with
  | EmptyString => Some []
  | String c t1 =>
      if Ascii.eqb c "%" then
        match t1 with
        | String a (String b rest) =>
            if Js.is_hex_digit a && Js.is_hex_digit b
            then option_map (cons (Esc (16 * WhatwgUrl.digit_value a + WhatwgUrl.digit_value b)))
                            (tokenize rest)
            else None
        | _ => None
        end
      else option_map (cons (Lit c)) (tokenize t1)
  end.

Definition between (lo hi b : N) : bool := (lo <=? b)%N && (b <=? hi)%N.
Definition continuation (b : N) : bool := between 128 191 b.

Definition bytes2 (b0 b1 : N) (t : string) : string :=
  String (ascii_of_N b0) (String (ascii_of_N b1) t).

(** Decodes the escapes.  Escapes of bytes above 0x7F have to spell one
    well-formed UTF-8 sequence, otherwise [decodeURIComponent] throws. *)
Fixpoint decode_tokens (l : list token) : option string :=
  match l with
  | [] => Some EmptyString
  | Lit c :: r => option_map (String c) (decode_tokens r)
  | Esc b0 :: r =>
      if (b0 <? 128)%N then option_map (String (ascii_of_N b0)) (decode_tokens r)
      else if between 194 223 b0 then
        match r with
        | Esc b1 :: r1 =>
            if continuation b1
            then option_map (bytes2 b0 b1) (decode_tokens r1)
            else None
        | _ => None
        end
      else if between 224 239 b0 then
        match r with
        | Esc b1 :: Esc b2 :: r2 =>
            if between (if (b0 =? 224)%N then 160 else 128)
                       (if (b0 =? 237)%N then 159 else 191) b1
               && continuation b2
            then option_map (fun t => bytes2 b0 b1 (String (ascii_of_N b2) t))
                            (decode_tokens r2)
            else None
        | _ => None
        end
      else if between 240 244 b0 then
        match r with
        | Esc b1 :: Esc b2 :: Esc b3 :: r3 =>
            if between (if (b0 =? 240)%N then 144 else 128)
                       (if (b0 =? 244)%N then 143 else 191) b1
               && continuation b2 && continuation b3
            then option_map (fun t => bytes2 b0 b1 (bytes2 b2 b3 t))
                            (decode_tokens r3)
            else None
        | _ => None
        end
      else None
  end.

(** [decodeURIComponent(s)]; [None] when it throws a [URIError]. *)
Definition decodeURIComponent (s : string) : option string :=
  match tokenize s with
  | Some l => decode_tokens l
  | None => None
  end.

(** Characters that [encodeURIComponent] leaves alone. *)
Definition is_unescaped (c : ascii) : bool :=
  Js.is_alnum c || Ascii.eqb c "-" || Ascii.eqb c "_" || Ascii.eqb c "."
  || Ascii.eqb c "!" || Ascii.eqb c "~" || Ascii.eqb c "*" || Ascii.eqb c "'"
  || Ascii.eqb c "(" || Ascii.eqb c ")".

(** [encodeURIComponent(s)] *)
Fixpoint encodeURIComponent (s : string) : string :=
  match s with
  | EmptyString => EmptyString
  | String c s' =>
      if is_unescaped c then String c (encodeURIComponent s')
      else String "%" (String (WhatwgUrl.upper_hex_digit (N_of_ascii c / 16))
                        (String (WhatwgUrl.upper_hex_digit (N_of_ascii c mod 16))
                                (encodeURIComponent s')))
  end.

(** [decode(input)]: [decodeURIComponent(input.replace(/\+/g, ' '))],
    [null] when that throws. *)
Definition decode (input : string) : option string :=
  decodeURIComponent (Js.map (fun c => if Ascii.eqb c "+" then " "%char else c) input).

(** [encode(input)] *)
Definition encode (input : string) : string := encodeURIComponent input.

(** An object used as a map from keys to strings: own properties in
    creation order, keys pairwise distinct. *)
Definition QueryObject := list (string * string).

Definition has (o : QueryObject) (key : string) : bool :=
  List.existsb (fun kv => String.eqb (fst kv) key) o.

(** Property names that every object inherits from [Object.prototype];
    [key in {}] is true for them. *)
Definition objectPrototypeKeys : list string :=
  [ "constructor"; "__defineGetter__"; "__defineSetter__"; "hasOwnProperty";
    "__lookupGetter__"; "__lookupSetter__"; "isPrototypeOf";
    "propertyIsEnumerable"; "toString"; "valueOf"; "__proto__";
    "toLocaleString" ].

(** [key in result] *)
Definition key_in (o : QueryObject) (key : string) : bool :=
  has o key || List.existsb (String.eqb key) objectPrototypeKeys.

(** [delete o[key]] *)
Definition delete (o : QueryObject) (key : string) : QueryObject :=
  List.filter (fun kv => negb (String.eqb (fst kv) key)) o.

(** The characters that the key group of the parser's regular expression
    accepts: all but the equals sign, question mark, hash and ampersand. *)
Definition is_key_char (c : ascii) : bool :=
  negb (Ascii.eqb c "=" || Ascii.eqb c "?" || Ascii.eqb c "#" || Ascii.eqb c "&").

(** One match of the parser's global regular expression: a key, one
    optional equals sign, then a value, which is everything up to the
    next ampersand.  A match never crosses an ampersand: the value group
    stops in front of it and the key group cannot start on it, so the
    matches are found one per ampersand-separated segment. *)
Definition match_segment (segment : string) : option (string * string) :=
  match Js.span is_key_char (Js.dropWhile (fun c => negb (is_key_char c)) segment) with
  | (EmptyString, _) => None
  | (key, String "=" value) => Some (key, value)
  | (key, value) => Some (key, value)
  end.

Fixpoint parse_segments (segments : list string) (result : QueryObject) : QueryObject :=
  match segments with
  | [] => result
  | segment :: rest =>
      match match_segment segment with
      | Some (k, v) =>
          match decode k, decode v with
          | Some key, Some value =>
              if key_in result key then parse_segments rest result
              else parse_segments rest (result ++ [(key, value)])%list
          | _, _ => parse_segments rest result
          end
      | None => parse_segments rest result
      end
  end.

(** [querystring(query)], exported as [parse] *)
Definition parse (query : string) : QueryObject :=
  parse_segments (WhatwgUrl.split "&" query) [].

(** An array index: the canonical decimal form of an integer below
    [2^32 - 1]. *)
Definition array_index (key : string) : option N :=
  match key with
  | EmptyString => None
  | String "0" (String _ _) => None
  | _ =>
      match WhatwgUrl.parse_radix 10 key with
      | Some n => if (n <? 4294967295)%N then Some n else None
      | None => None
      end
  end.

Fixpoint insert_index (x : N * (string * string)) (l : list (N * (string * string)))
  : list (N * (string * string)) :=
  match l with
  | [] => [x]
  | y :: l' => if (fst x <=? fst y)%N then x :: l else y :: insert_index x l'
  end.

Fixpoint indexed (o : QueryObject) : list (N * (string * string)) :=
  match o with
  | [] => []
  | kv :: o' =>
      match array_index (fst kv) with
      | Some n => insert_index (n, kv) (indexed o')
      | None => indexed o'
      end
  end.

(** The order in which [for (key in obj)] visits the own properties:
    array indices in ascending order, then the other keys in creation
    order. *)
Definition enumerate (o : QueryObject) : QueryObject :=
  (List.map snd (indexed o)
   ++ List.filter (fun kv => negb (WhatwgUrl.is_Some (array_index (fst kv)))) o)%list.

(** [querystringify(obj, prefix)], exported as [stringify], with the
    default empty prefix. *)
Definition stringify (o : QueryObject) : string :=
  String.concat "&"
    (List.map (fun kv => encode (fst kv) ++ "=" ++ encode (snd kv)) (enumerate o)).

End Querystringify.

(* ================================================================== *)
(** * The [url-parse] package

    [new URLParse(address, true)] in an environment without a global
    [location] (React Native, Node): the base location contributes no
    protocol, no slashes and no components.  The leading-whitespace pattern of
    [trimLeft] is modelled on the code points below U+0080. *)

Module URLParse.

Inductive Query :=
| QueryString (s : string)
| QueryObject (o : Querystringify.QueryObject).

Record Url := mkUrl
  { slashes : bool;
    protocol : string;
    hash : string;
    query : Query;
    pathname : string;
    auth : string;
    host : string;
    port : string;
    hostname : string;
    username : string;
    password : string }.

(** [trimLeft(str)] followed by [address.replace(CRHTLF, '')] *)
Definition clean (address : string) : string :=
  Js.filter (fun c => negb (WhatwgUrl.is_tab_or_newline c))
    (Js.dropWhile WhatwgUrl.is_c0_or_space address).

Definition isSpecial (scheme : string) : bool :=
  String.eqb scheme "file:" || String.eqb scheme "ftp:"
  || String.eqb scheme "http:" || String.eqb scheme "https:"
  || String.eqb scheme "ws:" || String.eqb scheme "wss:".

Record Extracted := mkExtracted
  { e_protocol : string;
    e_slashes : bool;
    e_slashesCount : nat;
    e_rest : string }.

(** Group 1 of [protocolre]: [[a-z][a-z0-9.+-]*:], case-insensitive. *)
Definition match_protocol (address : string) : string * string :=
  match address with
  | String c _ =>
      if Js.is_alpha c then
        match Js.span WhatwgUrl.is_scheme_char address with
        | (run, String ":" rest) => (run ++ ":", rest)
        | _ => (EmptyString, address)
        end
      else (EmptyString, address)
  | EmptyString => (EmptyString, address)
  end.

(** [extractProtocol(address, location)] with an empty [location]. *)
Definition extractProtocol (address : string) : Extracted :=
  let address := clean address in
  let (m1, after1) := match_protocol address in
  let protocol := Js.toLowerCase m1 in
  let (m2, after2) :=
    match after1 with
    | String "/" (String "/" r) => ("//", r)
    | _ => (EmptyString, after1)
    end in
  let (m3, m4) := Js.span WhatwgUrl.is_slash after2 in
  let forwardSlashes := negb (String.eqb m2 "") in
  let slashesCount := (String.length m2 + String.length m3)%nat in
  let rest := m2 ++ m3 ++ m4 in
  let rest :=
    if String.eqb protocol "file:" then
      (if (2 <=? slashesCount)%nat then Js.drop 2 rest else rest)
    else if isSpecial protocol then m4
    else if negb (String.eqb protocol "") then
      (if forwardSlashes then Js.drop 2 rest else rest)
    else rest in
  mkExtracted protocol (forwardSlashes || isSpecial protocol) slashesCount rest.

(** [/^[a-zA-Z]:/.test(address)] *)
Definition windowsDriveLetter (address : string) : bool :=
  match address with
  | String a (String ":" _) => Js.is_alpha a
  | _ => false
  end.

(** A rule [[c, key]]: the component starts at the first [c]. *)
Definition cut_from (c : ascii) (address : string) : string * string :=
  Js.span (fun x => negb (Ascii.eqb x c)) address.

(** Splits at the last occurrence of [c]. *)
Fixpoint split_last (c : ascii) (s : string) : option (string * string) :=
  match s with
  | EmptyString => None
  | String x s' =>
      match split_last c s' with
      | Some (a, b) => Some (String x a, b)
      | None => if Ascii.eqb x c then Some (EmptyString, s') else None
      end
  end.

(** The port rule: a colon followed by digits only, up to the end. *)
Definition cut_port (address : string) : string * string :=
  match split_last ":" address with
  | Some (before, digits) =>
      if Js.forallb Js.is_digit digits then (before, digits)
      else (address, EmptyString)
  | None => (address, EmptyString)
  end.

(** [required(port, protocol)] of the [requires-port] package. *)
Definition required (port protocol : string) : bool :=
  let protocol := fst (cut_from ":" protocol) in
  match WhatwgUrl.parse_radix 10 port with
  | Some p =>
      if (p =? 0)%N then false
      else if String.eqb protocol "http" || String.eqb protocol "ws" then negb (p =? 80)%N
      else if String.eqb protocol "https" || String.eqb protocol "wss" then negb (p =? 443)%N
      else if String.eqb protocol "ftp" then negb (p =? 21)%N
      else if String.eqb protocol "gopher" then negb (p =? 70)%N
      else if String.eqb protocol "file" then false
      else true
  | None => false
  end.

(** [encodeURIComponent(decodeURIComponent(s))] *)
Definition recode (s : string) : option string :=
  option_map Querystringify.encodeURIComponent (Querystringify.decodeURIComponent s).

(** [password ? username + ':' + password : username] *)
Definition joinAuth (username password : string) : string :=
  if String.eqb password "" then username else username ++ ":" ++ password.

(** The constructor [Url(address, location, parser)]; [parser] tells
    whether the query string is parsed into an object.  It throws when
    the user information is not decodable. *)
Definition construct (address : string) (parser : bool) : Completion.t Url :=
  let address := clean address in
  let extracted := extractProtocol address in
  let protocol := e_protocol extracted in
  let pathOnly :=
    (String.eqb protocol "file:"
     && (negb (e_slashesCount extracted =? 2)%nat || windowsDriveLetter (e_rest extracted)))
    || (negb (e_slashes extracted)
        && (negb (String.eqb protocol "")
            || (e_slashesCount extracted <? 2)%nat
            || negb (isSpecial protocol))) in
  let (address, hash) := cut_from "#" (e_rest extracted) in
  let (address, query) := cut_from "?" address in
  let address :=
    if isSpecial protocol
    then Js.map (fun c => if Ascii.eqb c "\" then "/"%char else c) address
    else address in
  let (address, pathname) :=
    if pathOnly then (EmptyString, address) else cut_from "/" address in
  let (auth, address) :=
    match split_last "@" address with
    | Some (a, b) => (a, b)
    | None => (EmptyString, address)
    end in
  let host := Js.toLowerCase address in
  let (address, port) := cut_port address in
  let hostname := Js.toLowerCase address in
  let query := if parser then QueryObject (Querystringify.parse query) else QueryString query in
  let pathname :=
    if negb (Js.startsWith pathname "/") && isSpecial protocol
    then "/" ++ pathname else pathname in
  let (host, port) :=
    if required port protocol then (host, port) else (hostname, EmptyString) in
  let credentials :=
    if String.eqb auth "" then Some (EmptyString, EmptyString)
    else
      match cut_from ":" auth with
      | (user, String _ pass) =>
          match recode user, recode pass with
          | Some u, Some p => Some (u, p)
          | _, _ => None
          end
      | (user, EmptyString) =>
          match recode user with
          | Some u => Some (u, EmptyString)
          | None => None
          end
      end in
  match credentials with
  | None => Thrown (ErrorObject "URI malformed")
  | Some (username, password) =>
      Returned
        (mkUrl (e_slashes extracted) protocol hash query pathname
               (if String.eqb auth "" then auth else joinAuth username password)
               host port hostname username password)
  end.

(** The statements that every call of [set] runs after its [switch]:
    [host] and [hostname] are lower-cased and [auth] is rebuilt. *)
Definition afterSet (url : Url) : Url :=
  mkUrl (slashes url) (protocol url) (hash url) (query url) (pathname url)
        (joinAuth (username url) (password url))
        (Js.toLowerCase (host url)) (port url) (Js.toLowerCase (hostname url))
        (username url) (password url).

(** [url.set('protocol', value)] *)
Definition setProtocol (value : string) (url : Url) : Url :=
  afterSet
    (mkUrl true (Js.toLowerCase value) (hash url) (query url) (pathname url)
           (auth url) (host url) (port url) (hostname url)
           (username url) (password url)).

(** [url.set('hostname', value)] *)
Definition setHostname (value : string) (url : Url) : Url :=
  afterSet
    (mkUrl (slashes url) (protocol url) (hash url) (query url) (pathname url)
           (auth url)
           (if String.eqb (port url) "" then value else value ++ ":" ++ port url)
           (port url) value (username url) (password url)).

(** [url.set('hash', value)] *)
Definition setHash (value : string) (url : Url) : Url :=
  afterSet
    (mkUrl (slashes url) (protocol url)
           (if String.eqb value "" then value
            else if Js.startsWith value "#" then value else "#" ++ value)
           (query url) (pathname url) (auth url) (host url) (port url)
           (hostname url) (username url) (password url)).

(** [delete url.query[key]] on a parsed query. *)
Definition deleteQuery (key : string) (url : Url) : Url :=
  mkUrl (slashes url) (protocol url) (hash url)
        (match query url with
         | QueryObject o => QueryObject (Querystringify.delete o key)
         | QueryString s => QueryString s
         end)
        (pathname url) (auth url) (host url) (port url) (hostname url)
        (username url) (password url).

(** The [port] pattern: a colon and at least one digit at the end. *)
Definition endsWithPort (s : string) : bool :=
  match split_last ":" s with
  | Some (_, digits) => negb (String.eqb digits "") && Js.forallb Js.is_digit digits
  | None => false
  end.

(** [url.toString()] with the default stringifier builds its result by
    appending, in this order: the scheme with its slashes, the user
    information, the host, the path, the query and the hash. *)

(** [protocol + ((url.protocol && url.slashes) || isSpecial(url.protocol) ? '//' : '')],
    after a missing trailing colon has been added to [protocol]. *)
Definition schemePart (url : Url) : string :=
  (if negb (String.eqb (protocol url) "") && negb (Js.endsWithChar (protocol url) ":")
   then protocol url ++ ":" else protocol url)
  ++ (if (negb (String.eqb (protocol url) "") && slashes url) || isSpecial (protocol url)
      then "//" else "").

(** The [if (url.username) ... else if (url.password) ... else if ...]
    chain. *)
Definition userinfoPart (url : Url) : string :=
  if negb (String.eqb (username url) "") then
    username url
    ++ (if negb (String.eqb (password url) "") then ":" ++ password url else "")
    ++ "@"
  else if negb (String.eqb (password url) "") then
    ":" ++ password url ++ "@"
  else if negb (String.eqb (protocol url) "file:")
          && isSpecial (protocol url)
          && String.eqb (host url) ""
          && negb (String.eqb (pathname url) "/")
  then "@"
  else "".

(** [host], with the colon added back that parsing removed. *)
Definition hostPart (url : Url) : string :=
  if Js.endsWithChar (host url) ":"
     || (endsWithPort (hostname url) && String.eqb (port url) "")
  then host url ++ ":" else host url.

(** [if (query) result += '?' !== query.charAt(0) ? '?' + query : query] *)
Definition queryPart (url : Url) : string :=
  let query :=
    match query url with
    | QueryObject o => Querystringify.stringify o
    | QueryString s => s
    end in
  if String.eqb query "" then ""
  else if Js.startsWith query "?" then query
  else "?" ++ query.

Definition toString (url : Url) : string :=
  schemePart url ++ userinfoPart url ++ hostPart url ++ pathname url
  ++ queryPart url ++ hash url.

End URLParse.

(* ================================================================== *)
(** * App: URL normalisation (UrlNormalizationService.ts) *)

Module UrlNormalizationService.

Definition UTM_PARAMS : list string :=
  [ "utm_source"; "utm_medium"; "utm_campaign"; "utm_term"; "utm_content";
    "utm_id"; "utm_source_platform"; "utm_creative_format";
    "utm_marketing_tactic" ].

(** [isValidUrl]: whether [new URL(url)] returns. *)
Definition isValidUrl (url : string) : bool :=
  WhatwgUrl.is_Some (WhatwgUrl.parse url).

(** The object literal that the [catch] block of [normalizeUrl] throws. *)
Definition invalidUrlFormat : Exception :=
  AppErrorObject (mkAppError VALIDATION "Invalid URL format" false).

(** [cleanUrl.replace(/\/$/, '')] *)
Definition removeTrailingSlash (s : string) : string :=
  if Js.endsWithChar s "/" then Js.removeLast s else s.

(** The edits that [normalizeUrl] makes to the parsed URL (lines 38-59):
    the protocol becomes https, the host name is lower-cased and loses one
    leading [www.], the hash is emptied and the UTM keys are deleted from
    the query. *)
Definition normalise (parsed : URLParse.Url) : URLParse.Url :=
  let parsed := URLParse.setProtocol "https" parsed in
  let normalizedHost := Js.toLowerCase (URLParse.hostname parsed) in
  let normalizedHost :=
    if Js.startsWith normalizedHost "www." then Js.drop 4 normalizedHost
    else normalizedHost in
  let parsed := URLParse.setHostname normalizedHost parsed in
  let parsed := URLParse.setHash "" parsed in
  List.fold_left (fun p param => URLParse.deleteQuery param p) UTM_PARAMS parsed.

(** [normalizeUrl] *)
Definition normalizeUrl (url : string) : Completion.t string :=
  Completion.tryCatch
    (if negb (isValidUrl url) then Thrown (ErrorObject "Invalid URL format")
     else
       let* parsed := URLParse.construct url true in
       let cleanUrl := URLParse.toString (normalise parsed) in
       Returned (removeTrailingSlash cleanUrl))
    (fun _ => Thrown invalidUrlFormat).

(** [extractDomain] *)
Definition extractDomain (url : string) : string :=
  match URLParse.construct url false with
  | Returned parsed =>
      let domain := Js.toLowerCase (URLParse.hostname parsed) in
      if Js.startsWith domain "www." then Js.drop 4 domain else domain
  | Thrown _ => ""
  end.

(** [/^https?:\/\//] *)
Definition hasHttpPrefix (s : string) : bool :=
  Js.startsWith s "http://" || Js.startsWith s "https://".

(** [sanitizeUrl] *)
Definition sanitizeUrl (url : string) : string :=
  let sanitized := Js.trim url in
  if negb (hasHttpPrefix sanitized) then "https://" ++ sanitized else sanitized.

(** [areUrlsEqual] *)
Definition areUrlsEqual (url1 url2 : string) : bool :=
  match normalizeUrl url1, normalizeUrl url2 with
  | Returned normalized1, Returned normalized2 => String.eqb normalized1 normalized2
  | _, _ => false
  end.

End UrlNormalizationService.

(* ================================================================== *)
(** * App: the client retry wrapper (UrlPreviewService.ts) *)

Module UrlPreviewService.

(** [interface UrlPreview] *)
Record UrlPreview := mkUrlPreview
  { title : string;
    description : option string;
    imageUrl : option string;
    price : option string;
    sourceDomain : string;
    originalUrl : string;
    normalizedUrl : string }.

(** What the service does to the outside world, in order. *)
Inductive Event :=
| Request (url : string)   (* axios.get(url, ...) *)
| Delay (ms : N).          (* setTimeout(resolve, ms) *)

(** A computation that appends to the trace of events and returns or
    throws. *)
Definition M (A : Type) : Type := list Event -> Completion.t A * list Event.

Definition ret {A} (a : A) : M A := fun trace => (Returned a, trace).
Definition throw {A} (e : Exception) : M A := fun trace => (Thrown e, trace).
Definition bind {A B} (m : M A) (k : A -> M B) : M B :=
  fun trace =>
    match m trace with
    | (Returned a, trace') => k a trace'
    | (Thrown e, trace') => (Thrown e, trace')
    end.
Definition catch {A} (m : M A) (handler : Exception -> M A) : M A :=
  fun trace =>
    match m trace with
    | (Returned a, trace') => (Returned a, trace')
    | (Thrown e, trace') => handler e trace'
    end.
Definition lift {A} (c : Completion.t A) : M A := fun trace => (c, trace).

Definition TIMEOUT : N := 10000.
Definition MAX_RETRIES : nat := 3.
Definition RETRY_DELAY : N := 1000.

Section Service.

(** The network: what the [n]-th request of a run (counted from 0) to a
    URL comes to, a response body or a rejection. *)
Variable network : nat -> string -> Completion.t string.

(** The markup scans [extractTitle], [extractDescription],
    [extractImageUrl] and [extractPrice]. *)
Variable extractTitle : string -> option string.
Variable extractDescription : string -> option string.
Variable extractImageUrl : string -> string -> option string.
Variable extractPrice : string -> option string.

Definition requestCount (trace : list Event) : nat :=
  List.length (List.filter (fun e => match e with Request _ => true | _ => false end) trace).

(** [makeRequest] *)
Definition makeRequest (url : string) : M string :=
  fun trace => (network (requestCount trace) url, (trace ++ [Request url])%list).

(** [delay] *)
Definition delay (ms : N) : M unit :=
  fun trace => (Returned tt, (trace ++ [Delay ms])%list).

(** [parsePreviewData] *)
Definition parsePreviewData (html originalUrl : string) : Completion.t UrlPreview :=
  let* normalizedUrl := UrlNormalizationService.normalizeUrl originalUrl in
  let sourceDomain := UrlNormalizationService.extractDomain originalUrl in
  let title := extractTitle html in
  Returned
    (mkUrlPreview
       (match title with
        | Some (String c t) => String c t
        | _ => "Untitled"
        end)
       (extractDescription html) (extractImageUrl html originalUrl)
       (extractPrice html) sourceDomain originalUrl normalizedUrl).

(** [lastError?.message] inside a template literal. *)
Definition lastMessage (lastError : option Exception) : string :=
  match lastError with
  | Some e => messageOf e
  | None => "undefined"
  end.

(** The [for (let attempt = 1; attempt <= MAX_RETRIES; attempt++)] loop
    and the [throw] after it; [remaining] counts the attempts left. *)
Fixpoint attempts (remaining : nat) (attempt : nat) (sanitizedUrl : string)
         (lastError : option Exception) : M UrlPreview :=
  match remaining with
  | O =>
      throw (AppErrorObject
               (mkAppError NETWORK
                  ("Failed to fetch preview after "
                   ++ WhatwgUrl.decimal (N.of_nat MAX_RETRIES)
                   ++ " attempts: " ++ lastMessage lastError)
                  true))
  | S remaining' =>
      catch
        (bind (makeRequest sanitizedUrl)
              (fun data => lift (parsePreviewData data sanitizedUrl)))
        (fun error =>
           bind (if (attempt <? MAX_RETRIES)%nat
                 then delay (RETRY_DELAY * N.of_nat attempt)
                 else ret tt)
                (fun _ => attempts remaining' (S attempt) sanitizedUrl (Some error)))
  end.

(** [fetchPreview] *)
Definition fetchPreview (url : string) : M UrlPreview :=
  let sanitizedUrl := UrlNormalizationService.sanitizeUrl url in
  if negb (UrlNormalizationService.isValidUrl sanitizedUrl) then
    throw (AppErrorObject (mkAppError VALIDATION "Invalid URL provided" false))
  else attempts MAX_RETRIES 1 sanitizedUrl None.

End Service.

End UrlPreviewService.

(* ================================================================== *)
(** * App: the wishlist database (DatabaseService.ts) *)

Module DatabaseService.

(** [interface WishlistItem].  Records written by schema version 1 have
    no [normalizedUrl] key: [None] is that missing key. *)
Record WishlistItem := mkItem
  { id : string;
    title : string;
    imageUrl : option string;
    price : option string;
    sourceDomain : string;
    originalUrl : string;
    normalizedUrl : option string;
    createdAt : string;
    updatedAt : string }.

(** [Omit<WishlistItem, 'id' | 'createdAt' | 'updatedAt'>] *)
Record NewItem := mkNewItem
  { n_title : string;
    n_imageUrl : option string;
    n_price : option string;
    n_sourceDomain : string;
    n_originalUrl : string;
    n_normalizedUrl : string }.

(** [Partial<WishlistItem>]: [None] is a key that the update leaves out. *)
Record Updates := mkUpdates
  { u_id : option string;
    u_title : option string;
    u_imageUrl : option (option string);
    u_price : option (option string);
    u_sourceDomain : option string;
    u_originalUrl : option string;
    u_normalizedUrl : option string;
    u_createdAt : option string;
    u_updatedAt : option string }.

Definition noUpdates : Updates :=
  mkUpdates None None None None None None None None None.

(** The two keys of AsyncStorage that the service owns.  The wishlist key
    holds what [saveItems] serialised, or nothing. *)
Record Storage := mkStorage
  { wishlist : option (list WishlistItem);
    schemaVersion : option N }.

Definition CURRENT_SCHEMA_VERSION : N := 2.

(** [getAllItems] *)
Definition getAllItems (st : Storage) : list WishlistItem :=
  match wishlist st with
  | Some items => items
  | None => []
  end.

(** [saveItems] *)
Definition saveItems (items : list WishlistItem) (st : Storage) : Storage :=
  mkStorage (Some items) (schemaVersion st).

Definition option_eqb (a b : option string) : bool :=
  match a, b with
  | Some x, Some y => String.eqb x y
  | None, None => true
  | _, _ => false
  end.

(** [addItem]; the fresh identifier and the current time come from the
    environment. *)
Definition addItem (newId now : string) (item : NewItem) (st : Storage)
  : Completion.t WishlistItem * Storage :=
  let items := getAllItems st in
  let isDuplicate :=
    List.existsb (fun existingItem =>
                    option_eqb (normalizedUrl existingItem) (Some (n_normalizedUrl item)))
                 items in
  if isDuplicate then (Thrown (ErrorObject "Item already exists in wishlist"), st)
  else
    let newItem :=
      mkItem newId (n_title item) (n_imageUrl item) (n_price item)
             (n_sourceDomain item) (n_originalUrl item)
             (Some (n_normalizedUrl item)) now now in
    (Returned newItem, saveItems (items ++ [newItem])%list st).

Definition orElse {A} (o : option A) (d : A) : A :=
  match o with Some a => a | None => d end.

(** [{ ...item, ...updates, updatedAt: now }] *)
Definition merge (item : WishlistItem) (updates : Updates) (now : string) : WishlistItem :=
  mkItem (orElse (u_id updates) (id item))
         (orElse (u_title updates) (title item))
         (orElse (u_imageUrl updates) (imageUrl item))
         (orElse (u_price updates) (price item))
         (orElse (u_sourceDomain updates) (sourceDomain item))
         (orElse (u_originalUrl updates) (originalUrl item))
         (match u_normalizedUrl updates with
          | Some n => Some n
          | None => normalizedUrl item
          end)
         (orElse (u_createdAt updates) (createdAt item))
         now.

(** [items[index] = merged] at [index = items.findIndex(item => item.id === id)] *)
Fixpoint updateFirst (itemId : string) (updates : Updates) (now : string)
         (items : list WishlistItem) : option (WishlistItem * list WishlistItem) :=
  match items with
  | [] => None
  | item :: rest =>
      if String.eqb (id item) itemId
      then let merged := merge item updates now in Some (merged, merged :: rest)
      else
        match updateFirst itemId updates now rest with
        | Some (merged, rest') => Some (merged, item :: rest')
        | None => None
        end
  end.

(** [updateItem] *)
Definition updateItem (itemId : string) (updates : Updates) (now : string)
           (st : Storage) : Completion.t (option WishlistItem) * Storage :=
  match updateFirst itemId updates now (getAllItems st) with
  | None => (Returned None, st)
  | Some (merged, items) => (Returned (Some merged), saveItems items st)
  end.

(** [deleteItem] *)
Definition deleteItem (itemId : string) (st : Storage)
  : Completion.t bool * Storage :=
  let items := getAllItems st in
  let filteredItems := List.filter (fun item => negb (String.eqb (id item) itemId)) items in
  if (List.length filteredItems =? List.length items)%nat then (Returned false, st)
  else (Returned true, saveItems filteredItems st).

(** [itemExists] *)
Definition itemExists (url : string) (st : Storage) : bool :=
  List.existsb (fun item => option_eqb (normalizedUrl item) (Some url)) (getAllItems st).

(** The callback of [items.map] in [migrateToV2]. *)
Definition migrateItem (item : WishlistItem) : Completion.t WishlistItem :=
  let missing :=
    match normalizedUrl item with
    | None => true
    | Some n => String.eqb n ""
    end in
  if missing && negb (String.eqb (originalUrl item) "") then
    let* n := UrlNormalizationService.normalizeUrl (originalUrl item) in
    Returned (mkItem (id item) (title item) (imageUrl item) (price item)
                     (sourceDomain item) (originalUrl item) (Some n)
                     (createdAt item) (updatedAt item))
  else Returned item.

Fixpoint migrateItems (items : list WishlistItem) : Completion.t (list WishlistItem) :=
  match items with
  | [] => Returned []
  | item :: rest =>
      let* item' := migrateItem item in
      let* rest' := migrateItems rest in
      Returned (item' :: rest')
  end.

(** [migrateToV2] *)
Definition migrateToV2 (st : Storage) : Completion.t unit * Storage :=
  match wishlist st with
  | None => (Returned tt, st)
  | Some items =>
      match migrateItems items with
      | Returned migratedItems => (Returned tt, saveItems migratedItems st)
      | Thrown e => (Thrown e, st)
      end
  end.

(** [getSchemaVersion] *)
Definition getSchemaVersion (st : Storage) : N :=
  match schemaVersion st with
  | Some v => v
  | None => 1
  end.

(** [runMigrations] *)
Definition runMigrations (fromVersion : N) (st : Storage) : Completion.t unit * Storage :=
  if (fromVersion <? 2)%N then migrateToV2 st else (Returned tt, st).

(** [initialize] *)
Definition initialize (st : Storage) : Completion.t unit * Storage :=
  let currentVersion := getSchemaVersion st in
  if (currentVersion <? CURRENT_SCHEMA_VERSION)%N then
    match runMigrations currentVersion st with
    | (Returned _, st') =>
        (Returned tt, mkStorage (wishlist st') (Some CURRENT_SCHEMA_VERSION))
    | (Thrown e, st') => (Thrown e, st')
    end
  else (Returned tt, st).

End DatabaseService.

(* ================================================================== *)
(** * App: the wishlist store (stores/wishlistStore.ts) *)

Module WishlistStore.

Import DatabaseService.

Inductive LoadingState := IDLE | LOADING | SUCCESS | ERROR.

(** The state of the store. *)
Record State := mkState
  { items : list WishlistItem;
    loadingState : LoadingState;
    error : option AppError;
    totalItems : Z }.

(** The [catch] block shared by [addItem] and [addItemWithPreview]. *)
Definition classifyAddError (e : Exception) : AppError :=
  match e with
  | ErrorObject msg =>
      if Js.includes msg "already exists"
      then mkAppError DUPLICATE "This item is already in your wishlist" false
      else mkAppError NETWORK msg true
  | AppErrorObject _ => mkAppError UNKNOWN "Failed to add item to wishlist" true
  end.

(** [addItemWithPreview] over the state of the store and the database. *)
Definition addItemWithPreview (newId now : string) (preview : NewItem)
           (s : State) (db : Storage) : State * Storage :=
  match DatabaseService.addItem newId now preview db with
  | (Returned newItem, db') =>
      (mkState (newItem :: items s) SUCCESS None (totalItems s + 1), db')
  | (Thrown e, db') =>
      (mkState (items s) ERROR (Some (classifyAddError e)) (totalItems s), db')
  end.

End WishlistStore.

(* ================================================================== *)
(** * Server: configuration and request validation
      (config/app-config.ts, validators/index.ts) *)

Module ConfigManager.

Record SecurityConfig := mkSecurityConfig
  { blockedPatterns : list string;
    maxHtmlSize : N }.

(** The [security] part of [createConfig]; [MAX_HTML_SIZE] is read from
    the environment and is 524288 when the variable is not set. *)
Definition createSecurityConfig (envMaxHtmlSize : option N) : SecurityConfig :=
  mkSecurityConfig
    [ "localhost"; "127.0.0.1"; "0.0.0.0"; "10.0.0.0/8"; "172.16.0.0/12";
      "192.168.0.0/16"; "169.254.0.0/16"; "::1"; "fc00::/7"; "fe80::/10" ]
    (match envMaxHtmlSize with Some n => n | None => 524288%N end).

End ConfigManager.

Module Validators.

Import ConfigManager.

(** [interface ValidationResult] *)
Record ValidationResult := mkValidation
  { isValid : bool;
    errors : list string }.

(** [{ isValid: errors.length === 0, errors }] *)
Definition fromErrors (errors : list string) : ValidationResult :=
  mkValidation (List.length errors =? 0)%nat errors.

(** The [for (const pattern of blockedPatterns)] loop: one error at the
    first pattern that the host name includes. *)
Definition blockedErrors (patterns : list string) (hostname : string) : list string :=
  if List.existsb (fun pattern => Js.includes hostname pattern) patterns
  then ["Access to private/loopback IP addresses is not allowed"]
  else [].

(** [URLValidator.validate]; [None] is a [url] that is missing or not a
    string. *)
Definition validateUrl (config : SecurityConfig) (url : option string) : ValidationResult :=
  match url with
  | None => mkValidation false ["URL is required and must be a string"]
  | Some EmptyString => mkValidation false ["URL is required and must be a string"]
  | Some url =>
      if (String.length (Js.trim url) =? 0)%nat
      then mkValidation false ["URL cannot be empty"]
      else
        match WhatwgUrl.parse url with
        | Some urlObj =>
            let e1 :=
              if String.eqb (WhatwgUrl.protocol urlObj) "http:"
                 || String.eqb (WhatwgUrl.protocol urlObj) "https:"
              then [] else ["URL must use HTTP or HTTPS protocol"] in
            let e2 :=
              if String.eqb (WhatwgUrl.hostname urlObj) ""
              then ["URL must have a valid hostname"] else [] in
            let e3 :=
              blockedErrors (blockedPatterns config)
                            (Js.toLowerCase (WhatwgUrl.hostname urlObj)) in
            fromErrors (e1 ++ e2 ++ e3)%list
        | None => fromErrors ["Invalid URL format"]
        end
  end.

(** The [raw_html] member of a request body. *)
Inductive RawHtml :=
| RawHtmlAbsent
| RawHtmlNotAString
| RawHtmlString (s : string).

(** [interface PreviewRequest], as the JSON body carries it. *)
Record PreviewRequest := mkPreviewRequest
  { url : option string;
    raw_html : RawHtml }.

(** [PreviewRequestValidator.validate]; [None] is a missing body. *)
Definition validate (config : SecurityConfig) (request : option PreviewRequest)
  : ValidationResult :=
  match request with
  | None => mkValidation false ["Request body is required"]
  | Some request =>
      let urlValidation := validateUrl config (url request) in
      let e1 := if isValid urlValidation then [] else errors urlValidation in
      let e2 :=
        match raw_html request with
        | RawHtmlAbsent => []
        | RawHtmlNotAString => ["raw_html must be a string"]
        | RawHtmlString s =>
            if (maxHtmlSize config <? N.of_nat (String.length s))%N
            then ["raw_html exceeds maximum size of "
                  ++ WhatwgUrl.decimal (maxHtmlSize config) ++ " bytes"]
            else []
        end in
      fromErrors (e1 ++ e2)%list
  end.

End Validators.

(* ================================================================== *)
(** * Server: the extraction orchestrator
      (src/server/src/services/extraction-service.ts) *)

Module Types.

(** A property of an object literal: not a key of the object, a key
    holding [null], or a key holding a value. *)
Inductive Field (A : Type) :=
| Absent
| Null
| Val (a : A).
Arguments Absent {A}.
Arguments Null {A}.
Arguments Val {A} a.

(** [interface ExtractionResult] *)
Record ExtractionResult := mkExtractionResult
  { title : Field string;
    image : Field string;
    images : Field (list string);
    price : Field string;
    currency : Field string;
    originalPrice : Field string;
    discount : Field string;
    siteName : Field string;
    description : Field string;
    category : Field string;
    brand : Field string;
    rating : Field string;
    reviewCount : Field string;
    availability : Field string;
    features : Field (list string);
    offers : Field (list string);
    contentType : Field string }.

(** The object literal [{}]. *)
Definition emptyResult : ExtractionResult :=
  mkExtractionResult Absent Absent Absent Absent Absent Absent Absent Absent
    Absent Absent Absent Absent Absent Absent Absent Absent Absent.

(** [enum ExtractionMethod] *)
Inductive ExtractionMethod := HTTP_EXTRACTION | FAST_AI | FALLBACK.

(** [ExtractionOptions.forceMethod?: 'http' | 'ai' | 'fallback'] *)
Inductive ForceMethod := ForceHttp | ForceAi | ForceFallback.

Definition forceMethodString (f : ForceMethod) : string :=
  match f with
  | ForceHttp => "http"
  | ForceAi => "ai"
  | ForceFallback => "fallback"
  end.

Record ExtractionOptions := mkOptions
  { forceMethod : option ForceMethod;
    rawHtml : option string }.

(** The default parameter [options = {}]. *)
Definition noOptions : ExtractionOptions := mkOptions None None.

(** [interface IExtractor], with the class name that the orchestrator reads
    through [extractor.constructor.name]. *)
Record IExtractor := mkExtractor
  { constructorName : string;
    extract : string -> Completion.t ExtractionResult;
    canExtract : string -> bool;
    getPriority : Z }.

(** What [ExtractionService.extract] resolves to. *)
Record Outcome := mkOutcome
  { result : ExtractionResult;
    method : ExtractionMethod;
    confidence : Q }.

End Types.
Import Types.

Module ExtractionService.

(** [1] when the key is present with a value other than [null]. *)
Definition nonNull {A} (f : Field A) : nat :=
  match f with
  | Val _ => 1
  | _ => 0
  end.

(** [Object.keys(result).filter(key => result[key] !== null).length] *)
Definition fieldsCount (r : ExtractionResult) : nat :=
  nonNull (title r) + nonNull (image r) + nonNull (images r)
  + nonNull (price r) + nonNull (currency r) + nonNull (originalPrice r)
  + nonNull (discount r) + nonNull (siteName r) + nonNull (description r)
  + nonNull (category r) + nonNull (brand r) + nonNull (rating r)
  + nonNull (reviewCount r) + nonNull (availability r)
  + nonNull (features r) + nonNull (offers r) + nonNull (contentType r).

(** [hasGoodData] (lines 92-98) *)
Definition hasGoodData (r : ExtractionResult) : bool :=
  match title r with
  | Val t =>
      negb (String.eqb t "")
      && (20 <? String.length t)%nat
      && negb (Js.includes (Js.toLowerCase t) "online shopping")
      && negb (Js.includes (Js.toLowerCase t) "welcome to")
      && negb (Js.includes (Js.toLowerCase t) "home page")
  | _ => false
  end.

(** [getExtractionMethod] (lines 100-110) *)
Definition getExtractionMethod (ex : IExtractor) : ExtractionMethod :=
  let className := Js.toLowerCase (constructorName ex) in
  if Js.includes className "http" then HTTP_EXTRACTION
  else if Js.includes className "ai" then FAST_AI
  else FALLBACK.

(** [calculateConfidence] (lines 112-133) *)
Definition calculateConfidence (r : ExtractionResult) (m : ExtractionMethod) : Q :=
  let confidence :=
    match m with
    | FAST_AI => 9 # 10
    | HTTP_EXTRACTION => 8 # 10
    | FALLBACK => 5 # 10
    end in
  let qualityBonus := Qmin (inject_Z (Z.of_nat (fieldsCount r)) * (5 # 100)) (1 # 10) in
  Qmin (confidence + qualityBonus) 1.

(** [[...this.extractors].sort((a, b) => a.getPriority() - b.getPriority())]:
    the sort is stable, equal priorities keep their registration order. *)
Fixpoint insertByPriority (x : IExtractor) (l : list IExtractor) : list IExtractor :=
  match l with
  | [] => [x]
  | y :: l' =>
      if (getPriority x <=? getPriority y)%Z then x :: l
      else y :: insertByPriority x l'
  end.

Fixpoint sortExtractors (l : list IExtractor) : list IExtractor :=
  match l with
  | [] => []
  | x :: l' => insertByPriority x (sortExtractors l')
  end.

(** [options.forceMethod] is set and the lower-cased class name does not
    include it (lines 36-41). *)
Definition forcedOut (options : ExtractionOptions) (ex : IExtractor) : bool :=
  match forceMethod options with
  | Some f => negb (Js.includes (Js.toLowerCase (constructorName ex)) (forceMethodString f))
  | None => false
  end.

(** The [for (const extractor of sortedExtractors)] loop together with the
    two [throw] statements after it (lines 23-84). *)
Fixpoint tryExtractors (sorted : list IExtractor) (url : string)
         (options : ExtractionOptions) (lastError : option Exception)
  : Completion.t Outcome :=
  match sorted with
  | [] =>
      match lastError with
      | Some e => Thrown e
      | None => Thrown (ErrorObject "No extractors available")
      end
  | ex :: rest =>
      if negb (canExtract ex url) then tryExtractors rest url options lastError
      else if forcedOut options ex then tryExtractors rest url options lastError
      else
        match Types.extract ex url with
        | Returned r =>
            if hasGoodData r then
              let m := getExtractionMethod ex in
              Returned (mkOutcome r m (calculateConfidence r m))
            else tryExtractors rest url options lastError
        | Thrown e => tryExtractors rest url options (Some e)
        end
  end.

(** [ExtractionService.extract]; the outer [catch] logs and rethrows. *)
Definition extract (extractors : list IExtractor) (url : string)
           (options : ExtractionOptions) : Completion.t Outcome :=
  Completion.tryCatch
    (tryExtractors (sortExtractors extractors) url options None)
    (fun error => Thrown error).

End ExtractionService.

(* ================================================================== *)
(** * Server: the three strategies and the request handler *)

Module FallbackExtractor.

(** The record that [extract] builds from the host name (lines 16-21). *)
Definition recordFor (hostname : string) : ExtractionResult :=
  mkExtractionResult
    (Val ("Page from " ++ hostname)) Absent Absent Absent Absent Absent Absent
    (Val hostname) (Val ("Content from " ++ hostname))
    Absent Absent Absent Absent Absent Absent Absent (Val "webpage").

(** [FallbackExtractor.extract]: [new URL(url)] throws on a string that
    does not parse. *)
Definition extract (url : string) : Completion.t ExtractionResult :=
  match WhatwgUrl.parse url with
  | Some urlObj => Returned (recordFor (WhatwgUrl.hostname urlObj))
  | None => Thrown (ErrorObject "Invalid URL")
  end.

Definition canExtract (_url : string) : bool := true.

Definition getPriority : Z := 3.

Definition instance : IExtractor :=
  mkExtractor "FallbackExtractor" extract canExtract getPriority.

End FallbackExtractor.

Module HttpExtractor.

(** [HttpExtractor.canExtract] *)
Definition canExtract (url : string) : bool :=
  match WhatwgUrl.parse url with
  | Some urlObj =>
      String.eqb (WhatwgUrl.protocol urlObj) "http:"
      || String.eqb (WhatwgUrl.protocol urlObj) "https:"
  | None => false
  end.

Definition getPriority : Z := 1.

(** [HttpExtractor.extract] over an HTTP client, which answers a URL with
    a response body or rejects, and over the markup scan
    [extractFromHTML], which catches its own errors. *)
Definition extract (httpClient : string -> Completion.t string)
           (extractFromHTML : string -> WhatwgUrl.URL -> ExtractionResult)
           (url : string) : Completion.t ExtractionResult :=
  let* data := httpClient url in
  match WhatwgUrl.parse url with
  | Some urlObj => Returned (extractFromHTML data urlObj)
  | None => Thrown (ErrorObject "Invalid URL")
  end.

Definition instance (httpClient : string -> Completion.t string)
           (extractFromHTML : string -> WhatwgUrl.URL -> ExtractionResult)
  : IExtractor :=
  mkExtractor "HttpExtractor" (extract httpClient extractFromHTML)
              canExtract getPriority.

End HttpExtractor.

Module AIExtractor.

Definition getPriority : Z := 2.

(** [AIExtractor.extract] over the AI service: whether it is configured,
    and what screenshot, analysis and response parsing come to for a URL. *)
Definition extract (isConfigured : bool)
           (analyse : string -> Completion.t ExtractionResult)
           (url : string) : Completion.t ExtractionResult :=
  if negb isConfigured then Thrown (ErrorObject "OpenAI API key not configured")
  else analyse url.

Definition instance (isConfigured : bool)
           (analyse : string -> Completion.t ExtractionResult) : IExtractor :=
  mkExtractor "AIExtractor" (extract isConfigured analyse)
              (fun _ => isConfigured) getPriority.

End AIExtractor.

Module Server.

(** What the [POST /api/preview] handler sends, without the request-level
    timer. *)
Inductive Response :=
| ErrorResponse (statusCode : nat) (message : string)
| PreviewResponse (outcome : Outcome).

(** The handler (src/server/src/index.ts, lines 102-191). *)
Definition postPreview (config : ConfigManager.SecurityConfig)
           (extractors : list IExtractor)
           (body : option Validators.PreviewRequest) : Response :=
  let validation := Validators.validate config body in
  if negb (Validators.isValid validation)
  then ErrorResponse 400 (String.concat ", " (Validators.errors validation))
  else
    match body with
    | Some (Validators.mkPreviewRequest (Some url) raw_html) =>
        let options :=
          match raw_html with
          | Validators.RawHtmlString (String c s) => mkOptions None (Some (String c s))
          | _ => noOptions
          end in
        match ExtractionService.extract extractors url options with
        | Returned outcome => PreviewResponse outcome
        | Thrown _ => ErrorResponse 500 "Internal server error"
        end
    | _ => ErrorResponse 500 "Internal server error"
    end.

End Server.

(* ================================================================== *)
(** * Vocabulary of the properties *)

Module Pipeline.

Import ExtractionService.

(** What one strategy comes to on a URL, seen from the orchestrator. *)
Inductive Verdict :=
| Skipped                            (* canExtract false, or forced out *)
| Failed (e : Exception)             (* extract threw *)
| Rejected (r : ExtractionResult)    (* the quality gate refused the record *)
| Accepted (r : ExtractionResult).   (* the quality gate accepted the record *)

Definition verdict (options : ExtractionOptions) (url : string) (ex : IExtractor)
  : Verdict :=
  if negb (canExtract ex url) then Skipped
  else if forcedOut options ex then Skipped
  else
    match Types.extract ex url with
    | Returned r => if hasGoodData r then Accepted r else Rejected r
    | Thrown e => Failed e
    end.

Definition accepts (options : ExtractionOptions) (url : string) (ex : IExtractor) : bool :=
  match verdict options url ex with
  | Accepted _ => true
  | _ => false
  end.

(** The strategy ran: [extract] was called on it. *)
Definition ran (options : ExtractionOptions) (url : string) (ex : IExtractor) : bool :=
  match verdict options url ex with
  | Skipped => false
  | _ => true
  end.

(** The errors that the strategies of a list throw, in order. *)
Fixpoint failures (options : ExtractionOptions) (url : string)
         (l : list IExtractor) : list Exception :=
  match l with
  | [] => []
  | ex :: rest =>
      match verdict options url ex with
      | Failed e => e :: failures options url rest
      | _ => failures options url rest
      end
  end.

Definition noExtractorsAvailable : Exception :=
  ErrorObject "No extractors available".

(** A character that is neither a space nor a slash. *)
Definition plain (c : ascii) : bool :=
  negb (Ascii.eqb c " ") && negb (Ascii.eqb c "/").

End Pipeline.

(** Concrete surroundings for the strategies, used to run the pipeline. *)
Module Scenario.

(** An HTTP client whose requests are rejected. *)
Definition offlineClient (_ : string) : Completion.t string :=
  Thrown (ErrorObject "Network Error").

(** An HTTP client that is served a shop's landing page. *)
Definition landingPageClient (_ : string) : Completion.t string :=
  Returned "<html><head><title>Welcome to Shop</title></head></html>".

(** A markup scan that finds the landing page's title and no site name. *)
Definition landingPageScan (_ : string) (urlObj : WhatwgUrl.URL) : ExtractionResult :=
  mkExtractionResult
    (Val "Welcome to Shop") Absent Absent Absent Absent Absent Absent
    (Val (WhatwgUrl.hostname urlObj)) Absent
    Absent Absent Absent Absent Absent Absent Absent Absent.

(** The AI strategy without an API key. *)
Definition unconfiguredAI : IExtractor :=
  AIExtractor.instance false
    (fun _ => Thrown (ErrorObject "OpenAI API key not configured")).

(** The registry of the service container, in registration order, when
    the network is down and no API key is set. *)
Definition offlineRegistry : list IExtractor :=
  [ HttpExtractor.instance offlineClient landingPageScan;
    unconfiguredAI;
    FallbackExtractor.instance ].

(** The same registry when the page is served and is a landing page. *)
Definition landingPageRegistry : list IExtractor :=
  [ HttpExtractor.instance landingPageClient landingPageScan;
    unconfiguredAI;
    FallbackExtractor.instance ].

End Scenario.

(** Vocabulary for the canonicaliser, the store and the retry wrapper. *)
Module Vocabulary.


(** No two stored entries share a [normalizedUrl]. *)
Definition noDuplicateUrls (st : DatabaseService.Storage) : Prop :=
  NoDup (List.map DatabaseService.normalizedUrl (DatabaseService.getAllItems st)).

(** The update leaves [normalizedUrl] alone, or sets it to a URL that no
    stored entry has. *)
Definition keepsUrlsApart (updates : DatabaseService.Updates)
           (st : DatabaseService.Storage) : Prop :=
  match DatabaseService.u_normalizedUrl updates with
  | None => True
  | Some n => DatabaseService.itemExists n st = false
  end.

(** Every stored entry has a non-empty [normalizedUrl]: the store holds
    schema version 2 records only. *)
Definition allNormalized (st : DatabaseService.Storage) : Prop :=
  Forall (fun item =>
            exists n, DatabaseService.normalizedUrl item = Some n /\ n <> "")
         (DatabaseService.getAllItems st).

(** The delays of a trace, in order. *)
Fixpoint delaysOf (trace : list UrlPreviewService.Event) : list N :=
  match trace with
  | [] => []
  | UrlPreviewService.Delay ms :: rest => ms :: delaysOf rest
  | UrlPreviewService.Request _ :: rest => delaysOf rest
  end.

End Vocabulary.

Module StoreScenario.

Import DatabaseService.

Definition itemA : WishlistItem :=
  mkItem "1" "Lamp" None (Some "$20.00") "a.com" "https://www.a.com/lamp"
         (Some "https://a.com/lamp") "2024-01-01T00:00:00.000Z" "2024-01-01T00:00:00.000Z".

Definition itemB : WishlistItem :=
  mkItem "2" "Desk" None None "b.com" "https://b.com/desk"
         (Some "https://b.com/desk") "2024-01-02T00:00:00.000Z" "2024-01-02T00:00:00.000Z".

(** A store of schema version 2 with two entries. *)
Definition twoItems : Storage := mkStorage (Some [itemA; itemB]) (Some 2%N).

(** A request to add the lamp again, under a URL that canonicalises to the
    stored one. *)
Definition lampAgain : NewItem :=
  mkNewItem "Lamp" None None "a.com" "https://a.com/lamp?utm_source=mail"
            "https://a.com/lamp".

Definition chair : NewItem :=
  mkNewItem "Chair" None None "c.com" "https://c.com/chair" "https://c.com/chair".

(** An edit that moves the desk to the lamp's canonical URL. *)
Definition deskToLamp : Updates :=
  mkUpdates None None None None None None (Some "https://a.com/lamp") None None.

Definition rename : Updates :=
  mkUpdates None (Some "Standing desk") None None None None None None None.

Definition emptyState : WishlistStore.State :=
  WishlistStore.mkState [] WishlistStore.IDLE None 0.

(** An entry written by schema version 1: it has no [normalizedUrl]. *)
Definition legacyLamp : WishlistItem :=
  mkItem "0" "Lamp" None None "a.com" "http://www.a.com/lamp/?utm_source=mail"
         None "2023-12-01T00:00:00.000Z" "2023-12-01T00:00:00.000Z".

(** A store of schema version 1 that holds the legacy entry. *)
Definition legacyStore : Storage := mkStorage (Some [legacyLamp]) None.

(** The lamp, with its canonical URL. *)
Definition lamp : NewItem :=
  mkNewItem "Lamp" None (Some "$20.00") "a.com" "https://www.a.com/lamp"
            "https://a.com/lamp".

End StoreScenario.

Module RetryScenario.

(** A network on which every request is rejected; the rejection tells
    which request it was. *)
Definition deadNetwork (n : nat) (_ : string) : Completion.t string :=
  Thrown (ErrorObject ("timeout of 10000ms exceeded (request "
                       ++ WhatwgUrl.decimal (N.of_nat n) ++ ")")).

Definition noScan (_ : string) : option string := None.
Definition noImage (_ _ : string) : option string := None.

End RetryScenario.

(** Plain web addresses: [scheme://host/path?key=value&...#fragment] with
    no credentials, no port and no escapes in the query.  On these the
    canonical form can be written down and compared. *)
Module PlainUrl.

(** A character above the space: not a control character, not a space. *)
Definition above_space (c : ascii) : bool := (32 <? WhatwgUrl.code c)%nat.

(** A character of a path: above the space and none of [?], [#], [\]. *)
Definition path_char (c : ascii) : bool :=
  above_space c && negb (Ascii.eqb c "?") && negb (Ascii.eqb c "#")
  && negb (Ascii.eqb c "\").

(** [normalizedHost.startsWith('www.') ? normalizedHost.substring(4) : normalizedHost] *)
Definition stripWww (host : string) : string :=
  if Js.startsWith host "www." then Js.drop 4 host else host.

(** The host is a domain name or an IPv4 address that the URL parser
    accepts and returns as it is written. *)
Definition canonicalHost (host : string) : Prop :=
  WhatwgUrl.host_parse false host = Some host /\ Js.startsWith host "[" = false.

(** A query parameter written without escapes: the key is not empty, key
    and value are made of characters that [encodeURIComponent] leaves
    alone, and the key is not an array index. *)
Definition plainPair (kv : string * string) : bool :=
  negb (String.eqb (fst kv) "")
  && Js.forallb Querystringify.is_unescaped (fst kv)
  && Js.forallb Querystringify.is_unescaped (snd kv)
  && negb (WhatwgUrl.is_Some (Querystringify.array_index (fst kv))).

Definition segment (kv : string * string) : string := fst kv ++ "=" ++ snd kv.

Definition renderQuery (pairs : list (string * string)) : string :=
  match pairs with
  | [] => ""
  | _ => "?" ++ String.concat "&" (List.map segment pairs)
  end.

Definition renderFragment (fragment : option string) : string :=
  match fragment with
  | Some f => "#" ++ f
  | None => ""
  end.

(** The address as a string. *)
Definition render (secure : bool) (host path : string)
           (pairs : list (string * string)) (fragment : option string) : string :=
  (if secure then "https" else "http") ++ "://" ++ host ++ path
  ++ renderQuery pairs ++ renderFragment fragment.

(** [path] ends with two slashes. *)
Definition endsWithTwoSlashes (path : string) : bool :=
  Js.endsWithChar path "/" && Js.endsWithChar (Js.removeLast path) "/".

(** The conditions on the parts of a plain address: the host is canonical
    with and without its leading [www.], of which it has at most one; the
    path is empty or starts with a slash and does not end with two; the
    query parameters are plain; the fragment has no control character and
    no space. *)
Definition wellFormed (host path : string) (pairs : list (string * string))
           (fragment : option string) : Prop :=
  canonicalHost host
  /\ canonicalHost (stripWww host)
  /\ Js.startsWith (stripWww host) "www." = false
  /\ (path = "" \/ Js.startsWith path "/" = true)
  /\ Js.forallb path_char path = true
  /\ endsWithTwoSlashes path = false
  /\ List.forallb plainPair pairs = true
  /\ match fragment with
     | Some f => Js.forallb above_space f = true
     | None => True
     end.

(** A character that a canonical host can have: no forbidden domain code
    point and no upper-case letter. *)
Definition host_char (c : ascii) : bool :=
  negb (WhatwgUrl.forbidden_domain_code_point c) && negb (Js.is_upper c).

(** The string is empty or starts with a character that fails [p]. *)
Definition stops (p : ascii -> bool) (s : string) : Prop :=
  match s with
  | EmptyString => True
  | String c _ => p c = false
  end.

(** What the query parser keeps of a list of parameters: the first
    parameter of every key that is not a property of [Object.prototype]. *)
Fixpoint collect (pairs : list (string * string)) (result : Querystringify.QueryObject)
  : Querystringify.QueryObject :=
  match pairs with
  | [] => result
  | (key, value) :: rest =>
      if Querystringify.key_in result key then collect rest result
      else collect rest (result ++ [(key, value)])%list
  end.

(** The keys of an object are pairwise distinct and none of them is a
    property of [Object.prototype]. *)
Definition goodKeys (o : Querystringify.QueryObject) : Prop :=
  NoDup (List.map fst o)
  /\ Forall (fun kv => List.existsb (String.eqb (fst kv))
                                    Querystringify.objectPrototypeKeys = false) o.

(** The deletions of the UTM keys. *)
Definition dropUtm (o : Querystringify.QueryObject) : Querystringify.QueryObject :=
  List.fold_left Querystringify.delete UrlNormalizationService.UTM_PARAMS o.

(** The parameters of the canonical address. *)
Definition canonicalQuery (pairs : list (string * string)) : list (string * string) :=
  dropUtm (collect pairs []).

(** The path of the canonical address: [/] stands for an empty path, and
    when no query follows, one trailing slash is removed. *)
Definition canonicalPath (path : string) (query : list (string * string)) : string :=
  let pathname := if String.eqb path "" then "/" else path in
  match query with
  | [] => UrlNormalizationService.removeTrailingSlash pathname
  | _ => pathname
  end.

(** What [url-parse] makes of a plain address. *)
Definition parsedRecord (secure : bool) (host path : string)
           (pairs : list (string * string)) (fragment : option string) : URLParse.Url :=
  URLParse.mkUrl true (if secure then "https:" else "http:")
    (renderFragment fragment)
    (URLParse.QueryObject (collect pairs []))
    (if String.eqb path "" then "/" else path)
    "" host "" host "" "".

(** The canonical address of a plain address. *)
Definition canonical (host path : string) (pairs : list (string * string)) : string :=
  render true (stripWww host) (canonicalPath path (canonicalQuery pairs))
         (canonicalQuery pairs) None.

End PlainUrl.

(* ================================================================== *)
(** * Server: the service container and the response of the preview
      endpoint (services/container.ts, src/server/src/index.ts) *)

Module Container.

(** The strategies that [registerServices] hands to the extraction
    service, in registration order, over the HTTP client, the markup scan
    and the AI service. *)
Definition extractors (httpClient : string -> Completion.t string)
           (extractFromHTML : string -> WhatwgUrl.URL -> ExtractionResult)
           (isConfigured : bool)
           (analyse : string -> Completion.t ExtractionResult) : list IExtractor :=
  [ HttpExtractor.instance httpClient extractFromHTML;
    AIExtractor.instance isConfigured analyse;
    FallbackExtractor.instance ].

End Container.

Module PreviewEndpoint.

(** [interface ProductData] *)
Record ProductData := mkProductData
  { title : option string;
    image : option string;
    images : list string;
    price : option string;
    currency : option string;
    originalPrice : option string;
    discount : option string;
    siteName : option string;
    description : option string;
    category : option string;
    brand : option string;
    rating : option string;
    reviewCount : option string;
    availability : option string;
    features : option (list string);
    offers : option (list string);
    contentType : option string;
    sourceUrl : string }.

(** [interface ExtractionMetadata]; [processingTime] and [timestamp] are
    read from the clock. *)
Record ExtractionMetadata := mkMetadata
  { extractionMethod : ExtractionMethod;
    confidence : Q;
    processingTime : Z;
    aiUsed : bool;
    fieldsExtracted : nat;
    url : string;
    timestamp : string }.

(** [result.key || null] for a string: a missing key, [null] and the empty
    string all give [null]. *)
Definition orNull (f : Field string) : option string :=
  match f with
  | Val EmptyString => None
  | Val s => Some s
  | _ => None
  end.

(** [result.images || []]: an array is truthy, also when it is empty. *)
Definition orEmpty (f : Field (list string)) : list string :=
  match f with
  | Val l => l
  | _ => []
  end.

(** [result.features || null] for an array. *)
Definition arrayOrNull (f : Field (list string)) : option (list string) :=
  match f with
  | Val l => Some l
  | _ => None
  end.

(** [1] when the object has the key, whatever it holds. *)
Definition hasKey {A} (f : Field A) : nat :=
  match f with
  | Absent => 0
  | _ => 1
  end.

(** [Object.keys(result).length] *)
Definition keysCount (r : ExtractionResult) : nat :=
  hasKey (Types.title r) + hasKey (Types.image r) + hasKey (Types.images r)
  + hasKey (Types.price r) + hasKey (Types.currency r)
  + hasKey (Types.originalPrice r) + hasKey (Types.discount r)
  + hasKey (Types.siteName r) + hasKey (Types.description r)
  + hasKey (Types.category r) + hasKey (Types.brand r) + hasKey (Types.rating r)
  + hasKey (Types.reviewCount r) + hasKey (Types.availability r)
  + hasKey (Types.features r) + hasKey (Types.offers r)
  + hasKey (Types.contentType r).

(** The [productData] literal (lines 131-150). *)
Definition productData (r : ExtractionResult) (url : string) : ProductData :=
  mkProductData
    (orNull (Types.title r)) (orNull (Types.image r)) (orEmpty (Types.images r))
    (orNull (Types.price r)) (orNull (Types.currency r))
    (orNull (Types.originalPrice r)) (orNull (Types.discount r))
    (orNull (Types.siteName r)) (orNull (Types.description r))
    (orNull (Types.category r)) (orNull (Types.brand r)) (orNull (Types.rating r))
    (orNull (Types.reviewCount r)) (orNull (Types.availability r))
    (arrayOrNull (Types.features r)) (arrayOrNull (Types.offers r))
    (orNull (Types.contentType r)) url.

(** [method === ExtractionMethod.FAST_AI] *)
Definition isFastAI (m : ExtractionMethod) : bool :=
  match m with
  | FAST_AI => true
  | _ => false
  end.

(** The [metadata] literal (lines 152-160). *)
Definition metadata (o : Outcome) (url : string) (now : Z) (isoNow : string)
  : ExtractionMetadata :=
  mkMetadata (Types.method o) (Types.confidence o) now (isFastAI (Types.method o))
             (keysCount (Types.result o)) url isoNow.

(** What the handler passes to [res.status(...).json(...)]. *)
Inductive Reply :=
| ErrorReply (statusCode : nat) (message : string)
| PreviewReply (data : ProductData) (meta : ExtractionMetadata).

(** The handler of [POST /api/preview] (lines 102-191) with the response
    body written out; the clock is read when the metadata is built. *)
Definition handle (config : ConfigManager.SecurityConfig)
           (extractors : list IExtractor) (now : Z) (isoNow : string)
           (body : option Validators.PreviewRequest) : Reply :=
  match Server.postPreview config extractors body with
  | Server.ErrorResponse statusCode message => ErrorReply statusCode message
  | Server.PreviewResponse outcome =>
      match body with
      | Some (Validators.mkPreviewRequest (Some url) _) =>
          PreviewReply (productData (Types.result outcome) url)
                       (metadata outcome url now isoNow)
      | _ => ErrorReply 500 "Internal server error"
      end
  end.

End PreviewEndpoint.

(* ================================================================== *)
(** * App: paging and clearing the database (DatabaseService.ts), and the
      remaining actions of the store (stores/wishlistStore.ts) *)

Module DatabaseQueries.

Import DatabaseService.

(** [array.slice(start, end)]: a negative index counts from the end, and
    both indices are clamped to the array. *)
Definition slice {A} (l : list A) (startIndex endIndex : Z) : list A :=
  let len := Z.of_nat (List.length l) in
  let k := if (startIndex <? 0)%Z then Z.max (len + startIndex) 0
           else Z.min startIndex len in
  let final := if (endIndex <? 0)%Z then Z.max (len + endIndex) 0
               else Z.min endIndex len in
  List.firstn (Z.to_nat (final - k)) (List.skipn (Z.to_nat k) l).

(** [clearAll]: the wishlist key is removed, the schema version stays. *)
Definition clearAll (st : Storage) : Storage :=
  mkStorage None (schemaVersion st).

(** What [getItems] resolves to. *)
Record Page := mkPage
  { items : list WishlistItem;
    total : nat;
    hasMore : bool }.

Section Paging.

(** [new Date(s).getTime()]: the time value of a date string.  The dates
    of the entries are written by [toISOString], so they are valid. *)
Variable getTime : string -> Z.

(** [allItems.sort((a, b) => getTime(b.createdAt) - getTime(a.createdAt))]:
    newest first; the sort is stable, entries of the same date keep their
    order. *)
Fixpoint insertByDate (x : WishlistItem) (l : list WishlistItem) : list WishlistItem :=
  match l with
  | [] => [x]
  | y :: l' =>
      if (getTime (createdAt y) - getTime (createdAt x) <=? 0)%Z then x :: l
      else y :: insertByDate x l'
  end.

Fixpoint sortByDate (l : list WishlistItem) : list WishlistItem :=
  match l with
  | [] => []
  | x :: l' => insertByDate x (sortByDate l')
  end.

(** [getItems(page, limit)] *)
Definition getItems (page limit : Z) (st : Storage) : Page :=
  let allItems := getAllItems st in
  let sortedItems := sortByDate allItems in
  let startIndex := ((page - 1) * limit)%Z in
  let endIndex := (startIndex + limit)%Z in
  mkPage (slice sortedItems startIndex endIndex)
         (List.length allItems)
         (endIndex <? Z.of_nat (List.length allItems))%Z.

End Paging.

End DatabaseQueries.

Module WishlistActions.

Import DatabaseService WishlistStore.

(** The state of the store with its paging fields. *)
Record View := mkView
  { state : State;
    currentPage : Z;
    hasMore : bool }.

(** The initial state of the store. *)
Definition initialView : View :=
  mkView (mkState [] IDLE None 0) 1 false.

(** [url.includes('amazon') ? ... : ...] (lines 100-114) *)
Definition pick {A} (url : string) (amazon apple zara nike other : A) : A :=
  if Js.includes url "amazon" then amazon
  else if Js.includes url "apple" then apple
  else if Js.includes url "zara" then zara
  else if Js.includes url "nike" then nike
  else other.

(** The item that [addItem(url)] hands to the database: the URL is stored
    as it is, both as [originalUrl] and as [normalizedUrl]. *)
Definition itemFromUrl (url : string) : NewItem :=
  let domain := pick url "amazon.com" "apple.com" "zara.com" "nike.com" "unknown.com" in
  let title := pick url "Amazon Product - Premium Quality" "Apple Device - Latest Model"
                    "Zara Fashion Item - Trendy Design" "Nike Athletic Gear - Performance"
                    ("Product from " ++ domain) in
  let price := pick url "$149.99" "$999.99" "$79.99" "$129.99" "$99.99" in
  mkNewItem title
            (Some "https://via.placeholder.com/300x200/4CAF50/FFFFFF?text=Product+Image")
            (Some price) domain url url.

(** [addItem(url)] *)
Definition addItem (newId now url : string) (v : View) (db : Storage) : View * Storage :=
  match DatabaseService.addItem newId now (itemFromUrl url) db with
  | (Returned newItem, db') =>
      (mkView (mkState (newItem :: items (state v)) SUCCESS None
                       (totalItems (state v) + 1))
              (currentPage v) (hasMore v), db')
  | (Thrown e, db') =>
      (mkView (mkState (items (state v)) ERROR (Some (classifyAddError e))
                       (totalItems (state v)))
              (currentPage v) (hasMore v), db')
  end.

(** [addItemWithPreview(preview)] on the full state. *)
Definition addItemWithPreview (newId now : string) (preview : NewItem)
           (v : View) (db : Storage) : View * Storage :=
  let (s, db') := WishlistStore.addItemWithPreview newId now preview (state v) db in
  (mkView s (currentPage v) (hasMore v), db').

(** [deleteItem(id)] *)
Definition deleteItem (itemId : string) (v : View) (db : Storage) : View * Storage :=
  match DatabaseService.deleteItem itemId db with
  | (Returned true, db') =>
      (mkView (mkState (List.filter (fun item => negb (String.eqb (id item) itemId))
                                    (items (state v)))
                       (loadingState (state v)) (error (state v))
                       (totalItems (state v) - 1))
              (currentPage v) (hasMore v), db')
  | (Returned false, db') => (v, db')
  | (Thrown _, db') =>
      (mkView (mkState (items (state v)) (loadingState (state v))
                       (Some (mkAppError UNKNOWN "Failed to delete item" true))
                       (totalItems (state v)))
              (currentPage v) (hasMore v), db')
  end.

(** [updateItem(id, updates)] *)
Definition updateItem (itemId : string) (updates : Updates) (now : string)
           (v : View) (db : Storage) : View * Storage :=
  match DatabaseService.updateItem itemId updates now db with
  | (Returned (Some updatedItem), db') =>
      (mkView (mkState (List.map (fun item => if String.eqb (id item) itemId
                                              then updatedItem else item)
                                 (items (state v)))
                       (loadingState (state v)) (error (state v))
                       (totalItems (state v)))
              (currentPage v) (hasMore v), db')
  | (Returned None, db') => (v, db')
  | (Thrown _, db') =>
      (mkView (mkState (items (state v)) (loadingState (state v))
                       (Some (mkAppError UNKNOWN "Failed to update item" true))
                       (totalItems (state v)))
              (currentPage v) (hasMore v), db')
  end.

(** [clearError()] *)
Definition clearError (v : View) : View :=
  mkView (mkState (items (state v)) (loadingState (state v)) None (totalItems (state v)))
         (currentPage v) (hasMore v).

Section Loading.

Variable getTime : string -> Z.

(** [loadItems(page, limit)]; [getItems] catches its own errors. *)
Definition loadItems (page limit : Z) (v : View) (db : Storage) : View :=
  let result := DatabaseQueries.getItems getTime page limit db in
  mkView (mkState (if (page =? 1)%Z then DatabaseQueries.items result
                   else (items (state v) ++ DatabaseQueries.items result)%list)
                  SUCCESS None (Z.of_nat (DatabaseQueries.total result)))
         page (DatabaseQueries.hasMore result).

(** Scrolling: the pages [1] to [n] loaded one after the other. *)
Fixpoint loadUpTo (n : nat) (limit : Z) (v : View) (db : Storage) : View :=
  match n with
  | O => v
  | S n' => loadItems (Z.of_nat n) limit (loadUpTo n' limit v db) db
  end.

(** [refreshItems()] *)
Definition refreshItems (v : View) (db : Storage) : View := loadItems 1 20 v db.

(** [initialize()] of the store. *)
Definition initialize (v : View) (db : Storage) : View * Storage :=
  match DatabaseService.initialize db with
  | (Returned _, db') => (loadItems 1 20 v db', db')
  | (Thrown _, db') =>
      (mkView (mkState (items (state v)) ERROR
                       (Some (mkAppError UNKNOWN "Failed to initialize wishlist" true))
                       (totalItems (state v)))
              (currentPage v) (hasMore v), db')
  end.

End Loading.

End WishlistActions.

(* ================================================================== *)
(** * Regular expressions

    The fragment of ECMAScript regular expressions that the scans of the
    sources are written in: characters and character classes, sequence,
    alternation, the greedy quantifiers and one capturing group, which
    stands outside every quantifier.  Matching is the backtracking
    matcher of the language specification: alternatives are tried from
    the left, a quantifier takes as many repetitions as the rest of the
    pattern allows, and a repetition that consumes nothing is refused.
    Under the flag [i] a letter of the pattern stands for both cases. *)

Module Regex.

Inductive Re :=
| Eps                        (* the empty pattern *)
| Chr (p : ascii -> bool)    (* one character of a class *)
| Cat (r1 r2 : Re)           (* r1 r2 *)
| Alt (r1 r2 : Re)           (* r1 | r2 *)
| Star (r : Re)              (* r* *)
| Group (r : Re).            (* ( r ), the capturing group *)

(** [r?] *)
Definition Opt (r : Re) : Re := Alt r Eps.

(** A sequence of terms. *)
Fixpoint Seq (l : list Re) : Re :=
  match l with
  | [] => Eps
  | r :: l' => Cat r (Seq l')
  end.

(** A character of the pattern. *)
Definition exactly (c : ascii) : ascii -> bool := fun x => Ascii.eqb x c.

(** A character of the pattern under the flag [i]. *)
Definition anyCase (c : ascii) : ascii -> bool :=
  fun x => Ascii.eqb (Js.lower_char x) (Js.lower_char c).

(** A class that excludes the characters of a string. *)
Definition noneOf (s : string) : ascii -> bool :=
  fun x => negb (Js.existsb (Ascii.eqb x) s).

(** A class that lists its characters. *)
Definition oneOf (s : string) : ascii -> bool :=
  fun x => Js.existsb (Ascii.eqb x) s.

(** Literal text, case-sensitive and under the flag [i]. *)
Fixpoint Lit (s : string) : Re :=
  match s with
  | EmptyString => Eps
  | String c s' => Cat (Chr (exactly c)) (Lit s')
  end.

Fixpoint LitI (s : string) : Re :=
  match s with
  | EmptyString => Eps
  | String c s' => Cat (Chr (anyCase c)) (LitI s')
  end.

(** [\d] and [\s] *)
Definition digit : Re := Chr Js.is_digit.
Definition space : Re := Chr Js.is_js_space.

Fixpoint take (n : nat) (s : string) : string :=
  match n, s with
  | S n', String c s' => String c (take n' s')
  | _, _ => EmptyString
  end.

(** The text between the start of a group and the rest of the input at
    its end. *)
Definition consumed (s rest : string) : string :=
  take (String.length s - String.length rest) s.

(** The matcher, in continuation-passing style: [k] is what the rest of
    the pattern does with the rest of the input and the capture. *)
Fixpoint run {R : Type} (r : Re) (s : string) (capture : option string)
         (k : string -> option string -> option R) : option R :=
  match r with
  | Eps => k s capture
  | Chr p =>
      match s with
      | String c s' => if p c then k s' capture else None
      | EmptyString => None
      end
  | Cat r1 r2 => run r1 s capture (fun s' capture' => run r2 s' capture' k)
  | Alt r1 r2 =>
      match run r1 s capture k with
      | Some x => Some x
      | None => run r2 s capture k
      end
  | Star r1 =>
      (fix loop (fuel : nat) (s : string) (capture : option string) : option R :=
         match fuel with
         | O => k s capture
         | S fuel' =>
             match run r1 s capture
                       (fun s' capture' =>
                          if (String.length s' <? String.length s)%nat
                          then loop fuel' s' capture' else None) with
             | Some x => Some x
             | None => k s capture
             end
         end) (String.length s) s capture
  | Group r1 => run r1 s capture (fun s' _ => k s' (Some (consumed s s')))
  end.

(** The match at the start of the input: the capture of the group. *)
Definition matchAt (r : Re) (s : string) : option (option string) :=
  run r s None (fun _ capture => Some capture).

(** [s.match(r)] for a pattern without the flag [g]: the leftmost match.
    [None] is no match; [Some None] is a match in which the group took no
    part, so that [match[1]] is [undefined]. *)
Fixpoint search (r : Re) (s : string) : option (option string) :=
  match matchAt r s with
  | Some capture => Some capture
  | None =>
      match s with
      | EmptyString => None
      | String _ s' => search r s'
      end
  end.

End Regex.

(* ================================================================== *)
(** * Server: the markup scan of the HTTP strategy
      (src/server/src/utils/http-extractor.ts) *)

Module HttpScan.

Import Regex.

(** The two quote characters, double and single. *)
Definition quotes : string := String (ascii_of_nat 34) (String (ascii_of_nat 39) "").

Definition notGt : Re := Chr (noneOf ">").
Definition quote : Re := Chr (oneOf quotes).
Definition notQuote : Re := Chr (noneOf quotes).

(** The pattern of the title element (line 56): the opening tag with its
    attributes, the text up to the next tag as the group, the closing
    tag; flag [i]. *)
Definition titlePattern : Re :=
  Seq [ LitI "<title"; Star notGt; Lit ">";
        Group (Cat (Chr (noneOf "<")) (Star (Chr (noneOf "<"))));
        LitI "</title>" ].

(** The pattern of an Open Graph meta element (lines 62, 68, 74, 80): a
    meta tag whose [property] attribute is the given name, in either kind
    of quotes, followed in the same tag by a [content] attribute, whose
    value is the group; flag [i]. *)
Definition metaPattern (property : string) : Re :=
  Seq [ LitI "<meta"; Star notGt; LitI "property="; quote; LitI property; quote;
        Star notGt; LitI "content="; quote;
        Group (Cat notQuote (Star notQuote)); quote ].

(** Digits in groups of three after commas, with two optional decimals:
    the number of the rupee patterns. *)
Definition groupedNumber : Re :=
  Seq [ digit; Star digit;
        Star (Seq [Lit ","; digit; digit; digit]);
        Opt (Seq [Lit "."; digit; digit]) ].

(** Digits with two optional decimals. *)
Definition plainNumber : Re :=
  Seq [ digit; Star digit; Opt (Seq [Lit "."; digit; digit]) ].

(** [PRICE_PATTERNS] (lines 8-15), all with the flag [i]. *)
Definition PRICE_PATTERNS : list (Re * string) :=
  [ (Seq [LitI "Rs"; Opt (Lit "."); Star space; Group groupedNumber], "INR");
    (Seq [Lit "₹"; Star space; Group groupedNumber], "INR");
    (Seq [Lit "$"; Group plainNumber], "USD");
    (Seq [Lit "€"; Group plainNumber], "EUR");
    (Seq [Lit "£"; Group plainNumber], "GBP");
    (Seq [Group groupedNumber; Star space;
          Alt (Seq [LitI "rupee"; Opt (LitI "s")]) (Seq [LitI "rs"; Opt (Lit ".")])],
     "INR") ].

(** Assignments to the keys that the scan writes. *)
Definition setTitle (v : string) (r : ExtractionResult) : ExtractionResult :=
  mkExtractionResult (Val v) (image r) (images r) (price r) (currency r)
    (originalPrice r) (discount r) (siteName r) (description r) (category r)
    (brand r) (rating r) (reviewCount r) (availability r) (features r) (offers r)
    (contentType r).

Definition setImage (v : string) (r : ExtractionResult) : ExtractionResult :=
  mkExtractionResult (title r) (Val v) (images r) (price r) (currency r)
    (originalPrice r) (discount r) (siteName r) (description r) (category r)
    (brand r) (rating r) (reviewCount r) (availability r) (features r) (offers r)
    (contentType r).

Definition setDescription (v : string) (r : ExtractionResult) : ExtractionResult :=
  mkExtractionResult (title r) (image r) (images r) (price r) (currency r)
    (originalPrice r) (discount r) (siteName r) (Val v) (category r)
    (brand r) (rating r) (reviewCount r) (availability r) (features r) (offers r)
    (contentType r).

Definition setSiteName (v : string) (r : ExtractionResult) : ExtractionResult :=
  mkExtractionResult (title r) (image r) (images r) (price r) (currency r)
    (originalPrice r) (discount r) (Val v) (description r) (category r)
    (brand r) (rating r) (reviewCount r) (availability r) (features r) (offers r)
    (contentType r).

Definition setPrice (v c : string) (r : ExtractionResult) : ExtractionResult :=
  mkExtractionResult (title r) (image r) (images r) (Val v) (Val c)
    (originalPrice r) (discount r) (siteName r) (description r) (category r)
    (brand r) (rating r) (reviewCount r) (availability r) (features r) (offers r)
    (contentType r).

(** One statement of the scan: the record after it, or [None] when the
    statement throws, which happens only where [match[1]] is not a
    string. *)
Definition Step := ExtractionResult -> option ExtractionResult.

(** [const m = html.match(pattern); if (m) { assign(m[1].trim()) }] *)
Definition assignMatch (pattern : Re) (html : string)
           (assign : string -> ExtractionResult -> ExtractionResult) : Step :=
  fun r =>
    match search pattern html with
    | Some (Some text) => Some (assign (Js.trim text) r)
    | Some None => None
    | None => Some r
    end.

(** [result.key || ''] *)
Definition orBlank (f : Field string) : string :=
  match f with
  | Val s => s
  | _ => ""
  end.

(** [m[1].replace(/,/g, '')] *)
Definition removeCommas (s : string) : string :=
  Js.filter (fun c => negb (Ascii.eqb c ",")) s.

(** The loop of [extractPriceInfo] over the patterns: the first pattern
    that matches sets the price and the currency. *)
Fixpoint firstPrice (patterns : list (Re * string)) (priceText : string) : Step :=
  fun r =>
    match patterns with
    | [] => Some r
    | (pattern, currency) :: rest =>
        match search pattern priceText with
        | Some (Some text) => Some (setPrice (removeCommas text) currency r)
        | Some None => None
        | None => firstPrice rest priceText r
        end
    end.

(** [extractPriceInfo]: the price is looked for in the title and the
    description that were found, not in the markup. *)
Definition extractPriceInfo : Step :=
  fun r =>
    let priceText := orBlank (title r) ++ " " ++ orBlank (description r) in
    firstPrice PRICE_PATTERNS priceText r.

(** The site name: the Open Graph site name, or the host name of the URL. *)
Definition siteNameStep (html : string) (urlObj : WhatwgUrl.URL) : Step :=
  fun r =>
    match search (metaPattern "og:site_name") html with
    | Some (Some text) => Some (setSiteName (Js.trim text) r)
    | Some None => None
    | None => Some (setSiteName (WhatwgUrl.hostname urlObj) r)
    end.

(** The statements inside [try], in order; the [catch] block logs, and
    the record is returned as the statements before the throw left it. *)
Fixpoint runSteps (steps : list Step) (r : ExtractionResult) : ExtractionResult :=
  match steps with
  | [] => r
  | step :: rest =>
      match step r with
      | Some r' => runSteps rest r'
      | None => r
      end
  end.

(** [extractFromHTML] *)
Definition extractFromHTML (html : string) (urlObj : WhatwgUrl.URL) : ExtractionResult :=
  runSteps
    [ assignMatch titlePattern html setTitle;
      assignMatch (metaPattern "og:title") html setTitle;
      assignMatch (metaPattern "og:image") html setImage;
      assignMatch (metaPattern "og:description") html setDescription;
      siteNameStep html urlObj;
      extractPriceInfo ]
    emptyResult.

(** [HttpExtractor.hasGoodData], the static copy of the quality gate. *)
Definition hasGoodData (r : ExtractionResult) : bool :=
  match title r with
  | Val t =>
      negb (String.eqb t "")
      && (20 <? String.length t)%nat
      && negb (Js.includes (Js.toLowerCase t) "online shopping")
      && negb (Js.includes (Js.toLowerCase t) "welcome to")
      && negb (Js.includes (Js.toLowerCase t) "home page")
  | _ => false
  end.

(** The HTTP strategy with its own scan. *)
Definition instance (httpClient : string -> Completion.t string) : IExtractor :=
  HttpExtractor.instance httpClient extractFromHTML.

End HttpScan.

(** The shape of a pattern, for reasoning about what its group
    captures. *)
Module RegexShape.

Import Regex.

(** The pattern has no capturing group. *)
Fixpoint groupFree (r : Re) : bool :=
  match r with
  | Eps | Chr _ => true
  | Cat r1 r2 | Alt r1 r2 => groupFree r1 && groupFree r2
  | Star r1 => groupFree r1
  | Group _ => false
  end.

(** Every character class of the pattern lies within [q]. *)
Fixpoint within (q : ascii -> bool) (r : Re) : Prop :=
  match r with
  | Eps => True
  | Chr p => forall c, p c = true -> q c = true
  | Cat r1 r2 | Alt r1 r2 => within q r1 /\ within q r2
  | Star r1 | Group r1 => within q r1
  end.

(** Every way through the pattern passes the group. *)
Fixpoint captures (r : Re) : bool :=
  match r with
  | Eps | Chr _ | Star _ => false
  | Cat r1 r2 => captures r1 || captures r2
  | Alt r1 r2 => captures r1 && captures r2
  | Group _ => true
  end.

(** The body of a group that starts with a character of [first] and goes
    on with characters of [q]. *)
Definition headed (first q : ascii -> bool) (g : Re) : Prop :=
  match g with
  | Cat (Chr p) g' =>
      (forall c, p c = true -> first c = true) /\ groupFree g' = true /\ within q g'
  | _ => False
  end.

(** Groups stand outside every quantifier, and their bodies are
    [headed]. *)
Fixpoint groups (first q : ascii -> bool) (r : Re) : Prop :=
  match r with
  | Eps | Chr _ => True
  | Cat r1 r2 | Alt r1 r2 => groups first q r1 /\ groups first q r2
  | Star r1 => groupFree r1 = true
  | Group g => headed first q g
  end.

(** A text that starts with a character of [first] and goes on with
    characters of [q]. *)
Definition text (first q : ascii -> bool) (t : string) : Prop :=
  exists c t', t = String c t' /\ first c = true /\ Js.forallb q t' = true.

(** The capture after a match, given the capture before it: when every
    way passes the group the capture is a [text], otherwise it may also be
    the capture from before. *)
Definition captured (first q : ascii -> bool) (sure : bool)
           (before after : option string) : Prop :=
  (exists t, after = Some t /\ text first q t) \/ (sure = false /\ after = before).

End RegexShape.

(* ================================================================== *)
(** * App: the markup scans of the preview service (UrlPreviewService.ts) *)

Module PreviewScan.

Import Regex.

(** The pattern of a meta element (lines 99, 114, 118, 129, 136, 171): a
    meta tag in which the attribute [attribute] holds [name], in either
    kind of quotes, followed in the same tag by a [content] attribute,
    whose value is the group, and by the end of the tag; flag [i]. *)
Definition metaPattern (attribute name : string) : Re :=
  Seq [ LitI "<meta"; Star HttpScan.notGt; LitI attribute; LitI "="; HttpScan.quote;
        LitI name; HttpScan.quote; Star HttpScan.notGt; LitI "content="; HttpScan.quote;
        Group (Cat HttpScan.notQuote (Star HttpScan.notQuote)); HttpScan.quote;
        Star HttpScan.notGt; Lit ">" ].

(** [ogMatch ? ogMatch[1] : null], and so on: the group of the leftmost
    match; [None] is [null], and a match without the group makes the
    member access throw. *)
Definition group1 (pattern : Re) (html : string) : Completion.t (option string) :=
  match search pattern html with
  | Some (Some text) => Returned (Some text)
  | Some None => Thrown (ErrorObject "Cannot read properties of undefined")
  | None => Returned None
  end.

(** [extractTitle]: the Open Graph title, or else the title element. *)
Definition extractTitle (html : string) : Completion.t (option string) :=
  let* og := group1 (metaPattern "property" "og:title") html in
  match og with
  | Some text => Returned (Some text)
  | None => group1 HttpScan.titlePattern html
  end.

(** [extractDescription]: the Open Graph description, or else the meta
    description. *)
Definition extractDescription (html : string) : Completion.t (option string) :=
  let* og := group1 (metaPattern "property" "og:description") html in
  match og with
  | Some text => Returned (Some text)
  | None => group1 (metaPattern "name" "description") html
  end.

(** [base.host]: the host name, with the port when there is one. *)
Definition hostOf (base : WhatwgUrl.URL) : string :=
  if String.eqb (WhatwgUrl.port base) "" then WhatwgUrl.hostname base
  else WhatwgUrl.hostname base ++ ":" ++ WhatwgUrl.port base.

(** [resolveRelativeUrl] *)
Definition resolveRelativeUrl (url baseUrl : string) : Completion.t string :=
  if Js.startsWith url "http://" || Js.startsWith url "https://" then Returned url
  else if Js.startsWith url "//" then Returned ("https:" ++ url)
  else if Js.startsWith url "/" then
    match WhatwgUrl.parse baseUrl with
    | Some base => Returned (WhatwgUrl.protocol base ++ "//" ++ hostOf base ++ url)
    | None => Thrown (ErrorObject "Invalid URL")
    end
  else Returned (baseUrl ++ "/" ++ url).

(** [extractImageUrl]: the Open Graph image, or else the Twitter card
    image, resolved against the address of the page. *)
Definition extractImageUrl (html baseUrl : string) : Completion.t (option string) :=
  let* og := group1 (metaPattern "property" "og:image") html in
  match og with
  | Some imageUrl =>
      let* resolved := resolveRelativeUrl imageUrl baseUrl in Returned (Some resolved)
  | None =>
      let* twitter := group1 (metaPattern "name" "twitter:image") html in
      match twitter with
      | Some imageUrl =>
          let* resolved := resolveRelativeUrl imageUrl baseUrl in Returned (Some resolved)
      | None => Returned None
      end
  end.

End PreviewScan.


(* ================================================================== *)
(** * Server: the confidence score in double precision
      (services/extraction-service.ts)

    JavaScript numbers are binary64 floating-point numbers.  A decimal
    literal stands for the binary64 number nearest to it, and every sum
    and product is rounded to nearest; the primitive floating-point
    numbers of Rocq are the same numbers with the same rounding. *)

Module Doubles.

Import PrimFloat Types.

#[local] Set Warnings "-inexact-float".

(** [Math.min(a, b)] on numbers that are not [NaN]. *)
Definition min (a b : float) : float := if (a <? b)%float then a else b.

(** A count as a number: counts are small integers, which binary64 holds
    exactly. *)
Fixpoint ofNat (n : nat) : float :=
  match n with
  | O => 0%float
  | S k => (ofNat k + 1)%float
  end.

(** [calculateConfidence] (lines 112-133) *)
Definition calculateConfidence (r : ExtractionResult) (m : ExtractionMethod) : float :=
  let confidence :=
    match m with
    | FAST_AI => 0.9
    | HTTP_EXTRACTION => 0.8
    | FALLBACK => 0.5
    end%float in
  let fieldsCount := ofNat (ExtractionService.fieldsCount r) in
  let qualityBonus := min (fieldsCount * 0.05)%float 0.1%float in
  min (confidence + qualityBonus)%float 1.0%float.

End Doubles.

(* ================================================================== *)
(** * App: the database on a storage that can reject calls
      (DatabaseService.ts)

    [AsyncStorage.getItem] and [AsyncStorage.setItem] return promises that
    the platform may reject.  The device below holds the two keys of the
    service and the answers of the platform to the calls to come.  A
    rejected call leaves the keys as they are. *)

Module AsyncStorage.

Import DatabaseService.

(** [answers]: one entry for each call to come, [Some e] for a call that
    is rejected with [e]; the calls after the last entry are served. *)
Record Device := mkDevice
  { keys : Storage;
    answers : list (option Exception) }.

(** The answer of the platform to the next call. *)
Definition next (d : Device) : option Exception * Device :=
  match answers d with
  | [] => (None, d)
  | answer :: rest => (answer, mkDevice (keys d) rest)
  end.

(** [await AsyncStorage.getItem(key)], [read] being the key. *)
Definition getItem {A} (read : Storage -> A) (d : Device) : Completion.t A * Device :=
  match next d with
  | (Some e, d') => (Thrown e, d')
  | (None, d') => (Returned (read (keys d')), d')
  end.

(** [await AsyncStorage.setItem(key, value)], [write] being the key
    together with the value. *)
Definition setItem (write : Storage -> Storage) (d : Device) : Completion.t unit * Device :=
  match next d with
  | (Some e, d') => (Thrown e, d')
  | (None, d') => (Returned tt, mkDevice (write (keys d')) (answers d'))
  end.

(** [saveItems]: the [catch] block logs and rethrows. *)
Definition saveItems (items : list WishlistItem) (d : Device) : Completion.t unit * Device :=
  setItem (DatabaseService.saveItems items) d.

(** [getSchemaVersion]: a rejected read is answered with version 1. *)
Definition getSchemaVersion (d : Device) : N * Device :=
  match getItem schemaVersion d with
  | (Returned (Some v), d') => (v, d')
  | (Returned None, d') => (1%N, d')
  | (Thrown _, d') => (1%N, d')
  end.

(** [setSchemaVersion]: the [catch] block logs and rethrows. *)
Definition setSchemaVersion (version : N) (d : Device) : Completion.t unit * Device :=
  setItem (fun st => mkStorage (wishlist st) (Some version)) d.

(** [migrateToV2] *)
Definition migrateToV2 (d : Device) : Completion.t unit * Device :=
  match getItem wishlist d with
  | (Thrown e, d') => (Thrown e, d')
  | (Returned None, d') => (Returned tt, d')
  | (Returned (Some items), d') =>
      match migrateItems items with
      | Returned migratedItems => saveItems migratedItems d'
      | Thrown e => (Thrown e, d')
      end
  end.

(** [runMigrations] *)
Definition runMigrations (fromVersion : N) (d : Device) : Completion.t unit * Device :=
  if (fromVersion <? 2)%N then migrateToV2 d else (Returned tt, d).

(** [initialize] *)
Definition initialize (d : Device) : Completion.t unit * Device :=
  let (currentVersion, d) := getSchemaVersion d in
  if (currentVersion <? CURRENT_SCHEMA_VERSION)%N then
    match runMigrations currentVersion d with
    | (Returned _, d) => setSchemaVersion CURRENT_SCHEMA_VERSION d
    | (Thrown e, d) => (Thrown e, d)
    end
  else (Returned tt, d).

(** The platform serves every call to come. *)
Definition reliable (d : Device) : Prop :=
  Forall (fun answer => answer = None) (answers d).

End AsyncStorage.
(** Concrete surroundings for the retry wrapper. *)
Module PreviewScenario.

(** A network that serves the same page to every request. *)
Definition pageNetwork (_ : nat) (_ : string) : Completion.t string :=
  Returned "<html><head><title>Desk lamp</title></head></html>".

(** A network whose first request is rejected and which serves the page
    from then on. *)
Definition flakyNetwork (n : nat) (_ : string) : Completion.t string :=
  match n with
  | O => Thrown (ErrorObject "Network Error")
  | S _ => Returned "<html><head><title>Desk lamp</title></head></html>"
  end.

(** A scan that finds the title of that page. *)
Definition lampTitle (_ : string) : option string := Some "Desk lamp".

End PreviewScenario.

(** A stand-in for the clock of the paging functions. *)
Module ClockScenario.

(** The digits of a date string read as one number.  On the strings that
    [toISOString] writes, which all have the same width, it orders as
    [getTime] does. *)
Definition isoDigits (s : string) : Z :=
  Z.of_N (WhatwgUrl.parse_radix_acc 10 (Js.filter Js.is_digit s) 0%N).

End ClockScenario.

(** A shop page for the HTTP strategy. *)
Module ShopScenario.

(** An HTTP client that is served a product page. *)
Definition shopClient (_ : string) : Completion.t string :=
  Returned "<html><head><title>Blue desk lamp with brass stand - Rs. 1,299.50</title><meta property='og:image' content='https://shop.example.com/lamp.png'></head></html>".

(** The registry of the service container with that client and no API
    key. *)
Definition shopRegistry : list IExtractor :=
  Container.extractors shopClient HttpScan.extractFromHTML false
    (fun _ => Thrown (ErrorObject "OpenAI API key not configured")).

End ShopScenario.

(** Vocabulary for the further properties. *)
Module Wording.

(** The first and the last character of the string are not white space. *)
Definition trimmed (s : string) : Prop :=
  PlainUrl.stops Js.is_js_space s /\ PlainUrl.stops Js.is_js_space (Js.rev s).

(** [(k, v)] is the first parameter with key [k] in the list. *)
Definition firstOccurrence (pairs : list (string * string)) (k v : string) : Prop :=
  exists before after,
    pairs = (before ++ (k, v) :: after)%list /\ ~ In k (List.map fst before).

(** The parameters whose key is not a UTM key. *)
Definition withoutTracking (pairs : list (string * string)) : list (string * string) :=
  List.filter
    (fun kv => negb (List.existsb (String.eqb (fst kv)) UrlNormalizationService.UTM_PARAMS))
    pairs.

(** The entry has no usable [normalizedUrl]: the key is missing or holds
    the empty string. *)
Definition lacksNormalizedUrl (item : DatabaseService.WishlistItem) : Prop :=
  DatabaseService.normalizedUrl item = None
  \/ DatabaseService.normalizedUrl item = Some "".

(** The entry with its [normalizedUrl] set. *)
Definition withNormalizedUrl (item : DatabaseService.WishlistItem) (n : string)
  : DatabaseService.WishlistItem :=
  DatabaseService.mkItem
    (DatabaseService.id item) (DatabaseService.title item)
    (DatabaseService.imageUrl item) (DatabaseService.price item)
    (DatabaseService.sourceDomain item) (DatabaseService.originalUrl item)
    (Some n) (DatabaseService.createdAt item) (DatabaseService.updatedAt item).

(** What the migration to schema version 2 makes of one entry: an entry
    that lacks a [normalizedUrl] and has an [originalUrl] gets the
    canonical form of that URL, every other entry stays as it is. *)
Definition migrated (old new : DatabaseService.WishlistItem) : Prop :=
  (lacksNormalizedUrl old
   /\ DatabaseService.originalUrl old <> ""
   /\ exists n,
        UrlNormalizationService.normalizeUrl (DatabaseService.originalUrl old) = Returned n
        /\ Js.startsWith n "https:/" = true
        /\ new = withNormalizedUrl old n)
  \/ ((~ lacksNormalizedUrl old \/ DatabaseService.originalUrl old = "") /\ new = old).

(** The entries are ordered newest first. *)
Definition newestFirst (getTime : string -> Z)
           (l : list DatabaseService.WishlistItem) : Prop :=
  StronglySorted
    (fun a b => (getTime (DatabaseService.createdAt b)
                 <= getTime (DatabaseService.createdAt a))%Z)
    l.

(** The store shows the right count: [totalItems] is the number of
    stored entries. *)
Definition countsAgree (v : WishlistActions.View) (db : DatabaseService.Storage) : Prop :=
  WishlistStore.totalItems (WishlistActions.state v)
  = Z.of_nat (List.length (DatabaseService.getAllItems db)).

(** No two stored entries share an identifier. *)
Definition distinctIds (db : DatabaseService.Storage) : Prop :=
  NoDup (List.map DatabaseService.id (DatabaseService.getAllItems db)).

(** A character of a price as the patterns capture it. *)
Definition priceChar (c : ascii) : bool :=
  Js.is_digit c || Ascii.eqb c "," || Ascii.eqb c ".".

(** The currencies of the price patterns. *)
Definition currencies : list string := ["INR"; "USD"; "EUR"; "GBP"].

(** A price as the scan reports it: it starts with a digit and goes on
    with digits and dots. *)
Definition priceText (p : string) : Prop :=
  RegexShape.text Js.is_digit (fun c => Js.is_digit c || Ascii.eqb c ".") p.

(** The keys that the markup scan never writes. *)
Definition onlyScannedKeys (r : ExtractionResult) : Prop :=
  images r = Absent /\ originalPrice r = Absent /\ discount r = Absent
  /\ category r = Absent /\ brand r = Absent /\ rating r = Absent
  /\ reviewCount r = Absent /\ availability r = Absent /\ features r = Absent
  /\ offers r = Absent /\ contentType r = Absent.

(** The record of the scan before the site name is written. *)
Definition beforeSiteName (r : ExtractionResult) : Prop :=
  onlyScannedKeys r /\ price r = Absent /\ currency r = Absent.

(** The price and the currency are written together: both keys are
    missing, or the price is a [priceText] and the currency is one of the
    four. *)
Definition pricedOrNot (r : ExtractionResult) : Prop :=
  (price r = Absent /\ currency r = Absent)
  \/ (exists p c, price r = Val p /\ currency r = Val c
                  /\ priceText p /\ In c currencies).

End Wording.


(* ================================================================== *)
(** * Web addresses

    An address with scheme [http] or [https], written in printable ASCII
    characters, by its parts:
    [scheme://userinfo@host:port/path?query#fragment]. *)

Module WebAddress.

Import PlainUrl.

Record Address := mkAddress
  { scheme : string;
    userinfo : option string;    (* what stands in front of the [@] *)
    host : string;
    port : option string;        (* what follows the colon *)
    path : string;
    query : option string;       (* what follows the question mark *)
    fragment : option string }.  (* what follows the hash *)

Definition renderUserinfo (userinfo : option string) : string :=
  match userinfo with
  | Some u => u ++ "@"
  | None => ""
  end.

Definition renderPort (port : option string) : string :=
  match port with
  | Some p => ":" ++ p
  | None => ""
  end.

Definition renderSearch (query : option string) : string :=
  match query with
  | Some q => "?" ++ q
  | None => ""
  end.

(** The address as a string. *)
Definition render (a : Address) : string :=
  scheme a ++ "://" ++ renderUserinfo (userinfo a) ++ host a ++ renderPort (port a)
  ++ path a ++ renderSearch (query a) ++ renderFragment (fragment a).

(** A printable ASCII character: above the space, below DEL. *)
Definition printable (c : ascii) : bool :=
  (32 <? WhatwgUrl.code c)%nat && (WhatwgUrl.code c <? 127)%nat.

(** A character of the user information: printable and none of the
    characters that end the authority. *)
Definition userinfo_char (c : ascii) : bool :=
  printable c && negb (WhatwgUrl.is_authority_end true c).

(** A character of a host name: printable and no forbidden domain code
    point; letters of both cases are allowed. *)
Definition domain_char (c : ascii) : bool :=
  printable c && negb (WhatwgUrl.forbidden_domain_code_point c).

(** A character of a query: printable and not the hash. *)
Definition query_char (c : ascii) : bool :=
  printable c && negb (Ascii.eqb c "#").

Definition optionForallb (p : ascii -> bool) (o : option string) : bool :=
  match o with
  | Some s => Js.forallb p s
  | None => true
  end.

(** The scheme is [http] or [https], in any letter case. *)
Definition webScheme (scheme : string) : bool :=
  String.eqb (Js.toLowerCase scheme) "http" || String.eqb (Js.toLowerCase scheme) "https".

(** The characters of the parts. *)
Definition wellWritten (a : Address) : bool :=
  webScheme (scheme a)
  && optionForallb userinfo_char (userinfo a)
  && Js.forallb domain_char (host a)
  && optionForallb Js.is_digit (port a)
  && (String.eqb (path a) "" || Js.startsWith (path a) "/")
  && Js.forallb (fun c => printable c && path_char c) (path a)
  && optionForallb query_char (query a)
  && optionForallb printable (fragment a).

(** The host parser of the platform accepts the host name. *)
Definition hostAccepted (host : string) : bool :=
  WhatwgUrl.is_Some (WhatwgUrl.host_parse false host).

(** The number that a port stands for. *)
Definition portNumber (port : option string) : option N :=
  match port with
  | Some p => if String.eqb p "" then None else Some (WhatwgUrl.parse_radix_acc 10 p 0)
  | None => None
  end.

(** The port, when there is one, is at most 65535. *)
Definition portInRange (port : option string) : bool :=
  match portNumber port with
  | Some n => (n <=? 65535)%N
  | None => true
  end.

(** The user name and the password as [url-parse] stores them: cut at the
    first colon, each decoded and encoded again.  [None] when one of them
    cannot be decoded. *)
Definition credentials (userinfo : option string) : option (string * string) :=
  match userinfo with
  | None => Some ("", "")
  | Some auth =>
      if String.eqb auth "" then Some ("", "")
      else
        match URLParse.cut_from ":" auth with
        | (user, String _ pass) =>
            match URLParse.recode user, URLParse.recode pass with
            | Some u, Some p => Some (u, p)
            | _, _ => None
            end
        | (user, EmptyString) =>
            match URLParse.recode user with
            | Some u => Some (u, "")
            | None => None
            end
        end
  end.

(** The host name in the canonical address: lower case, without one
    leading [www.]. *)
Definition canonicalHostname (host : string) : string :=
  stripWww (Js.toLowerCase host).

(** The conditions under which the two parsers read the address and its
    canonical form part by part: the parts are well written, the platform
    accepts the host name, also without its leading [www.] (it accepts
    the host name [www.] alone, and not the empty one that is left of it),
    the port is in range and the user information can be decoded. *)
Definition wellFormed (a : Address) : bool :=
  wellWritten a
  && hostAccepted (host a)
  && hostAccepted (canonicalHostname (host a))
  && portInRange (port a)
  && WhatwgUrl.is_Some (credentials (userinfo a)).

(** The user information in the canonical address. *)
Definition canonicalUserinfo (userinfo : option string) : option string :=
  match credentials userinfo with
  | Some (username, password) =>
      if String.eqb username "" && String.eqb password "" then None
      else Some (username ++ (if String.eqb password "" then "" else ":" ++ password))
  | None => None
  end.

(** The port in the canonical address: [url-parse] keeps a port that is
    not the default port of the scheme as written. *)
Definition canonicalPort (scheme : string) (port : option string) : option string :=
  match port with
  | Some p =>
      if URLParse.required p (Js.toLowerCase scheme ++ ":") then Some p else None
  | None => None
  end.

(** The parameters in the canonical address: what the query parser reads,
    without the UTM keys. *)
Definition canonicalParameters (query : option string) : Querystringify.QueryObject :=
  dropUtm (Querystringify.parse (renderSearch query)).

(** The query in the canonical address. *)
Definition canonicalSearch (query : option string) : option string :=
  let written := Querystringify.stringify (canonicalParameters query) in
  if String.eqb written "" then None else Some written.

(** The path in the canonical address: [/] stands for an empty path, and
    when no query follows, one trailing slash is removed. *)
Definition canonicalPathname (path : string) (search : option string) : string :=
  let pathname := if String.eqb path "" then "/" else path in
  match search with
  | None => UrlNormalizationService.removeTrailingSlash pathname
  | Some _ => pathname
  end.

(** The canonical address. *)
Definition canon (a : Address) : Address :=
  mkAddress "https"
            (canonicalUserinfo (userinfo a))
            (canonicalHostname (host a))
            (canonicalPort (scheme a) (port a))
            (canonicalPathname (path a) (canonicalSearch (query a)))
            (canonicalSearch (query a))
            None.

Definition canonical (a : Address) : string := render (canon a).

(** The three ways in which a second application changes the result. *)

(** The host name has a second leading [www.] label. *)
Definition secondWww (a : Address) : bool :=
  Js.startsWith (canonicalHostname (host a)) "www.".

(** The path ends with two slashes and no query follows it in the
    canonical address. *)
Definition secondSlash (a : Address) : bool :=
  match canonicalSearch (query a) with
  | None => endsWithTwoSlashes (path a)
  | Some _ => false
  end.

(** The scheme is [http] and the port is 443, the default port of
    [https]. *)
Definition httpsPort (a : Address) : bool :=
  String.eqb (Js.toLowerCase (scheme a)) "http"
  && match portNumber (port a) with
     | Some n => (n =? 443)%N
     | None => false
     end.







End WebAddress.
(* ================================================================== *)
(* ================================================================== *)
(** * Part II: properties *)

(* ================================================================== *)
(** * Facts about strings *)

Section StringFacts.

Lemma append_nil_r (s : string) : s ++ "" = s.
Proof. induction s; simpl; congruence. Qed.

Lemma append_assoc (a b c : string) : (a ++ b) ++ c = a ++ (b ++ c).
Proof. induction a; simpl; congruence. Qed.

Lemma length_append (a b : string) :
  String.length (a ++ b) = (String.length a + String.length b)%nat.
Proof. induction a; simpl; congruence. Qed.

Lemma forallb_append (p : ascii -> bool) (a b : string) :
  Js.forallb p (a ++ b) = Js.forallb p a && Js.forallb p b.
Proof.
  induction a as [|c a IH]; simpl; [reflexivity|].
  rewrite IH. apply andb_assoc.
Qed.

Lemma forallb_impl (p q : ascii -> bool) (s : string) :
  (forall c, p c = true -> q c = true) ->
  Js.forallb p s = true -> Js.forallb q s = true.
Proof.
  intro H. induction s as [|c s IH]; simpl; [reflexivity|].
  intro E. apply andb_true_iff in E as [E1 E2].
  rewrite (H _ E1), (IH E2). reflexivity.
Qed.

Lemma existsb_false_forallb (p q : ascii -> bool) (s : string) :
  (forall c, p c = false -> q c = true) ->
  Js.existsb p s = false -> Js.forallb q s = true.
Proof.
  intro H. induction s as [|c s IH]; simpl; [reflexivity|].
  intro E. apply orb_false_iff in E as [E1 E2].
  rewrite (H _ E1), (IH E2). reflexivity.
Qed.

Lemma forallb_map (p : ascii -> bool) (f : ascii -> ascii) (s : string) :
  Js.forallb p (Js.map f s) = Js.forallb (fun c => p (f c)) s.
Proof. induction s as [|c s IH]; simpl; congruence. Qed.


Lemma length_map (f : ascii -> ascii) (s : string) :
  String.length (Js.map f s) = String.length s.
Proof. induction s; simpl; congruence. Qed.

(** A prefix of a string is made of characters of that string. *)
Lemma prefix_forallb (p : ascii -> bool) (pat s : string) :
  String.prefix pat s = true -> Js.forallb p s = true -> Js.forallb p pat = true.
Proof.
  revert s. induction pat as [|c pat IH]; intros s Hpre Hall; [reflexivity|].
  destruct s as [|d s]; simpl in Hpre; [discriminate|].
  destruct (ascii_dec c d) as [->|]; [|discriminate].
  simpl in *. apply andb_true_iff in Hall as [H1 H2].
  rewrite H1. simpl. eapply IH; eauto.
Qed.

(** What a string includes is made of characters of that string. *)
Lemma includes_forallb (p : ascii -> bool) (s pat : string) :
  Js.includes s pat = true -> Js.forallb p s = true -> Js.forallb p pat = true.
Proof.
  induction s as [|c s IH]; simpl; intros Hinc Hall.
  - destruct pat; [reflexivity | discriminate].
  - apply andb_true_iff in Hall as [H1 H2].
    apply orb_true_iff in Hinc as [Hpre|Hinc]; [|auto].
    apply (prefix_forallb p pat (String c s)); [exact Hpre|].
    simpl. rewrite H1, H2. reflexivity.
Qed.

End StringFacts.

(** Case analysis on the 256 values of a character. *)
Ltac each_ascii c := destruct c as [[] [] [] [] [] [] [] []].

(* ================================================================== *)
(** * Facts about the URL parser: the characters of a host name *)

Section HostnameFacts.

Import WhatwgUrl Pipeline.

Lemma decimal_uint_digits (d : Decimal.uint) :
  Js.forallb Js.is_digit (DecimalString.NilEmpty.string_of_uint d) = true.
Proof. induction d; simpl; auto. Qed.

Lemma decimal_digits (n : N) : Js.forallb Js.is_digit (decimal n) = true.
Proof. apply decimal_uint_digits. Qed.

Lemma hex_uint_digits (d : Hexadecimal.uint) :
  Js.forallb Js.is_hex_digit (HexadecimalString.NilEmpty.string_of_uint d) = true.
Proof. induction d; simpl; auto. Qed.

Lemma is_digit_plain (c : ascii) : Js.is_digit c = true -> plain c = true.
Proof. each_ascii c; simpl; intro; try reflexivity; discriminate. Qed.

Lemma is_hex_digit_plain (c : ascii) : Js.is_hex_digit c = true -> plain c = true.
Proof. each_ascii c; simpl; intro; try reflexivity; discriminate. Qed.

Lemma decimal_plain (n : N) : Js.forallb plain (decimal n) = true.
Proof. eapply forallb_impl; [apply is_digit_plain | apply decimal_digits]. Qed.

Lemma lower_hex_plain (n : N) : Js.forallb plain (lower_hex n) = true.
Proof. eapply forallb_impl; [apply is_hex_digit_plain | apply hex_uint_digits]. Qed.

Lemma ipv4_serialize_plain (a : N) : Js.forallb plain (ipv4_serialize a) = true.
Proof.
  unfold ipv4_serialize.
  rewrite !forallb_append, !decimal_plain. reflexivity.
Qed.

Lemma ipv6_serialize_from_plain (l : list N) :
  forall index compress ignore0,
    Js.forallb plain (ipv6_serialize_from l index compress ignore0) = true.
Proof.
  induction l as [|piece l IH]; intros; simpl; [reflexivity|].
  destruct (ignore0 && (piece =? 0)%N); [apply IH|].
  destruct (match compress with Some k => (k =? index)%nat | None => false end).
  - rewrite forallb_append, IH. destruct (index =? 0)%nat; reflexivity.
  - rewrite !forallb_append, IH, lower_hex_plain.
    destruct (index =? 7)%nat; reflexivity.
Qed.

Lemma ipv6_serialize_plain (a : list N) : Js.forallb plain (ipv6_serialize a) = true.
Proof.
  unfold ipv6_serialize. destruct (longest_zero_run a 0 (0, 0)%nat).
  apply ipv6_serialize_from_plain.
Qed.

Lemma upper_hex_digit_plain (c : ascii) :
  plain (upper_hex_digit (N_of_ascii c / 16)) = true
  /\ plain (upper_hex_digit (N_of_ascii c mod 16)) = true.
Proof. each_ascii c; split; reflexivity. Qed.

Lemma not_forbidden_plain (c : ascii) :
  forbidden_host_code_point c = false -> plain c = true.
Proof. each_ascii c; simpl; intro; try reflexivity; discriminate. Qed.

Lemma percent_encode_c0_plain (s : string) :
  Js.forallb plain s = true -> Js.forallb plain (percent_encode_c0 s) = true.
Proof.
  induction s as [|c s IH]; simpl; [reflexivity|].
  intro H. apply andb_true_iff in H as [H1 H2].
  destruct ((code c <=? 31)%nat || (126 <? code c)%nat); simpl.
  - destruct (upper_hex_digit_plain c) as [-> ->]. simpl. auto.
  - rewrite H1. simpl. auto.
Qed.

Lemma host_parse_plain (isOpaque : bool) (input host : string) :
  host_parse isOpaque input = Some host -> Js.forallb plain host = true.
Proof.
  unfold host_parse.
  destruct (Js.startsWith input "[").
  - destruct (Js.endsWithChar input "]"); [|discriminate].
    destruct (ipv6_parse _); [|discriminate].
    intro H; inversion H; subst; clear H.
    change ("[" ++ ipv6_serialize l ++ "]") with (String "[" (ipv6_serialize l ++ "]")).
    simpl. rewrite forallb_append, ipv6_serialize_plain. reflexivity.
  - destruct isOpaque.
    + unfold opaque_host_parse.
      destruct (Js.existsb forbidden_host_code_point input) eqn:E; [discriminate|].
      intro H; inversion H; subst; clear H.
      apply percent_encode_c0_plain.
      eapply existsb_false_forallb; [apply not_forbidden_plain | exact E].
    + destruct (domain_to_ascii (percent_decode input)) as [d|]; [|discriminate].
      destruct (Js.existsb forbidden_domain_code_point d) eqn:E; [discriminate|].
      destruct (ends_in_number d).
      * destruct (ipv4_parse d); simpl; [|discriminate].
        intro H; inversion H; subst. apply ipv4_serialize_plain.
      * intro H; inversion H; subst.
        eapply existsb_false_forallb; [|exact E].
        intros c Hc. apply not_forbidden_plain.
        unfold forbidden_domain_code_point in Hc.
        apply orb_false_iff in Hc as [Hc _].
        apply orb_false_iff in Hc as [Hc _].
        apply orb_false_iff in Hc as [Hc _]. exact Hc.
Qed.

Lemma parse_authority_plain (scheme : string) (special : bool) (s : string) (u : URL) :
  parse_authority scheme special s = Some u -> Js.forallb plain (hostname u) = true.
Proof.
  unfold parse_authority.
  destruct (after_last_at _) as [hostport atSignSeen].
  destruct (atSignSeen && String.eqb hostport ""); [discriminate|].
  destruct (split_host_port hostport false) as [buffer [portBuffer|]].
  - destruct (String.eqb buffer ""); [discriminate|].
    destruct (host_parse (negb special) buffer) as [h|] eqn:E; [|discriminate].
    destruct (parse_port scheme portBuffer); [|discriminate].
    intro H; inversion H; subst; simpl. eapply host_parse_plain; eauto.
  - destruct (special && String.eqb buffer ""); [discriminate|].
    destruct (host_parse (negb special) buffer) as [h|] eqn:E; [|discriminate].
    intro H; inversion H; subst; simpl. eapply host_parse_plain; eauto.
Qed.

Lemma parse_file_plain (s : string) (u : URL) :
  parse_file s = Some u -> Js.forallb plain (hostname u) = true.
Proof.
  unfold parse_file.
  destruct s as [|c1 [|c2 rest]];
    try (intro H; inversion H; subst; reflexivity).
  destruct (is_slash c1 && is_slash c2);
    [|intro H; inversion H; subst; reflexivity].
  destruct (is_windows_drive_letter _); [intro H; inversion H; subst; reflexivity|].
  destruct (String.eqb _ ""); [intro H; inversion H; subst; reflexivity|].
  destruct (host_parse false _) as [h|] eqn:E; [|discriminate].
  intro H; inversion H; subst; simpl.
  destruct (String.eqb h "localhost"); [reflexivity|].
  eapply host_parse_plain; eauto.
Qed.

(** The host name of a parsed URL has no space and no slash. *)
Lemma parse_hostname_plain (input : string) (u : URL) :
  parse input = Some u -> Js.forallb plain (hostname u) = true.
Proof.
  unfold parse.
  destruct (parse_scheme (preprocess input)) as [[scheme rest]|]; [|discriminate].
  destruct (String.eqb scheme "file"); [apply parse_file_plain|].
  destruct (is_special scheme); [apply parse_authority_plain|].
  destruct (Js.startsWith rest "//"); [apply parse_authority_plain|].
  intro H; inversion H; subst; reflexivity.
Qed.

End HostnameFacts.

(* ================================================================== *)
(** * Properties of the orchestrator *)

Section OrchestratorFacts.

Import ExtractionService Pipeline.

Variable options : ExtractionOptions.
Variable url : string.

Lemma tryExtractors_cons (ex : IExtractor) (rest : list IExtractor)
      (lastError : option Exception) :
  tryExtractors (ex :: rest) url options lastError =
  match verdict options url ex with
  | Skipped | Rejected _ => tryExtractors rest url options lastError
  | Failed e => tryExtractors rest url options (Some e)
  | Accepted r =>
      Returned (mkOutcome r (getExtractionMethod ex)
                          (calculateConfidence r (getExtractionMethod ex)))
  end.
Proof.
  unfold verdict; simpl.
  destruct (canExtract ex url); simpl; [|reflexivity].
  destruct (forcedOut options ex); [reflexivity|].
  destruct (Types.extract ex url) as [r|e]; [|reflexivity].
  destruct (hasGoodData r); reflexivity.
Qed.

(** Strategies that do not accept only move the recorded error along. *)
Lemma tryExtractors_skip_prefix (pre rest : list IExtractor) :
  Forall (fun ex => accepts options url ex = false) pre ->
  forall lastError,
    tryExtractors (pre ++ rest) url options lastError =
    tryExtractors rest url options
      (match List.rev (failures options url pre) with
       | e :: _ => Some e
       | [] => lastError
       end).
Proof.
  induction 1 as [|ex pre Hex Hpre IH]; intro lastError; [reflexivity|].
  rewrite <- app_comm_cons, tryExtractors_cons.
  unfold accepts in Hex. simpl failures.
  destruct (verdict options url ex) as [| e | r | r]; try discriminate;
    rewrite IH; auto.
  simpl List.rev.
  destruct (List.rev (failures options url pre)); reflexivity.
Qed.

Lemma tryExtractors_none_accepts (l : list IExtractor) (lastError : option Exception) :
  Forall (fun ex => accepts options url ex = false) l ->
  tryExtractors l url options lastError =
  Thrown (match List.rev (failures options url l), lastError with
          | e :: _, _ => e
          | [], Some e => e
          | [], None => noExtractorsAvailable
          end).
Proof.
  intro H.
  rewrite <- (app_nil_r l) at 1.
  rewrite tryExtractors_skip_prefix by assumption.
  simpl. destruct (List.rev (failures options url l)); [|reflexivity].
  destruct lastError; reflexivity.
Qed.

(** Whatever is returned was scored by [calculateConfidence]. *)
Lemma tryExtractors_returned (l : list IExtractor) :
  forall lastError o,
    tryExtractors l url options lastError = Returned o ->
    exists ex, In ex l /\ verdict options url ex = Accepted (result o)
               /\ method o = getExtractionMethod ex
               /\ confidence o = calculateConfidence (result o) (method o).
Proof.
  induction l as [|ex l IH]; intros lastError o H.
  - simpl in H. destruct lastError; discriminate.
  - rewrite tryExtractors_cons in H.
    destruct (verdict options url ex) as [| e | r | r] eqn:V.
    + destruct (IH _ _ H) as (ex' & ? & ?). exists ex'. simpl; auto.
    + destruct (IH _ _ H) as (ex' & ? & ?). exists ex'. simpl; auto.
    + destruct (IH _ _ H) as (ex' & ? & ?). exists ex'. simpl; auto.
    + inversion H; subst; clear H. simpl. exists ex. simpl; auto.
Qed.


End OrchestratorFacts.

Section SortFacts.

Import ExtractionService.

Lemma insertByPriority_In (x y : IExtractor) (l : list IExtractor) :
  In y (insertByPriority x l) <-> y = x \/ In y l.
Proof.
  induction l as [|z l IH]; simpl.
  - intuition.
  - destruct (getPriority x <=? getPriority z)%Z; simpl; intuition.
Qed.

Lemma sortExtractors_In (y : IExtractor) (l : list IExtractor) :
  In y (sortExtractors l) <-> In y l.
Proof.
  induction l as [|x l IH]; simpl; [tauto|].
  rewrite insertByPriority_In, IH. intuition.
Qed.

Lemma sortExtractors_Forall (P : IExtractor -> Prop) (l : list IExtractor) :
  Forall P l -> Forall P (sortExtractors l).
Proof.
  rewrite !Forall_forall. intros H x Hx. apply H, sortExtractors_In, Hx.
Qed.

End SortFacts.

Section ConfidenceFacts.

Import ExtractionService.

Lemma calculateConfidence_bounds (r : ExtractionResult) (m : ExtractionMethod) :
  (5 # 10 <= calculateConfidence r m)%Q /\ (calculateConfidence r m <= 1)%Q.
Proof.
  unfold calculateConfidence.
  set (bonus := Qmin _ (1 # 10)).
  assert (Hb0 : (0 <= bonus)%Q).
  { apply Q.min_glb; [|discriminate].
    apply Qmult_le_0_compat; [|discriminate].
    unfold Qle; simpl. lia. }
  split.
  - apply Q.min_glb; [|discriminate].
    destruct m.
    + apply Qle_trans with ((8 # 10) + 0)%Q; [discriminate|].
      apply Qplus_le_compat; [apply Qle_refl | exact Hb0].
    + apply Qle_trans with ((9 # 10) + 0)%Q; [discriminate|].
      apply Qplus_le_compat; [apply Qle_refl | exact Hb0].
    + apply Qle_trans with ((5 # 10) + 0)%Q; [discriminate|].
      apply Qplus_le_compat; [apply Qle_refl | exact Hb0].
  - apply Q.le_min_r.
Qed.

(** The record of the fallback strategy has four keys, none of them null. *)
Lemma fallback_fieldsCount (hostname : string) :
  fieldsCount (FallbackExtractor.recordFor hostname) = 4%nat.
Proof. reflexivity. Qed.

Lemma fallback_confidence (hostname : string) :
  (calculateConfidence (FallbackExtractor.recordFor hostname) FALLBACK == 6 # 10)%Q.
Proof. reflexivity. Qed.

Lemma fallback_method :
  getExtractionMethod FallbackExtractor.instance = FALLBACK.
Proof. reflexivity. Qed.

End ConfidenceFacts.

(* ================================================================== *)
(** * The fallback record and the quality gate *)

Section FallbackGate.

Import ExtractionService Pipeline.

Lemma lower_char_plain (c : ascii) : plain (Js.lower_char c) = plain c.
Proof. each_ascii c; reflexivity. Qed.

Lemma toLowerCase_plain (s : string) :
  Js.forallb plain s = true -> Js.forallb plain (Js.toLowerCase s) = true.
Proof.
  intro H. unfold Js.toLowerCase. rewrite forallb_map.
  eapply forallb_impl; [|exact H].
  intros c Hc. rewrite lower_char_plain. exact Hc.
Qed.

(** A string without a space includes no phrase that has one. *)
Lemma plain_excludes (s pat : string) :
  Js.forallb plain s = true -> Js.forallb plain pat = false ->
  Js.includes s pat = false.
Proof.
  intros Hs Hpat. destruct (Js.includes s pat) eqn:E; [|reflexivity].
  rewrite (includes_forallb plain s pat E Hs) in Hpat. discriminate.
Qed.




(** The fallback record misses the gate when the host name has at most
    ten characters. *)
Lemma fallback_gate_short (h : string) :
  (String.length h <= 10)%nat ->
  hasGoodData (FallbackExtractor.recordFor h) = false.
Proof.
  intro Hlen. unfold hasGoodData. cbn [title FallbackExtractor.recordFor].
  rewrite length_append.
  change (String.length "Page from ") with 10%nat.
  replace (20 <? 10 + String.length h)%nat with false
    by (symmetry; apply Nat.ltb_ge; lia).
  rewrite andb_false_r. reflexivity.
Qed.

End FallbackGate.

(* ================================================================== *)
(** * The claims about the orchestrator *)

Section OrchestratorClaims.

Import ExtractionService Pipeline.

(** C1, counterexample.  With the HTTP strategy failing and the AI strategy
    skipped, the fallback record for [https://example.com/x] passes the
    gate and the outcome is tagged fallback, but its confidence is not
    0.5. *)
Lemma C1_counterexample :
  verdict noOptions "https://example.com/x"
          (HttpExtractor.instance Scenario.offlineClient Scenario.landingPageScan)
  = Failed (ErrorObject "Network Error")
  /\ verdict noOptions "https://example.com/x" Scenario.unconfiguredAI = Skipped
  /\ accepts noOptions "https://example.com/x" FallbackExtractor.instance = true
  /\ exists o,
       extract Scenario.offlineRegistry "https://example.com/x" noOptions = Returned o
       /\ method o = FALLBACK
       /\ ~ (confidence o == 5 # 10)%Q.
Proof.
  repeat split; try reflexivity.
  eexists. split; [reflexivity|]. split; [reflexivity|].
  simpl. discriminate.
Qed.

(** C1, amended.  If every strategy that is tried before the fallback
    extractor fails, is skipped or has its record refused, and the fallback
    extractor's record is accepted by the quality gate, then [extract]
    returns that record tagged fallback with confidence 0.6: the base value
    0.5 plus the capped completeness bonus 0.1, since the fallback record
    always has four non-null fields. *)
Theorem C1_fallback_outcome :
  forall extractors url options pre post r,
    sortExtractors extractors = (pre ++ FallbackExtractor.instance :: post)%list ->
    Forall (fun ex => accepts options url ex = false) pre ->
    forcedOut options FallbackExtractor.instance = false ->
    FallbackExtractor.extract url = Returned r ->
    hasGoodData r = true ->
    exists o,
      extract extractors url options = Returned o
      /\ result o = r /\ method o = FALLBACK /\ (confidence o == 6 # 10)%Q.
Proof.
  intros extractors url options pre post r Hsort Hpre Hforce Hext Hgood.
  unfold extract. rewrite Hsort.
  rewrite tryExtractors_skip_prefix by exact Hpre.
  rewrite tryExtractors_cons.
  unfold verdict. simpl canExtract. simpl negb. cbv iota.
  rewrite Hforce.
  change (Types.extract FallbackExtractor.instance url)
    with (FallbackExtractor.extract url).
  rewrite Hext, Hgood. simpl.
  eexists. split; [reflexivity|]. simpl.
  split; [reflexivity|]. split; [reflexivity|].
  unfold FallbackExtractor.extract in Hext.
  destruct (WhatwgUrl.parse url) as [u|]; [|discriminate].
  inversion Hext; subst. reflexivity.
Qed.

Lemma C1_fallback_outcome_witness :
  exists o,
    extract Scenario.offlineRegistry "https://example.com/x" noOptions = Returned o
    /\ result o = FallbackExtractor.recordFor "example.com"
    /\ method o = FALLBACK /\ (confidence o == 6 # 10)%Q.
Proof.
  apply (C1_fallback_outcome Scenario.offlineRegistry "https://example.com/x" noOptions
           [HttpExtractor.instance Scenario.offlineClient Scenario.landingPageScan;
            Scenario.unconfiguredAI] []).
  - reflexivity.
  - repeat constructor.
  - reflexivity.
  - reflexivity.
  - reflexivity.
Defined.

(** C10.  Every outcome that [extract] returns has a confidence in the
    closed interval from 0.5 to 1.0. *)
Theorem C10_confidence_in_range :
  forall extractors url options o,
    extract extractors url options = Returned o ->
    (5 # 10 <= confidence o)%Q /\ (confidence o <= 1)%Q.
Proof.
  intros extractors url options o H.
  unfold extract, Completion.tryCatch in H.
  destruct (tryExtractors (sortExtractors extractors) url options None) as [o'|e] eqn:E;
    [|discriminate].
  inversion H; subst o'; clear H.
  destruct (tryExtractors_returned _ _ _ _ _ E) as (ex & _ & _ & _ & Hc).
  rewrite Hc. apply calculateConfidence_bounds.
Qed.

Lemma C10_confidence_in_range_witness :
  let o := mkOutcome (FallbackExtractor.recordFor "example.com") FALLBACK
                     (calculateConfidence (FallbackExtractor.recordFor "example.com") FALLBACK) in
  extract Scenario.offlineRegistry "https://example.com/x" noOptions = Returned o
  /\ (5 # 10 <= confidence o)%Q /\ (confidence o <= 1)%Q.
Proof.
  intro o. split; [reflexivity|].
  apply (C10_confidence_in_range Scenario.offlineRegistry "https://example.com/x" noOptions o).
  reflexivity.
Defined.




Lemma last_rev {A} (l : list A) (d : A) :
  List.last l d = match List.rev l with e :: _ => e | [] => d end.
Proof.
  induction l as [|x l IH] using rev_ind; [reflexivity|].
  rewrite last_last, rev_app_distr. reflexivity.
Qed.

(** C7, counterexample.  On [https://amazon.com/x] the HTTP strategy and
    the fallback strategy both run, their records are refused by the gate,
    nothing is thrown by a strategy, and [extract] throws the "No
    extractors available" error although [canExtract] was true for two
    registered strategies. *)
Lemma C7_counterexample :
  extract Scenario.landingPageRegistry "https://amazon.com/x" noOptions
  = Thrown noExtractorsAvailable
  /\ canExtract (HttpExtractor.instance Scenario.landingPageClient Scenario.landingPageScan)
                "https://amazon.com/x" = true
  /\ ran noOptions "https://amazon.com/x"
         (HttpExtractor.instance Scenario.landingPageClient Scenario.landingPageScan) = true
  /\ ran noOptions "https://amazon.com/x" FallbackExtractor.instance = true
  /\ ~ Forall (fun ex => canExtract ex "https://amazon.com/x" = false)
              Scenario.landingPageRegistry.
Proof.
  repeat split; try reflexivity.
  intro H. inversion H; subst. discriminate.
Qed.

(** C7, amended.  When no strategy produces a gate-accepted result,
    [extract] throws the last error that a strategy's [extract] call threw,
    in priority order; when no such call threw, because no strategy ran or
    because every strategy that ran returned a record that the gate
    refused, it throws the "No extractors available" error. *)
Theorem C7_thrown_error :
  forall extractors url options,
    Forall (fun ex => accepts options url ex = false) extractors ->
    extract extractors url options
    = Thrown (List.last (failures options url (sortExtractors extractors))
                        noExtractorsAvailable).
Proof.
  intros extractors url options H.
  unfold extract.
  rewrite tryExtractors_none_accepts by (apply sortExtractors_Forall; exact H).
  rewrite last_rev. simpl.
  destruct (List.rev (failures options url (sortExtractors extractors))); reflexivity.
Qed.

Lemma C7_thrown_error_witness :
  extract Scenario.offlineRegistry "https://amazon.com/x" noOptions
  = Thrown (ErrorObject "Network Error")
  /\ extract Scenario.landingPageRegistry "https://amazon.com/x" noOptions
     = Thrown noExtractorsAvailable.
Proof.
  split.
  - apply (C7_thrown_error Scenario.offlineRegistry "https://amazon.com/x" noOptions).
    repeat constructor.
  - apply (C7_thrown_error Scenario.landingPageRegistry "https://amazon.com/x" noOptions).
    repeat constructor.
Defined.

End OrchestratorClaims.

(* ================================================================== *)
(** * Request validation *)

Section ValidationClaims.

Import ConfigManager Validators Pipeline.

(** A host name never includes a pattern that holds a slash: the four
    CIDR entries of the deny-list match nothing. *)
Lemma cidr_pattern_never_matches (input pattern : string) (u : WhatwgUrl.URL) :
  WhatwgUrl.parse input = Some u ->
  Js.forallb plain pattern = false ->
  Js.includes (Js.toLowerCase (WhatwgUrl.hostname u)) pattern = false.
Proof.
  intros Hparse Hpat. apply plain_excludes; [|exact Hpat].
  apply toLowerCase_plain. eapply parse_hostname_plain; eauto.
Qed.

(** C3, at the failing inputs.  The validator accepts URLs whose host is
    an RFC 1918 or link-local address, whatever the environment sets for
    the size limit, and the request validator accepts the request; the
    literal entries of the deny-list do reject [127.0.0.1]. *)
Theorem C3_private_hosts_pass_validation :
  forall env,
    let config := createSecurityConfig env in
    validateUrl config (Some "http://192.168.1.5/") = mkValidation true []
    /\ validateUrl config (Some "http://10.1.2.3/") = mkValidation true []
    /\ validateUrl config (Some "http://172.16.0.5/") = mkValidation true []
    /\ validateUrl config (Some "http://169.254.169.254/") = mkValidation true []
    /\ isValid (validate config
                  (Some (mkPreviewRequest (Some "http://192.168.1.5/") RawHtmlAbsent)))
       = true
    /\ isValid (validateUrl config (Some "http://127.0.0.1/")) = false.
Proof. intro env. repeat split; reflexivity. Qed.

End ValidationClaims.

(* ================================================================== *)
(** * URL canonicalisation *)

Section CanonicalisationClaims.

Import UrlNormalizationService Vocabulary.

(** C9.  [normalizeUrl] maps
    [https://www.amazon.com/product?utm_source=google&ref=123#section] to
    [https://amazon.com/product?ref=123]. *)
Theorem C9_amazon_example :
  normalizeUrl "https://www.amazon.com/product?utm_source=google&ref=123#section"
  = Returned "https://amazon.com/product?ref=123".
Proof. vm_compute. reflexivity. Qed.

(** The other two cases of the repository's test of [normalizeUrl]. *)
Lemma normalizeUrl_test_cases :
  normalizeUrl "http://WWW.EXAMPLE.COM/path?utm_medium=email"
  = Returned "https://example.com/path"
  /\ normalizeUrl "https://example.com" = Returned "https://example.com"
  /\ normalizeUrl "not-a-url" = Thrown invalidUrlFormat.
Proof. repeat split; vm_compute; reflexivity. Qed.


Lemma startsWith_append (a b p : string) :
  Js.startsWith a p = true -> Js.startsWith (a ++ b) p = true.
Proof.
  unfold Js.startsWith. revert a.
  induction p as [|c p IH]; intros a H; [destruct (a ++ b); reflexivity|].
  destruct a as [|d a]; simpl in H; [discriminate|].
  simpl. destruct (ascii_dec c d); [auto | discriminate].
Qed.

(** After [set('protocol', 'https')] the scheme part is [https://];
    the later calls of [set] and the deletions from the query leave it. *)
Lemma normalised_scheme (parsed : URLParse.Url) :
  URLParse.schemePart (normalise parsed) = "https://".
Proof. reflexivity. Qed.

Lemma removeTrailingSlash_https (s : string) :
  Js.startsWith (removeTrailingSlash ("https://" ++ s)) "https:/" = true.
Proof.
  unfold removeTrailingSlash.
  destruct (Js.endsWithChar ("https://" ++ s) "/"); [|reflexivity].
  destruct s; reflexivity.
Qed.

(** Whatever [normalizeUrl] returns has the scheme https. *)
Lemma normalizeUrl_https (u c : string) :
  normalizeUrl u = Returned c -> Js.startsWith c "https:/" = true.
Proof.
  unfold normalizeUrl, Completion.tryCatch.
  destruct (negb (isValidUrl u)); [discriminate|].
  destruct (URLParse.construct u true) as [parsed|e]; [|discriminate].
  cbn [Completion.bind]. cbv zeta.
  intro H. injection H as <-.
  unfold URLParse.toString. rewrite normalised_scheme.
  apply removeTrailingSlash_https.
Qed.

Lemma sanitizeUrl_prefix (u : string) : hasHttpPrefix (sanitizeUrl u) = true.
Proof.
  unfold sanitizeUrl.
  destruct (hasHttpPrefix (Js.trim u)) eqn:E; cbn [negb]; [exact E|].
  unfold hasHttpPrefix. apply orb_true_iff. right.
  apply startsWith_append. reflexivity.
Qed.



(** The schemeless example, sanitised and then canonicalised. *)
Lemma sanitised_example :
  sanitizeUrl "example.com/path" = "https://example.com/path"
  /\ normalizeUrl (sanitizeUrl "example.com/path") = Returned "https://example.com/path".
Proof. split; vm_compute; reflexivity. Qed.

End CanonicalisationClaims.

(* ================================================================== *)
(** * The client retry wrapper *)

Section RetryClaims.

Import UrlNormalizationService UrlPreviewService Vocabulary.

Variable network : nat -> string -> Completion.t string.
Variable extractTitle extractDescription extractPrice : string -> option string.
Variable extractImageUrl : string -> string -> option string.

(** An attempt whose request is rejected records the request, waits when
    attempts remain, and goes on with the rejection as the last error. *)
Lemma attempts_rejected (remaining attempt : nat) (url : string)
      (lastError : option Exception) (trace : list Event) (e : Exception) :
  network (requestCount trace) url = Thrown e ->
  attempts network extractTitle extractDescription extractImageUrl extractPrice
           (S remaining) attempt url lastError trace
  = attempts network extractTitle extractDescription extractImageUrl extractPrice
             remaining (S attempt) url (Some e)
             (trace ++ Request url
                :: (if (attempt <? MAX_RETRIES)%nat
                    then [Delay (RETRY_DELAY * N.of_nat attempt)] else []))%list.
Proof.
  intro H. cbn [attempts]. unfold catch, bind, makeRequest. rewrite H.
  destruct (attempt <? MAX_RETRIES)%nat; unfold delay, ret.
  - rewrite <- app_assoc. reflexivity.
  - reflexivity.
Qed.

(** C8.  When the sanitised URL is not valid, [fetchPreview] throws the
    non-retryable validation error and the trace stays empty: no request
    is made.  When it is valid and the first three requests are rejected,
    [fetchPreview] makes exactly three requests, waits [RETRY_DELAY * 1]
    after the first and [RETRY_DELAY * 2] after the second, the second
    delay being the longer, and throws a retryable network error whose
    message ends with the message of the third rejection. *)
Theorem C8_fetchPreview_retries :
  forall url,
    let sanitizedUrl := sanitizeUrl url in
    (isValidUrl sanitizedUrl = false ->
     fetchPreview network extractTitle extractDescription extractImageUrl extractPrice
                  url [] =
     (Thrown (AppErrorObject (mkAppError VALIDATION "Invalid URL provided" false)), []))
    /\
    (isValidUrl sanitizedUrl = true ->
     forall e1 e2 e3,
       network 0 sanitizedUrl = Thrown e1 ->
       network 1 sanitizedUrl = Thrown e2 ->
       network 2 sanitizedUrl = Thrown e3 ->
       exists trace,
         fetchPreview network extractTitle extractDescription extractImageUrl extractPrice
                      url [] =
         (Thrown (AppErrorObject
                    (mkAppError NETWORK
                       ("Failed to fetch preview after 3 attempts: " ++ messageOf e3)
                       true)),
          trace)
         /\ trace = [Request sanitizedUrl; Delay (RETRY_DELAY * 1);
                     Request sanitizedUrl; Delay (RETRY_DELAY * 2);
                     Request sanitizedUrl]
         /\ requestCount trace = 3%nat
         /\ delaysOf trace = [1000%N; 2000%N]
         /\ (RETRY_DELAY * 1 < RETRY_DELAY * 2)%N).
Proof.
  intros url sanitizedUrl. split.
  - intro Hv. unfold fetchPreview. fold sanitizedUrl. rewrite Hv. reflexivity.
  - intros Hv e1 e2 e3 H1 H2 H3.
    eexists. split; [|repeat split; reflexivity].
    unfold fetchPreview. fold sanitizedUrl. rewrite Hv. cbn [negb].
    unfold MAX_RETRIES at 1.
    rewrite (attempts_rejected 2 1 sanitizedUrl None [] e1 H1).
    cbn [Nat.ltb Nat.leb MAX_RETRIES app].
    rewrite (attempts_rejected 1 2 sanitizedUrl (Some e1)
               [Request sanitizedUrl; Delay (RETRY_DELAY * N.of_nat 1)] e2 H2).
    cbn [Nat.ltb Nat.leb MAX_RETRIES app].
    rewrite (attempts_rejected 0 3 sanitizedUrl (Some e2)
               [Request sanitizedUrl; Delay (RETRY_DELAY * N.of_nat 1);
                Request sanitizedUrl; Delay (RETRY_DELAY * N.of_nat 2)] e3 H3).
    reflexivity.
Qed.

End RetryClaims.

Section RetryWitness.

Import UrlNormalizationService UrlPreviewService Vocabulary RetryScenario.

Lemma C8_fetchPreview_retries_witness :
  fetchPreview deadNetwork noScan noScan noImage noScan "" []
  = (Thrown (AppErrorObject (mkAppError VALIDATION "Invalid URL provided" false)), [])
  /\ exists trace,
       fetchPreview deadNetwork noScan noScan noImage noScan "example.com/lamp" []
       = (Thrown (AppErrorObject
                    (mkAppError NETWORK
                       "Failed to fetch preview after 3 attempts: timeout of 10000ms exceeded (request 2)"
                       true)),
          trace)
       /\ trace = [Request "https://example.com/lamp"; Delay 1000;
                   Request "https://example.com/lamp"; Delay 2000;
                   Request "https://example.com/lamp"]
       /\ requestCount trace = 3%nat
       /\ delaysOf trace = [1000%N; 2000%N]
       /\ (RETRY_DELAY * 1 < RETRY_DELAY * 2)%N.
Proof.
  split.
  - exact (proj1 (C8_fetchPreview_retries deadNetwork noScan noScan noScan noImage "")
                 eq_refl).
  - exact (proj2 (C8_fetchPreview_retries deadNetwork noScan noScan noScan noImage
                                          "example.com/lamp")
                 eq_refl _ _ _ eq_refl eq_refl eq_refl).
Defined.

End RetryWitness.

(* ================================================================== *)
(** * The wishlist store *)

Section StoreFacts.

Import DatabaseService Vocabulary.

Lemma option_eqb_eq (a b : option string) : option_eqb a b = true <-> a = b.
Proof.
  destruct a as [x|], b as [y|]; simpl; try (split; congruence).
  rewrite String.eqb_eq. split; congruence.
Qed.

(** [items.some(...)] finds nothing exactly when the URL is not stored. *)
Lemma not_stored (n : option string) (items : list WishlistItem) :
  List.existsb (fun existing => option_eqb (normalizedUrl existing) n) items = false
  <-> ~ In n (List.map normalizedUrl items).
Proof.
  induction items as [|x items IH]; simpl; [tauto|].
  rewrite orb_false_iff, IH.
  destruct (option_eqb (normalizedUrl x) n) eqn:E.
  - apply option_eqb_eq in E. intuition congruence.
  - assert (normalizedUrl x <> n) by (rewrite <- option_eqb_eq; congruence).
    intuition.
Qed.

Lemma NoDup_map_filter {A B} (f : A -> B) (p : A -> bool) (l : list A) :
  NoDup (List.map f l) -> NoDup (List.map f (List.filter p l)).
Proof.
  induction l as [|x l IH]; simpl; intro H; [constructor|].
  inversion H as [|? ? Hx Hl]; subst.
  destruct (p x); simpl; [constructor|]; auto.
  intro Hin. apply Hx.
  apply in_map_iff in Hin as (y & Hy & Hin). apply in_map_iff.
  exists y. split; [assumption|]. apply filter_In in Hin. tauto.
Qed.

Lemma NoDup_map_snoc {A B} (f : A -> B) (l : list A) (x : A) :
  NoDup (List.map f l) -> ~ In (f x) (List.map f l) ->
  NoDup (List.map f (l ++ [x])).
Proof.
  intros Hl Hx. rewrite map_app. simpl.
  apply NoDup_app; [assumption | constructor; [intros []|constructor] |].
  intros y Hy [<-|[]]. contradiction.
Qed.

(** What [updateFirst] does to the list of canonical URLs: nothing when
    the update has none, and otherwise one of them is replaced. *)
Lemma updateFirst_urls (itemId : string) (updates : Updates) (now : string)
      (items : list WishlistItem) (merged : WishlistItem) (items' : list WishlistItem) :
  updateFirst itemId updates now items = Some (merged, items') ->
  match u_normalizedUrl updates with
  | None => List.map normalizedUrl items' = List.map normalizedUrl items
  | Some n =>
      exists before after old,
        List.map normalizedUrl items = (before ++ old :: after)%list
        /\ List.map normalizedUrl items' = (before ++ Some n :: after)%list
  end.
Proof.
  revert merged items'.
  induction items as [|x items IH]; intros merged items' H; [discriminate|].
  simpl in H. destruct (String.eqb (id x) itemId).
  - inversion H; subst; clear H. simpl.
    destruct (u_normalizedUrl updates) as [n|]; [|reflexivity].
    exists [], (List.map normalizedUrl items), (normalizedUrl x). auto.
  - destruct (updateFirst itemId updates now items) as [[m r]|]; [|discriminate].
    inversion H; subst; clear H. specialize (IH _ _ eq_refl). simpl.
    destruct (u_normalizedUrl updates) as [n|].
    + destruct IH as (before & after & old & E1 & E2).
      exists (normalizedUrl x :: before), after, old.
      rewrite E1, E2. auto.
    + congruence.
Qed.

Lemma NoDup_replace {A} (before after : list A) (old new : A) :
  NoDup (before ++ old :: after) -> ~ In new (before ++ old :: after) ->
  NoDup (before ++ new :: after).
Proof.
  intros Hn Hnew.
  apply NoDup_remove in Hn as [Hn Hold].
  apply NoDup_Add with (a := new) (l := (before ++ after)%list).
  - apply Add_app.
  - split; [assumption|].
    intro Hin. apply Hnew. apply in_app_iff in Hin. apply in_app_iff.
    simpl. tauto.
Qed.

(** Records that have a canonical URL are left as they are by the
    migration. *)
Lemma migrateItems_normalized (items : list WishlistItem) :
  Forall (fun item => exists n, normalizedUrl item = Some n /\ n <> "") items ->
  migrateItems items = Returned items.
Proof.
  induction 1 as [|x items (n & Hn & Hne) _ IH]; [reflexivity|].
  simpl. unfold migrateItem. rewrite Hn.
  apply String.eqb_neq in Hne. rewrite Hne. simpl. rewrite IH. reflexivity.
Qed.

End StoreFacts.

Section StoreClaims.

Import DatabaseService WishlistStore Vocabulary StoreScenario.

(** What the operations do keep.  On a store without two entries of the
    same canonical URL: [addItem] and [deleteItem] keep it so, and
    [updateItem] keeps it so when the update leaves [normalizedUrl] alone
    or sets it to a URL that no entry has.  An [addItem] whose canonical
    URL is stored already throws the duplicate error and leaves the
    storage as it was, and the store classifies the error as
    Duplicate, non-retryable. *)
Lemma operations_that_keep_urls_apart :
  forall st newId now item itemId updates state,
    noDuplicateUrls st ->
    noDuplicateUrls (snd (addItem newId now item st))
    /\ noDuplicateUrls (snd (deleteItem itemId st))
    /\ (keepsUrlsApart updates st ->
        noDuplicateUrls (snd (updateItem itemId updates now st)))
    /\ (itemExists (n_normalizedUrl item) st = true ->
        addItem newId now item st
        = (Thrown (ErrorObject "Item already exists in wishlist"), st)
        /\ snd (addItemWithPreview newId now item state st) = st
        /\ error (fst (addItemWithPreview newId now item state st))
           = Some (mkAppError DUPLICATE "This item is already in your wishlist" false)).
Proof.
  intros st newId now item itemId updates state Hinv.
  unfold noDuplicateUrls in *.
  split; [|split; [|split]].
  - unfold addItem.
    destruct (List.existsb _ (getAllItems st)) eqn:E; [exact Hinv|].
    cbn [snd getAllItems saveItems wishlist]. apply NoDup_map_snoc; [exact Hinv|].
    cbn [normalizedUrl]. apply not_stored. exact E.
  - unfold deleteItem.
    destruct (_ =? _)%nat; [exact Hinv|].
    cbn [snd getAllItems saveItems wishlist]. apply NoDup_map_filter. exact Hinv.
  - intro Hsafe. unfold updateItem.
    destruct (updateFirst itemId updates now (getAllItems st)) as [[merged items']|] eqn:E;
      [|exact Hinv].
    cbn [snd getAllItems saveItems wishlist].
    apply updateFirst_urls in E. unfold keepsUrlsApart in Hsafe.
    destruct (u_normalizedUrl updates) as [n|].
    + destruct E as (before & after & old & E1 & E2).
      rewrite E2. rewrite E1 in Hinv. eapply NoDup_replace; [exact Hinv|].
      rewrite <- E1. apply not_stored. exact Hsafe.
    + rewrite E. exact Hinv.
  - intro Hdup. unfold itemExists in Hdup.
    unfold addItemWithPreview, addItem. rewrite Hdup. simpl.
    repeat split; reflexivity.
Qed.

(** C5, at the failing inputs.  Only [addItem] looks for an entry with the
    same canonical URL; [updateItem] and the migration write canonical URLs
    without that check, so each of them leads from a store without
    duplicates to a store with two entries of the same canonical URL.

    [updateItem]: on the store of the lamp and the desk, the edit
    [deskToLamp] succeeds and leaves both entries with the lamp's
    canonical URL, although [addItem] refuses that very URL on the same
    store.

    Migration: a store of schema version 1 holds the legacy entry of the
    lamp, which has no [normalizedUrl].  [addItem] accepts the lamp, no
    entry having its canonical URL; the store still has no duplicate.
    [initialize] then succeeds and gives the legacy entry the canonical
    form of its [originalUrl], which is the canonical URL of the entry just
    added. *)
Theorem C5_duplicates_enter_the_store :
  let now := "2024-02-01T00:00:00.000Z" in
  let updated := updateItem "2" deskToLamp now twoItems in
  let added := addItem "3" now lamp legacyStore in
  let migrated := initialize (snd added) in
  (noDuplicateUrls twoItems
   /\ fst (addItem "3" now lampAgain twoItems)
      = Thrown (ErrorObject "Item already exists in wishlist")
   /\ (exists merged, fst updated = Returned (Some merged))
   /\ List.map normalizedUrl (getAllItems (snd updated))
      = [Some "https://a.com/lamp"; Some "https://a.com/lamp"]
   /\ ~ noDuplicateUrls (snd updated))
  /\ (noDuplicateUrls legacyStore
      /\ (exists newItem, fst added = Returned newItem)
      /\ noDuplicateUrls (snd added)
      /\ fst migrated = Returned tt
      /\ List.map normalizedUrl (getAllItems (snd migrated))
         = [Some "https://a.com/lamp"; Some "https://a.com/lamp"]
      /\ ~ noDuplicateUrls (snd migrated)).
Proof.
  cbv zeta.
  assert (Hdup : ~ NoDup [Some "https://a.com/lamp"; Some "https://a.com/lamp"]).
  { intro H. inversion H as [|? ? Hx _]; subst. apply Hx. left. reflexivity. }
  assert (Hmig : List.map normalizedUrl
                   (getAllItems
                      (snd (initialize
                              (snd (addItem "3" "2024-02-01T00:00:00.000Z" lamp legacyStore)))))
                 = [Some "https://a.com/lamp"; Some "https://a.com/lamp"])
    by (vm_compute; reflexivity).
  split.
  - split; [|split; [|split; [|split]]].
    + unfold noDuplicateUrls. simpl.
      repeat constructor; simpl; intuition discriminate.
    + reflexivity.
    + eexists. reflexivity.
    + reflexivity.
    + unfold noDuplicateUrls. simpl. exact Hdup.
  - split; [|split; [|split; [|split; [|split]]]].
    + unfold noDuplicateUrls. simpl.
      repeat constructor; simpl; intuition discriminate.
    + eexists. reflexivity.
    + unfold noDuplicateUrls. simpl.
      repeat constructor; simpl; intuition discriminate.
    + vm_compute. reflexivity.
    + exact Hmig.
    + unfold noDuplicateUrls. rewrite Hmig. exact Hdup.
Qed.

(** The conditions of these facts hold in the scenario. *)
Lemma store_scenario_conditions :
  keepsUrlsApart rename twoItems
  /\ allNormalized twoItems
  /\ itemExists (n_normalizedUrl lampAgain) twoItems = true
  /\ itemExists (n_normalizedUrl chair) twoItems = false.
Proof.
  repeat split.
  unfold allNormalized. simpl.
  repeat constructor; eexists; (split; [reflexivity | discriminate]).
Qed.

End StoreClaims.

(* ================================================================== *)
(** * More facts about strings: cutting and trimming *)

Section CuttingFacts.

Import PlainUrl.

Lemma span_append (p : ascii -> bool) (a b : string) :
  Js.forallb p a = true -> stops p b -> Js.span p (a ++ b) = (a, b).
Proof.
  intros Ha Hb. induction a as [|c a IH]; simpl in *.
  - destruct b as [|d b]; simpl in *; [reflexivity|]. rewrite Hb. reflexivity.
  - apply andb_true_iff in Ha as [H1 H2]. rewrite H1, (IH H2). reflexivity.
Qed.

Lemma span_all (p : ascii -> bool) (a : string) :
  Js.forallb p a = true -> Js.span p a = (a, "").
Proof.
  intro H. rewrite <- (append_nil_r a) at 1. apply span_append; simpl; auto.
Qed.

Lemma span_stops (p : ascii -> bool) (s : string) :
  stops p s -> Js.span p s = ("", s).
Proof. intro H. apply (span_append p "" s); auto. Qed.

Lemma dropWhile_stops (p : ascii -> bool) (s : string) :
  stops p s -> Js.dropWhile p s = s.
Proof. intro H. unfold Js.dropWhile. rewrite span_stops by assumption. reflexivity. Qed.

Lemma filter_all (p : ascii -> bool) (s : string) :
  Js.forallb p s = true -> Js.filter p s = s.
Proof.
  induction s as [|c s IH]; simpl; [reflexivity|].
  intro H. apply andb_true_iff in H as [H1 H2]. rewrite H1, (IH H2). reflexivity.
Qed.

Lemma map_fixed (f : ascii -> ascii) (s : string) :
  Js.forallb (fun c => Ascii.eqb (f c) c) s = true -> Js.map f s = s.
Proof.
  induction s as [|c s IH]; simpl; [reflexivity|].
  intro H. apply andb_true_iff in H as [H1 H2].
  apply Ascii.eqb_eq in H1. rewrite H1, (IH H2). reflexivity.
Qed.

Lemma forallb_rev_acc (p : ascii -> bool) (s acc : string) :
  Js.forallb p (Js.rev_acc s acc) = Js.forallb p s && Js.forallb p acc.
Proof.
  revert acc. induction s as [|c s IH]; intro acc; simpl; [reflexivity|].
  rewrite IH. simpl. destruct (p c), (Js.forallb p s); reflexivity.
Qed.

Lemma rev_acc_rev_acc (s acc acc' : string) :
  Js.rev_acc (Js.rev_acc s acc) acc' = Js.rev_acc acc (s ++ acc').
Proof.
  revert acc acc'. induction s as [|c s IH]; intros acc acc'; simpl; [reflexivity|].
  rewrite IH. reflexivity.
Qed.

Lemma rev_involutive (s : string) : Js.rev (Js.rev s) = s.
Proof. unfold Js.rev. rewrite rev_acc_rev_acc. simpl. apply append_nil_r. Qed.

Lemma forallb_stops (p : ascii -> bool) (s : string) :
  Js.forallb (fun c => negb (p c)) s = true -> stops p s.
Proof.
  destruct s as [|c s]; simpl; [trivial|].
  intro H. apply andb_true_iff in H as [H _]. apply negb_true_iff in H. exact H.
Qed.

Lemma dropWhileEnd_none (p : ascii -> bool) (s : string) :
  Js.forallb (fun c => negb (p c)) s = true -> Js.dropWhileEnd p s = s.
Proof.
  intro H. unfold Js.dropWhileEnd.
  rewrite dropWhile_stops; [apply rev_involutive|].
  apply forallb_stops. unfold Js.rev. rewrite forallb_rev_acc, H. reflexivity.
Qed.

Lemma split_last_none (c : ascii) (s : string) :
  Js.forallb (fun x => negb (Ascii.eqb x c)) s = true -> URLParse.split_last c s = None.
Proof.
  induction s as [|x s IH]; simpl; [reflexivity|].
  intro H. apply andb_true_iff in H as [H1 H2]. rewrite (IH H2).
  apply negb_true_iff in H1. rewrite H1. reflexivity.
Qed.

Lemma endsWithChar_none (c : ascii) (s : string) :
  Js.forallb (fun x => negb (Ascii.eqb x c)) s = true -> Js.endsWithChar s c = false.
Proof.
  unfold Js.endsWithChar.
  induction s as [|x s IH]; simpl; [reflexivity|].
  intro H. apply andb_true_iff in H as [H1 H2].
  destruct s as [|y s]; [apply negb_true_iff in H1; exact H1 | exact (IH H2)].
Qed.

Lemma toLowerCase_fixed (s : string) :
  Js.forallb (fun c => negb (Js.is_upper c)) s = true -> Js.toLowerCase s = s.
Proof.
  intro H. apply map_fixed. eapply forallb_impl; [|exact H].
  intros c Hc. unfold Js.lower_char. apply negb_true_iff in Hc. rewrite Hc.
  apply Ascii.eqb_refl.
Qed.

Lemma forallb_drop (p : ascii -> bool) (n : nat) (s : string) :
  Js.forallb p s = true -> Js.forallb p (Js.drop n s) = true.
Proof.
  revert s. induction n as [|n IH]; intros s H; [exact H|].
  destruct s as [|c s]; [reflexivity|]. simpl in *.
  apply andb_true_iff in H as [_ H]. auto.
Qed.

Lemma forallb_removeLast (p : ascii -> bool) (s : string) :
  Js.forallb p s = true -> Js.forallb p (Js.removeLast s) = true.
Proof.
  induction s as [|c s IH]; [reflexivity|].
  intro H. simpl in H. apply andb_true_iff in H as [H1 H2].
  destruct s as [|d s]; [reflexivity|].
  change (Js.removeLast (String c (String d s))) with (String c (Js.removeLast (String d s))).
  simpl Js.forallb at 1. rewrite H1. exact (IH H2).
Qed.

(** Appending after a non-empty string keeps its last character. *)
Lemma last_append (a b : string) :
  b <> "" -> Js.last (a ++ b) = Js.last b.
Proof.
  intro Hb. induction a as [|c a IH]; [reflexivity|].
  simpl. rewrite IH. destruct (a ++ b) eqn:E; [|reflexivity].
  destruct a; [simpl in E; contradiction | discriminate].
Qed.

Lemma removeLast_append (a b : string) :
  b <> "" -> Js.removeLast (a ++ b) = a ++ Js.removeLast b.
Proof.
  intro Hb. induction a as [|c a IH]; [reflexivity|].
  simpl. rewrite IH. destruct (a ++ b) eqn:E; [|reflexivity].
  destruct a; [simpl in E; contradiction | discriminate].
Qed.

Lemma endsWithChar_append (a b : string) (c : ascii) :
  b <> "" -> Js.endsWithChar (a ++ b) c = Js.endsWithChar b c.
Proof. intro Hb. unfold Js.endsWithChar. rewrite last_append by exact Hb. reflexivity. Qed.

Lemma startsWith_char (c d : ascii) (t : string) :
  Js.startsWith (String c t) (String d "") = Ascii.eqb d c.
Proof.
  unfold Js.startsWith. cbn [String.prefix].
  destruct (ascii_dec d c) as [->|n].
  - rewrite Ascii.eqb_refl. destruct t; reflexivity.
  - symmetry. apply Ascii.eqb_neq. exact n.
Qed.

End CuttingFacts.

(* ================================================================== *)
(** * The query of a plain address *)

Section QueryFacts.

Import PlainUrl Querystringify.

Lemma unescaped_facts (c : ascii) :
  is_unescaped c = true ->
  is_key_char c = true
  /\ above_space c = true
  /\ Ascii.eqb c "%" = false
  /\ Ascii.eqb c "+" = false
  /\ Ascii.eqb c "&" = false
  /\ Ascii.eqb c "?" = false.
Proof. each_ascii c; vm_compute; intro; try discriminate; repeat split. Qed.

Lemma decodeURIComponent_plain (s : string) :
  Js.forallb is_unescaped s = true -> decodeURIComponent s = Some s.
Proof.
  unfold decodeURIComponent.
  induction s as [|c s IH]; [reflexivity|].
  intro H. simpl in H. apply andb_true_iff in H as [H1 H2].
  destruct (unescaped_facts c H1) as (_ & _ & Hp & _).
  specialize (IH H2). simpl. rewrite Hp.
  destruct (tokenize s) as [l|]; [|discriminate].
  simpl. rewrite IH. reflexivity.
Qed.

Lemma decode_plain (s : string) :
  Js.forallb is_unescaped s = true -> decode s = Some s.
Proof.
  intro H. unfold decode. rewrite map_fixed; [apply decodeURIComponent_plain; exact H|].
  eapply forallb_impl; [|exact H].
  intros c Hc. destruct (unescaped_facts c Hc) as (_ & _ & _ & Hplus & _).
  rewrite Hplus. apply Ascii.eqb_refl.
Qed.

Lemma encode_plain (s : string) :
  Js.forallb is_unescaped s = true -> encode s = s.
Proof.
  unfold encode. induction s as [|c s IH]; [reflexivity|].
  intro H. simpl in H. apply andb_true_iff in H as [H1 H2].
  simpl. rewrite H1, (IH H2). reflexivity.
Qed.

Lemma plainPair_facts (kv : string * string) :
  plainPair kv = true ->
  fst kv <> ""
  /\ Js.forallb is_unescaped (fst kv) = true
  /\ Js.forallb is_unescaped (snd kv) = true
  /\ array_index (fst kv) = None.
Proof.
  unfold plainPair. intro H.
  apply andb_true_iff in H as [H H4]. apply andb_true_iff in H as [H H3].
  apply andb_true_iff in H as [H1 H2].
  repeat split; try assumption.
  - apply negb_true_iff, String.eqb_neq in H1. exact H1.
  - destruct (array_index (fst kv)); [discriminate | reflexivity].
Qed.

(** The parser's regular expression on a written parameter, with or without
    the question mark in front. *)
Lemma match_segment_plain (kv : string * string) (mark : bool) :
  plainPair kv = true ->
  match_segment ((if mark then "?" else "") ++ segment kv) = Some kv.
Proof.
  intro H. destruct (plainPair_facts kv H) as (Hne & Hk & Hv & _).
  destruct kv as [k v]. simpl fst in *. simpl snd in *. unfold segment, match_segment.
  simpl fst. simpl snd.
  assert (Hkey : Js.forallb is_key_char k = true).
  { eapply forallb_impl; [|exact Hk]. intros c Hc. apply unescaped_facts. exact Hc. }
  assert (Hstop : stops (fun c => negb (is_key_char c)) (k ++ "=" ++ v)).
  { destruct k as [|c k]; [contradiction|]. simpl in *.
    apply andb_true_iff in Hkey as [-> _]. reflexivity. }
  assert (Hdrop : Js.dropWhile (fun c => negb (is_key_char c))
                    ((if mark then "?" else "") ++ k ++ "=" ++ v) = k ++ "=" ++ v).
  { destruct mark.
    - unfold Js.dropWhile. simpl Js.span.
      rewrite span_stops by exact Hstop. reflexivity.
    - apply dropWhile_stops. exact Hstop. }
  rewrite Hdrop, (span_append is_key_char k ("=" ++ v) Hkey) by reflexivity.
  destruct k as [|c k]; [contradiction|]. reflexivity.
Qed.

Lemma split_no_separator (sep : ascii) (s : string) :
  Js.forallb (fun c => negb (Ascii.eqb c sep)) s = true -> WhatwgUrl.split sep s = [s].
Proof.
  induction s as [|c s IH]; [reflexivity|].
  intro H. simpl in H. apply andb_true_iff in H as [H1 H2].
  simpl. apply negb_true_iff in H1. rewrite H1, (IH H2). reflexivity.
Qed.

Lemma split_at_separator (sep : ascii) (a b : string) :
  Js.forallb (fun c => negb (Ascii.eqb c sep)) a = true ->
  WhatwgUrl.split sep (a ++ String sep b) = a :: WhatwgUrl.split sep b.
Proof.
  induction a as [|c a IH]; simpl.
  - intros _. rewrite Ascii.eqb_refl. reflexivity.
  - intro H. apply andb_true_iff in H as [H1 H2].
    apply negb_true_iff in H1. rewrite H1, (IH H2). reflexivity.
Qed.

Lemma split_concat (sep : ascii) (first : string) (others : list string) :
  Forall (fun s => Js.forallb (fun c => negb (Ascii.eqb c sep)) s = true) (first :: others) ->
  WhatwgUrl.split sep (String.concat (String sep "") (first :: others)) = first :: others.
Proof.
  revert first. induction others as [|second others IH]; intros first H.
  - simpl. apply split_no_separator. inversion H; assumption.
  - inversion H as [|? ? H1 H2]; subst.
    change (String.concat (String sep "") (first :: second :: others))
      with (first ++ String sep (String.concat (String sep "") (second :: others))).
    rewrite split_at_separator by exact H1. rewrite (IH second H2). reflexivity.
Qed.

Lemma segment_no_ampersand (kv : string * string) (mark : bool) :
  plainPair kv = true ->
  Js.forallb (fun c => negb (Ascii.eqb c "&")) ((if mark then "?" else "") ++ segment kv) = true.
Proof.
  intro H. destruct (plainPair_facts kv H) as (_ & Hk & Hv & _).
  assert (Hun : forall s, Js.forallb is_unescaped s = true ->
                          Js.forallb (fun c => negb (Ascii.eqb c "&")) s = true).
  { intros s Hs. eapply forallb_impl; [|exact Hs].
    intros c Hc. destruct (unescaped_facts c Hc) as (_ & _ & _ & _ & -> & _). reflexivity. }
  unfold segment. rewrite !forallb_append, (Hun _ Hk), (Hun _ Hv).
  destruct mark; reflexivity.
Qed.

(** The loop of the parser over written parameters. *)
Lemma parse_segments_plain (pairs : list (string * string)) :
  List.forallb plainPair pairs = true ->
  forall result,
    parse_segments (List.map segment pairs) result = collect pairs result.
Proof.
  induction pairs as [|kv pairs IH]; intros H result; [reflexivity|].
  simpl in H. apply andb_true_iff in H as [H1 H2].
  cbn [parse_segments List.map].
  rewrite (match_segment_plain kv false H1 : match_segment (segment kv) = Some kv).
  destruct (plainPair_facts kv H1) as (_ & Hk & Hv & _).
  destruct kv as [k v]. simpl fst in *. simpl snd in *.
  rewrite (decode_plain k Hk), (decode_plain v Hv).
  cbn [collect].
  destruct (key_in result k); apply IH; exact H2.
Qed.

(** Parsing the written query gives the collected parameters. *)
Lemma parse_renderQuery (pairs : list (string * string)) :
  List.forallb plainPair pairs = true ->
  parse (renderQuery pairs) = collect pairs [].
Proof.
  intro H. unfold parse, renderQuery.
  destruct pairs as [|kv pairs]; [reflexivity|].
  simpl in H. apply andb_true_iff in H as [H1 H2].
  change ("?" ++ String.concat "&" (List.map segment (kv :: pairs)))
    with (String "?" (String.concat "&" (segment kv :: List.map segment pairs))).
  assert (E : String "?" (String.concat "&" (segment kv :: List.map segment pairs))
              = String.concat "&" (("?" ++ segment kv) :: List.map segment pairs)).
  { simpl. destruct (List.map segment pairs); reflexivity. }
  rewrite E, split_concat.
  - cbn [parse_segments].
    rewrite (match_segment_plain kv true H1 : match_segment ("?" ++ segment kv) = Some kv).
    destruct (plainPair_facts kv H1) as (_ & Hk & Hv & _).
    destruct kv as [k v]. simpl fst in *. simpl snd in *.
    rewrite (decode_plain k Hk), (decode_plain v Hv).
    cbn [collect].
    destruct (key_in [] k); apply parse_segments_plain; exact H2.
  - constructor; [apply (segment_no_ampersand kv true H1)|].
    clear E. induction pairs as [|x pairs IH]; [constructor|].
    simpl in H2. apply andb_true_iff in H2 as [Hx Hp].
    constructor; [apply (segment_no_ampersand x false Hx) | exact (IH Hp)].
Qed.

Lemma has_false (o : QueryObject) (key : string) :
  has o key = false <-> ~ In key (List.map fst o).
Proof.
  unfold has. induction o as [|kv o IH]; simpl; [tauto|].
  rewrite orb_false_iff, IH, String.eqb_neq. tauto.
Qed.

Lemma goodKeys_snoc (o : QueryObject) (k v : string) :
  goodKeys o -> key_in o k = false -> goodKeys (o ++ [(k, v)])%list.
Proof.
  intros [Hn Hp] Hk. unfold key_in in Hk. apply orb_false_iff in Hk as [Hh Hq].
  split.
  - rewrite map_app. simpl. apply NoDup_app; [exact Hn | constructor; [intros []|constructor] |].
    intros x Hx [<-|[]]. apply has_false in Hh. contradiction.
  - apply Forall_app. split; [exact Hp|]. constructor; [exact Hq | constructor].
Qed.

Lemma collect_goodKeys (pairs : list (string * string)) :
  forall result, goodKeys result -> goodKeys (collect pairs result).
Proof.
  induction pairs as [|[k v] pairs IH]; intros result H; [exact H|].
  simpl. destruct (key_in result k) eqn:E; [apply IH; exact H|].
  apply IH. apply goodKeys_snoc; assumption.
Qed.

Lemma collect_forallb (p : string * string -> bool) (pairs : list (string * string)) :
  List.forallb p pairs = true ->
  forall result, List.forallb p result = true ->
                 List.forallb p (collect pairs result) = true.
Proof.
  induction pairs as [|[k v] pairs IH]; intros H result Hr; [exact Hr|].
  simpl in H. apply andb_true_iff in H as [H1 H2].
  simpl. destruct (key_in result k); [apply IH; assumption|].
  apply IH; [exact H2|]. rewrite forallb_app, Hr. simpl. rewrite H1. reflexivity.
Qed.

(** Collecting parameters whose keys are good already changes nothing. *)
Lemma collect_good (pairs : list (string * string)) :
  forall result, goodKeys (result ++ pairs)%list -> collect pairs result = (result ++ pairs)%list.
Proof.
  induction pairs as [|[k v] pairs IH]; intros result H; [symmetry; apply app_nil_r|].
  simpl.
  assert (Hk : key_in result k = false).
  { destruct H as [Hn Hp]. unfold key_in. apply orb_false_iff. split.
    - apply has_false. rewrite map_app in Hn. simpl in Hn.
      apply NoDup_remove_2 in Hn. intro Hin. apply Hn. apply in_app_iff. auto.
    - apply Forall_app in Hp as [_ Hp]. inversion Hp; assumption. }
  rewrite Hk, IH.
  - rewrite <- app_assoc. reflexivity.
  - rewrite <- app_assoc. exact H.
Qed.

Lemma delete_as_filter (keys : list string) :
  forall o,
    List.fold_left delete keys o
    = List.filter (fun kv => negb (List.existsb (String.eqb (fst kv)) keys)) o.
Proof.
  induction keys as [|k keys IH]; intro o; simpl.
  - symmetry. apply forallb_filter_id. apply forallb_forall. reflexivity.
  - rewrite IH. unfold delete.
    induction o as [|kv o IHo]; simpl; [reflexivity|].
    destruct (String.eqb (fst kv) k); simpl; [exact IHo|].
    destruct (List.existsb (String.eqb (fst kv)) keys); simpl; [exact IHo|].
    rewrite IHo. reflexivity.
Qed.

Lemma filter_idempotent {A} (p : A -> bool) (l : list A) :
  List.filter p (List.filter p l) = List.filter p l.
Proof.
  induction l as [|x l IH]; simpl; [reflexivity|].
  destruct (p x) eqn:E; simpl; [rewrite E, IH; reflexivity | exact IH].
Qed.

Lemma dropUtm_idempotent (o : QueryObject) : dropUtm (dropUtm o) = dropUtm o.
Proof. unfold dropUtm. rewrite !delete_as_filter. apply filter_idempotent. Qed.

Lemma forallb_filter {A} (p q : A -> bool) (l : list A) :
  List.forallb p l = true -> List.forallb p (List.filter q l) = true.
Proof.
  induction l as [|x l IH]; simpl; [reflexivity|].
  intro H. apply andb_true_iff in H as [H1 H2].
  destruct (q x); simpl; [rewrite H1|]; auto.
Qed.

Lemma dropUtm_forallb (p : string * string -> bool) (o : QueryObject) :
  List.forallb p o = true -> List.forallb p (dropUtm o) = true.
Proof. intro H. unfold dropUtm. rewrite delete_as_filter. apply forallb_filter. exact H. Qed.

Lemma dropUtm_goodKeys (o : QueryObject) : goodKeys o -> goodKeys (dropUtm o).
Proof.
  intros [Hn Hp]. unfold dropUtm. rewrite delete_as_filter. split.
  - apply NoDup_map_filter. exact Hn.
  - apply Forall_forall. intros x Hx. apply filter_In in Hx as [Hx _].
    rewrite Forall_forall in Hp. apply Hp. exact Hx.
Qed.

(** The canonical parameters are what the parser collects from them. *)
Lemma canonicalQuery_fixed (pairs : list (string * string)) :
  canonicalQuery (canonicalQuery pairs) = canonicalQuery pairs.
Proof.
  unfold canonicalQuery at 1.
  rewrite (collect_good (canonicalQuery pairs) []).
  - apply dropUtm_idempotent.
  - apply dropUtm_goodKeys, collect_goodKeys. split; constructor.
Qed.

Lemma canonicalQuery_plain (pairs : list (string * string)) :
  List.forallb plainPair pairs = true ->
  List.forallb plainPair (canonicalQuery pairs) = true.
Proof.
  intro H. apply dropUtm_forallb, collect_forallb; [exact H | reflexivity].
Qed.

(** Without array indices among the keys, enumeration is creation order. *)
Lemma enumerate_plain (o : QueryObject) :
  List.forallb plainPair o = true -> enumerate o = o.
Proof.
  intro H. unfold enumerate.
  assert (E : indexed o = []).
  { induction o as [|kv o IH]; [reflexivity|].
    simpl in H. apply andb_true_iff in H as [H1 H2].
    destruct (plainPair_facts kv H1) as (_ & _ & _ & Hi).
    simpl. rewrite Hi. exact (IH H2). }
  rewrite E. simpl. apply forallb_filter_id.
  eapply forallb_forall. intros kv Hin.
  rewrite forallb_forall in H. destruct (plainPair_facts kv (H kv Hin)) as (_ & _ & _ & Hi).
  rewrite Hi. reflexivity.
Qed.

Lemma stringify_plain (o : QueryObject) :
  List.forallb plainPair o = true ->
  stringify o = String.concat "&" (List.map segment o).
Proof.
  intro H. unfold stringify. rewrite (enumerate_plain o H). f_equal.
  apply map_ext_in. intros kv Hin.
  rewrite forallb_forall in H. destruct (plainPair_facts kv (H kv Hin)) as (_ & Hk & Hv & _).
  unfold segment. rewrite (encode_plain _ Hk), (encode_plain _ Hv). reflexivity.
Qed.

(** The query part of the rebuilt URL is the written query. *)
Lemma queryPart_plain (url : URLParse.Url) (o : QueryObject) :
  URLParse.query url = URLParse.QueryObject o ->
  List.forallb plainPair o = true ->
  URLParse.queryPart url = renderQuery o.
Proof.
  intros Hq H. unfold URLParse.queryPart. rewrite Hq, (stringify_plain o H).
  destruct o as [|kv o]; [reflexivity|].
  simpl in H. apply andb_true_iff in H as [H1 _].
  destruct (plainPair_facts kv H1) as (Hne & Hk & _).
  unfold renderQuery.
  destruct kv as [k v]. simpl fst in *.
  destruct k as [|c k]; [contradiction|].
  simpl in Hk. apply andb_true_iff in Hk as [Hc _].
  destruct (unescaped_facts c Hc) as (_ & _ & _ & _ & _ & Hmark).
  assert (E : exists t, String.concat "&" (List.map segment ((String c k, v) :: o))
                        = String c t).
  { simpl. destruct (List.map segment o); eexists; reflexivity. }
  destruct E as [t E]. rewrite E. cbn [String.eqb].
  rewrite startsWith_char, Ascii.eqb_sym, Hmark. reflexivity.
Qed.

End QueryFacts.

(* ================================================================== *)
(** * The URL parser on a plain address *)

Section PlainValidity.

Import PlainUrl WhatwgUrl.

Lemma host_char_facts (c : ascii) :
  host_char c = true ->
  above_space c = true
  /\ is_authority_end true c = false
  /\ is_slash c = false
  /\ Ascii.eqb c "@" = false
  /\ Ascii.eqb c ":" = false
  /\ Ascii.eqb c "#" = false
  /\ Ascii.eqb c "?" = false
  /\ Ascii.eqb c "/" = false
  /\ Ascii.eqb c "\" = false
  /\ Js.is_upper c = false.
Proof. each_ascii c; vm_compute; intro; try discriminate; repeat split. Qed.

Lemma forallb_andb (p q : ascii -> bool) (s : string) :
  Js.forallb (fun c => p c && q c) s = Js.forallb p s && Js.forallb q s.
Proof.
  induction s as [|c s IH]; simpl; [reflexivity|].
  rewrite IH. destruct (p c), (q c), (Js.forallb p s); reflexivity.
Qed.

Lemma lower_char_not_upper (c : ascii) : Js.is_upper (Js.lower_char c) = false.
Proof. each_ascii c; reflexivity. Qed.

Lemma is_digit_host_char (c : ascii) : Js.is_digit c = true -> host_char c = true.
Proof. each_ascii c; vm_compute; intro; try reflexivity; discriminate. Qed.

Lemma decimal_host_chars (n : N) : Js.forallb host_char (decimal n) = true.
Proof. eapply forallb_impl; [apply is_digit_host_char | apply decimal_digits]. Qed.

(** A canonical host is not empty and is made of host characters. *)
Lemma canonicalHost_chars (host : string) :
  canonicalHost host -> Js.forallb host_char host = true /\ host <> "".
Proof.
  intros [Hparse Hbracket]. unfold host_parse in Hparse. rewrite Hbracket in Hparse.
  destruct (domain_to_ascii (percent_decode host)) as [d|] eqn:Hd; [|discriminate].
  destruct (Js.existsb forbidden_domain_code_point d) eqn:Hf; [discriminate|].
  destruct (ends_in_number d).
  - destruct (ipv4_parse d) as [a|]; [|discriminate].
    simpl in Hparse. injection Hparse as <-. split.
    + unfold ipv4_serialize. rewrite !forallb_append, !decimal_host_chars. reflexivity.
    + unfold ipv4_serialize. destruct (decimal (a / 16777216 mod 256)); discriminate.
  - injection Hparse as ->. unfold domain_to_ascii in Hd.
    destruct (Js.existsb _ (percent_decode host)); [discriminate|].
    destruct (List.existsb _ _); [discriminate|].
    destruct (String.eqb (Js.toLowerCase (percent_decode host)) "") eqn:He; [discriminate|].
    injection Hd as Hd. split.
    + unfold host_char. rewrite forallb_andb. apply andb_true_iff. split.
      * eapply existsb_false_forallb; [|exact Hf]. intros c Hc. rewrite Hc. reflexivity.
      * rewrite <- Hd. unfold Js.toLowerCase. rewrite forallb_map.
        clear. induction (percent_decode host) as [|c s IH]; simpl; [reflexivity|].
        rewrite lower_char_not_upper, IH. reflexivity.
    + rewrite <- Hd. apply String.eqb_neq. exact He.
Qed.

Lemma after_last_at_none (s : string) :
  Js.forallb (fun c => negb (Ascii.eqb c "@")) s = true -> after_last_at s = (s, false).
Proof.
  induction s as [|c s IH]; [reflexivity|].
  intro H. simpl in H. apply andb_true_iff in H as [H1 H2].
  simpl. rewrite (IH H2). apply negb_true_iff in H1. rewrite H1. reflexivity.
Qed.

Lemma split_host_port_none (s : string) :
  Js.forallb (fun c => negb (Ascii.eqb c ":")) s = true ->
  forall inside, split_host_port s inside = (s, None).
Proof.
  induction s as [|c s IH]; [reflexivity|].
  intros H inside. simpl in H. apply andb_true_iff in H as [H1 H2].
  simpl. apply negb_true_iff in H1. rewrite H1. simpl. rewrite (IH H2). reflexivity.
Qed.

Lemma parse_scheme_http (secure : bool) (rest : string) :
  parse_scheme ((if secure then "https" else "http") ++ ":" ++ rest)
  = Some (if secure then "https" else "http", rest).
Proof. destruct secure; reflexivity. Qed.

Lemma above_space_facts (c : ascii) :
  above_space c = true ->
  is_c0_or_space c = false /\ is_tab_or_newline c = false.
Proof. each_ascii c; vm_compute; intro; try discriminate; split; reflexivity. Qed.

(** The clean-up steps leave a string without control characters and
    spaces as it is. *)
Lemma preprocess_above_space (s : string) :
  Js.forallb above_space s = true -> preprocess s = s.
Proof.
  intro H. unfold preprocess.
  assert (H0 : Js.forallb (fun c => negb (is_c0_or_space c)) s = true).
  { eapply forallb_impl; [|exact H]. intros c Hc.
    destruct (above_space_facts c Hc) as [-> _]. reflexivity. }
  rewrite (dropWhile_stops is_c0_or_space s (forallb_stops _ _ H0)).
  rewrite (dropWhileEnd_none is_c0_or_space s H0).
  apply filter_all. eapply forallb_impl; [|exact H]. intros c Hc.
  destruct (above_space_facts c Hc) as [_ ->]. reflexivity.
Qed.

Lemma clean_above_space (s : string) :
  Js.forallb above_space s = true -> URLParse.clean s = s.
Proof.
  intro H. unfold URLParse.clean.
  assert (H0 : Js.forallb (fun c => negb (is_c0_or_space c)) s = true).
  { eapply forallb_impl; [|exact H]. intros c Hc.
    destruct (above_space_facts c Hc) as [-> _]. reflexivity. }
  rewrite (dropWhile_stops is_c0_or_space s (forallb_stops _ _ H0)).
  apply filter_all. eapply forallb_impl; [|exact H]. intros c Hc.
  destruct (above_space_facts c Hc) as [_ ->]. reflexivity.
Qed.

Lemma path_char_facts (c : ascii) :
  path_char c = true ->
  above_space c = true
  /\ Ascii.eqb c "#" = false
  /\ Ascii.eqb c "?" = false
  /\ Ascii.eqb c "\" = false.
Proof. each_ascii c; vm_compute; intro; try discriminate; repeat split. Qed.

Lemma renderQuery_chars (pairs : list (string * string)) :
  List.forallb plainPair pairs = true ->
  Js.forallb above_space (renderQuery pairs) = true
  /\ Js.forallb (fun c => negb (Ascii.eqb c "#")) (renderQuery pairs) = true
  /\ Js.forallb (fun c => negb (Ascii.eqb c "/")) (renderQuery pairs) = true.
Proof.
  intro H.
  set (good := fun c => above_space c && (negb (Ascii.eqb c "#") && negb (Ascii.eqb c "/"))).
  assert (Hseg : forall kv, plainPair kv = true -> Js.forallb good (segment kv) = true).
  { intros kv Hkv. destruct (plainPair_facts kv Hkv) as (_ & Hk & Hv & _).
    assert (Hun : forall s, Js.forallb Querystringify.is_unescaped s = true ->
                            Js.forallb good s = true).
    { intros s Hs. eapply forallb_impl; [|exact Hs].
      clear. intro c. each_ascii c; vm_compute; intro; try discriminate; reflexivity. }
    unfold segment. rewrite !forallb_append, (Hun _ Hk), (Hun _ Hv). reflexivity. }
  assert (Hall : Js.forallb good (renderQuery pairs) = true).
  { unfold renderQuery. destruct pairs as [|kv pairs]; [reflexivity|].
    change ("?" ++ String.concat "&" (List.map segment (kv :: pairs)))
      with (String "?" (String.concat "&" (List.map segment (kv :: pairs)))).
    cbn [Js.forallb]. change (good "?"%char) with true. cbn [andb].
    revert kv H. induction pairs as [|x pairs IH]; intros kv H.
    - simpl in H. rewrite andb_true_r in H. simpl. apply Hseg. exact H.
    - simpl in H. apply andb_true_iff in H as [H1 H2].
      change (String.concat "&" (List.map segment (kv :: x :: pairs)))
        with (segment kv ++ "&" ++ String.concat "&" (List.map segment (x :: pairs))).
      rewrite !forallb_append, (Hseg kv H1), (IH x H2). reflexivity. }
  unfold good in Hall. rewrite !forallb_andb in Hall.
  apply andb_true_iff in Hall as [H1 H2]. apply andb_true_iff in H2 as [H2 H3]. auto.
Qed.

End PlainValidity.

(* ================================================================== *)
(** * The two parsers on a plain address *)

Section PlainParsing.

Import PlainUrl.

Variable secure : bool.
Variables host path : string.
Variable pairs : list (string * string).
Variable fragment : option string.

Hypothesis host_chars : Js.forallb host_char host = true.
Hypothesis host_not_empty : host <> "".
Hypothesis host_parses : WhatwgUrl.host_parse false host = Some host.
Hypothesis path_start : path = "" \/ Js.startsWith path "/" = true.
Hypothesis path_chars : Js.forallb path_char path = true.
Hypothesis pairs_plain : List.forallb plainPair pairs = true.
Hypothesis fragment_chars :
  match fragment with
  | Some f => Js.forallb above_space f = true
  | None => True
  end.

Lemma host_forallb (p : ascii -> bool) :
  (forall c, host_char c = true -> p c = true) -> Js.forallb p host = true.
Proof. intro H. eapply forallb_impl; [exact H | exact host_chars]. Qed.

Lemma path_forallb (p : ascii -> bool) :
  (forall c, path_char c = true -> p c = true) -> Js.forallb p path = true.
Proof. intro H. eapply forallb_impl; [exact H | exact path_chars]. Qed.

Lemma render_above_space :
  Js.forallb above_space (render secure host path pairs fragment) = true.
Proof.
  unfold render. rewrite !forallb_append.
  rewrite (host_forallb above_space) by (intros c Hc; apply host_char_facts; exact Hc).
  rewrite (path_forallb above_space) by (intros c Hc; apply path_char_facts; exact Hc).
  destruct (renderQuery_chars pairs pairs_plain) as (-> & _).
  destruct secure; destruct fragment as [f|]; simpl; auto.
Qed.

(** What follows the host ends the authority. *)
Lemma tail_stops (p : ascii -> bool) :
  p "/"%char = false -> p "?"%char = false -> p "#"%char = false ->
  stops p (path ++ renderQuery pairs ++ renderFragment fragment).
Proof.
  intros H1 H2 H3.
  destruct path_start as [->|Hs].
  - simpl. destruct pairs as [|kv ps]; simpl.
    + destruct fragment; simpl; auto.
    + exact H2.
  - destruct path as [|c t]; [discriminate|].
    rewrite startsWith_char in Hs. apply Ascii.eqb_eq in Hs. subst c. exact H1.
Qed.

Lemma stops_append (p : ascii -> bool) (a b : string) :
  a <> "" -> stops p a -> stops p (a ++ b).
Proof. destruct a; [contradiction | auto]. Qed.

Lemma host_stops (p : ascii -> bool) (rest : string) :
  (forall c, host_char c = true -> p c = false) -> stops p (host ++ rest).
Proof.
  intro H. destruct host as [|c t]; [contradiction|].
  cbn [Js.forallb] in host_chars. apply andb_true_iff in host_chars as [Hc _]. exact (H c Hc).
Qed.

(** [new URL] accepts the address. *)
Lemma plain_is_valid :
  UrlNormalizationService.isValidUrl (render secure host path pairs fragment) = true.
Proof.
  unfold UrlNormalizationService.isValidUrl, WhatwgUrl.parse.
  rewrite (preprocess_above_space _ render_above_space).
  unfold render.
  change ("://" ++ host ++ path ++ renderQuery pairs ++ renderFragment fragment)
    with (":" ++ String "/" (String "/" (host ++ path ++ renderQuery pairs
                                              ++ renderFragment fragment))).
  rewrite parse_scheme_http.
  assert (E : Js.dropWhile WhatwgUrl.is_slash
                (String "/" (String "/" (host ++ path ++ renderQuery pairs
                                              ++ renderFragment fragment)))
              = host ++ path ++ renderQuery pairs ++ renderFragment fragment).
  { unfold Js.dropWhile. cbn [Js.span].
    change (WhatwgUrl.is_slash "/") with true. cbv iota.
    rewrite span_stops; [reflexivity|].
    apply host_stops. intros c Hc. apply host_char_facts. exact Hc. }
  assert (A : WhatwgUrl.parse_authority (if secure then "https" else "http") true
                (host ++ path ++ renderQuery pairs ++ renderFragment fragment)
              = Some (WhatwgUrl.mkURL ((if secure then "https" else "http") ++ ":") host "")).
  { unfold WhatwgUrl.parse_authority.
    rewrite (span_append _ host _); cycle 1.
    - apply host_forallb. intros c Hc.
      destruct (host_char_facts c Hc) as (_ & -> & _). reflexivity.
    - apply tail_stops; reflexivity.
    - cbn [fst].
      rewrite after_last_at_none; cycle 1.
      { apply host_forallb. intros c Hc.
        destruct (host_char_facts c Hc) as (_ & _ & _ & -> & _). reflexivity. }
      rewrite split_host_port_none; cycle 1.
      { apply host_forallb. intros c Hc.
        destruct (host_char_facts c Hc) as (_ & _ & _ & _ & -> & _). reflexivity. }
      cbn [andb negb].
      apply String.eqb_neq in host_not_empty. rewrite host_not_empty.
      rewrite host_parses. reflexivity. }
  destruct secure; cbn [String.eqb Ascii.eqb Bool.eqb WhatwgUrl.is_special orb];
    rewrite E, A; reflexivity.
Qed.


Lemma extractProtocol_plain :
  URLParse.extractProtocol (render secure host path pairs fragment)
  = URLParse.mkExtracted (if secure then "https:" else "http:") true 2
      (host ++ path ++ renderQuery pairs ++ renderFragment fragment).
Proof.
  unfold URLParse.extractProtocol.
  rewrite (clean_above_space _ render_above_space).
  unfold render.
  assert (M : URLParse.match_protocol
                ((if secure then "https" else "http") ++ "://" ++ host ++ path
                 ++ renderQuery pairs ++ renderFragment fragment)
              = ((if secure then "https:" else "http:"),
                 String "/" (String "/" (host ++ path ++ renderQuery pairs
                                              ++ renderFragment fragment)))).
  { destruct secure; reflexivity. }
  rewrite M.
  rewrite span_stops
    by (apply host_stops; intros c Hc; apply host_char_facts; exact Hc).
  destruct secure; reflexivity.
Qed.

Lemma no_hash_before_fragment :
  Js.forallb (fun c => negb (Ascii.eqb c "#")) (host ++ path ++ renderQuery pairs) = true.
Proof.
  rewrite !forallb_append.
  rewrite host_forallb
    by (intros c Hc; destruct (host_char_facts c Hc) as (_ & _ & _ & _ & _ & -> & _);
        reflexivity).
  rewrite path_forallb
    by (intros c Hc; destruct (path_char_facts c Hc) as (_ & -> & _); reflexivity).
  destruct (renderQuery_chars pairs pairs_plain) as (_ & -> & _). reflexivity.
Qed.

Lemma no_mark_before_query :
  Js.forallb (fun c => negb (Ascii.eqb c "?")) (host ++ path) = true.
Proof.
  rewrite !forallb_append.
  rewrite host_forallb
    by (intros c Hc; destruct (host_char_facts c Hc) as (_ & _ & _ & _ & _ & _ & -> & _);
        reflexivity).
  rewrite path_forallb
    by (intros c Hc; destruct (path_char_facts c Hc) as (_ & _ & -> & _); reflexivity).
  reflexivity.
Qed.

Lemma no_backslash_before_query :
  Js.map (fun c => if Ascii.eqb c "\" then "/"%char else c) (host ++ path) = host ++ path.
Proof.
  apply map_fixed. rewrite !forallb_append.
  rewrite host_forallb.
  - rewrite path_forallb; [reflexivity|].
    intros c Hc. destruct (path_char_facts c Hc) as (_ & _ & _ & ->). apply Ascii.eqb_refl.
  - intros c Hc.
    destruct (host_char_facts c Hc) as (_ & _ & _ & _ & _ & _ & _ & _ & -> & _).
    apply Ascii.eqb_refl.
Qed.

(** What [new URLParse(address, true)] makes of the address. *)
Lemma construct_plain :
  URLParse.construct (render secure host path pairs fragment) true
  = Returned (parsedRecord secure host path pairs fragment).
Proof.
  unfold parsedRecord, URLParse.construct.
  rewrite (clean_above_space _ render_above_space), extractProtocol_plain.
  cbn [URLParse.e_protocol URLParse.e_slashes URLParse.e_slashesCount URLParse.e_rest].
  replace (host ++ path ++ renderQuery pairs ++ renderFragment fragment)
    with ((host ++ path ++ renderQuery pairs) ++ renderFragment fragment)
    by (rewrite !append_assoc; reflexivity).
  unfold URLParse.cut_from at 1.
  rewrite (span_append _ _ _ no_hash_before_fragment)
    by (destruct fragment; reflexivity).
  replace (host ++ path ++ renderQuery pairs)
    with ((host ++ path) ++ renderQuery pairs)
    by (rewrite !append_assoc; reflexivity).
  unfold URLParse.cut_from at 1.
  rewrite (span_append _ _ _ no_mark_before_query)
    by (destruct pairs; reflexivity).
  assert (S1 : URLParse.isSpecial (if secure then "https:" else "http:") = true)
    by (destruct secure; reflexivity).
  assert (S2 : String.eqb (if secure then "https:" else "http:") "file:" = false)
    by (destruct secure; reflexivity).
  assert (S3 : URLParse.required "" (if secure then "https:" else "http:") = false)
    by (destruct secure; reflexivity).
  rewrite S1, S2. cbn [andb orb negb].
  rewrite no_backslash_before_query.
  unfold URLParse.cut_from at 1.
  rewrite (span_append _ host path); cycle 1.
  { apply host_forallb. intros c Hc.
    destruct (host_char_facts c Hc) as (_ & _ & _ & _ & _ & _ & _ & -> & _). reflexivity. }
  { destruct path_start as [->|Hs]; [exact I|].
    destruct path as [|c t]; [exact I|].
    rewrite startsWith_char in Hs. apply Ascii.eqb_eq in Hs. subst c. reflexivity. }
  rewrite split_last_none; cycle 1.
  { apply host_forallb. intros c Hc.
    destruct (host_char_facts c Hc) as (_ & _ & _ & -> & _). reflexivity. }
  unfold URLParse.cut_port. rewrite split_last_none; cycle 1.
  { apply host_forallb. intros c Hc.
    destruct (host_char_facts c Hc) as (_ & _ & _ & _ & -> & _). reflexivity. }
  rewrite S3.
  rewrite toLowerCase_fixed; cycle 1.
  { apply host_forallb. intros c Hc.
    destruct (host_char_facts c Hc) as (_ & _ & _ & _ & _ & _ & _ & _ & _ & ->). reflexivity. }
  cbn [String.eqb].
  rewrite (parse_renderQuery pairs pairs_plain).
  destruct path_start as [->|Hs]; [reflexivity|].
  rewrite Hs. destruct path; [discriminate | reflexivity].
Qed.

Lemma lower_host : Js.toLowerCase host = host.
Proof.
  apply toLowerCase_fixed. apply host_forallb. intros c Hc.
  destruct (host_char_facts c Hc) as (_ & _ & _ & _ & _ & _ & _ & _ & _ & ->). reflexivity.
Qed.

Lemma stripWww_chars : Js.forallb host_char (stripWww host) = true.
Proof.
  unfold stripWww. destruct (Js.startsWith host "www."); [|exact host_chars].
  apply forallb_drop. exact host_chars.
Qed.

End PlainParsing.

Section Rebuilding.

Import PlainUrl UrlNormalizationService.

Variable secure : bool.
Variables host path : string.
Variable pairs : list (string * string).
Variable fragment : option string.

Hypothesis host_chars : Js.forallb host_char host = true.
Hypothesis pairs_plain : List.forallb plainPair pairs = true.

Lemma hostPart_normalised :
  URLParse.hostPart (normalise (parsedRecord secure host path pairs fragment))
  = stripWww host.
Proof.
  pose proof (lower_host host host_chars) as L.
  pose proof (lower_host (stripWww host) (stripWww_chars host host_chars)) as L'.
  unfold URLParse.hostPart.
  cbn [normalise URLParse.host URLParse.hostname URLParse.port URLParse.setProtocol
       URLParse.setHostname URLParse.setHash URLParse.afterSet URLParse.deleteQuery
       List.fold_left UTM_PARAMS parsedRecord].
  rewrite !L. cbn [String.eqb]. fold (stripWww host). rewrite !L'.
  assert (C : Js.forallb (fun c => negb (Ascii.eqb c ":")) (stripWww host) = true).
  { eapply forallb_impl; [|apply stripWww_chars; exact host_chars].
    intros c Hc. destruct (host_char_facts c Hc) as (_ & _ & _ & _ & -> & _). reflexivity. }
  rewrite (endsWithChar_none ":" _ C).
  unfold URLParse.endsWithPort. rewrite (split_last_none ":" _ C). reflexivity.
Qed.

(** The URL that [normalizeUrl] rebuilds from a plain address. *)
Lemma toString_normalised :
  URLParse.toString (normalise (parsedRecord secure host path pairs fragment))
  = "https://" ++ stripWww host ++ (if String.eqb path "" then "/" else path)
    ++ renderQuery (canonicalQuery pairs).
Proof.
  unfold URLParse.toString.
  rewrite normalised_scheme, hostPart_normalised.
  rewrite (queryPart_plain _ (canonicalQuery pairs)); cycle 1.
  - reflexivity.
  - apply canonicalQuery_plain. exact pairs_plain.
  - change (URLParse.userinfoPart (normalise (parsedRecord secure host path pairs fragment)))
      with "".
    change (URLParse.pathname (normalise (parsedRecord secure host path pairs fragment)))
      with (if String.eqb path "" then "/" else path).
    change (URLParse.hash (normalise (parsedRecord secure host path pairs fragment)))
      with "".
    rewrite append_nil_r. reflexivity.
Qed.

End Rebuilding.

(* ================================================================== *)
(** * Canonicalisation of plain addresses *)

Section PathFacts.

Import PlainUrl UrlNormalizationService.

Lemma removeTrailingSlash_append (a b : string) :
  b <> "" -> removeTrailingSlash (a ++ b) = a ++ removeTrailingSlash b.
Proof.
  intro Hb. unfold removeTrailingSlash.
  rewrite endsWithChar_append by exact Hb.
  destruct (Js.endsWithChar b "/"); [|reflexivity].
  apply removeLast_append. exact Hb.
Qed.

Lemma removeTrailingSlash_kept (a b : string) :
  b <> "" -> Js.forallb (fun c => negb (Ascii.eqb c "/")) b = true ->
  removeTrailingSlash (a ++ b) = a ++ b.
Proof.
  intros Hb Hs. unfold removeTrailingSlash.
  rewrite endsWithChar_append by exact Hb.
  rewrite (endsWithChar_none "/" b Hs). reflexivity.
Qed.

Lemma removeLast_start (s : string) :
  Js.startsWith s "/" = true ->
  Js.removeLast s = "" \/ Js.startsWith (Js.removeLast s) "/" = true.
Proof.
  destruct s as [|c [|d t]]; [discriminate | left; reflexivity |].
  intro H. right. rewrite startsWith_char in H.
  change (Js.removeLast (String c (String d t)))
    with (String c (Js.removeLast (String d t))).
  rewrite startsWith_char. exact H.
Qed.

Lemma pathname_facts (path : string) :
  path = "" \/ Js.startsWith path "/" = true ->
  (if String.eqb path "" then "/" else path) <> ""
  /\ Js.startsWith (if String.eqb path "" then "/" else path) "/" = true.
Proof.
  intros [->|H]; [split; [discriminate | reflexivity]|].
  destruct path; [discriminate|]. split; [discriminate | exact H].
Qed.

Lemma canonicalPath_start (path : string) (q : list (string * string)) :
  path = "" \/ Js.startsWith path "/" = true ->
  canonicalPath path q = "" \/ Js.startsWith (canonicalPath path q) "/" = true.
Proof.
  intro H. destruct (pathname_facts path H) as [_ Hs].
  unfold canonicalPath. cbv zeta.
  destruct q; [|right; exact Hs].
  unfold removeTrailingSlash.
  destruct (Js.endsWithChar _ "/"); [apply removeLast_start; exact Hs | right; exact Hs].
Qed.

Lemma canonicalPath_chars (path : string) (q : list (string * string)) :
  Js.forallb path_char path = true ->
  Js.forallb path_char (canonicalPath path q) = true.
Proof.
  intro H.
  assert (Hp : Js.forallb path_char (if String.eqb path "" then "/" else path) = true).
  { destruct (String.eqb path ""); [reflexivity | exact H]. }
  unfold canonicalPath. cbv zeta. destruct q; [|exact Hp].
  unfold removeTrailingSlash.
  destruct (Js.endsWithChar _ "/"); [apply forallb_removeLast|]; exact Hp.
Qed.


End PathFacts.

Section PlainCanonical.

Import PlainUrl UrlNormalizationService.

(** [normalizeUrl] on a plain address, under the conditions that the two
    parsers need. *)
Lemma normalizeUrl_plain (secure : bool) (host path : string)
      (pairs : list (string * string)) (fragment : option string) :
  canonicalHost host ->
  path = "" \/ Js.startsWith path "/" = true ->
  Js.forallb path_char path = true ->
  List.forallb plainPair pairs = true ->
  match fragment with
  | Some f => Js.forallb above_space f = true
  | None => True
  end ->
  normalizeUrl (render secure host path pairs fragment)
  = Returned (canonical host path pairs).
Proof.
  intros Hhost Hstart Hpath Hpairs Hfrag.
  destruct (canonicalHost_chars host Hhost) as [Hchars Hne].
  destruct Hhost as [Hparse _].
  unfold normalizeUrl.
  rewrite (plain_is_valid secure host path pairs fragment) by assumption.
  rewrite (construct_plain secure host path pairs fragment) by assumption.
  cbn [negb Completion.bind Completion.tryCatch]. cbv zeta.
  rewrite (toString_normalised secure host path pairs fragment) by assumption.
  f_equal. unfold canonical, render, canonicalPath. cbv zeta.
  destruct (pathname_facts path Hstart) as [Hpn _].
  change ("https" ++ "://" ++ stripWww host) with ("https://" ++ stripWww host).
  destruct (canonicalQuery pairs) as [|kv q] eqn:Eq.
  - cbn [renderQuery renderFragment]. rewrite !append_nil_r.
    rewrite <- (append_assoc "https://" (stripWww host)).
    rewrite removeTrailingSlash_append by exact Hpn.
    rewrite append_assoc. reflexivity.
  - cbn [renderFragment]. rewrite append_nil_r.
    pose proof (canonicalQuery_plain pairs Hpairs) as Hq. rewrite Eq in Hq.
    destruct (renderQuery_chars (kv :: q) Hq) as (_ & _ & Hslash).
    rewrite <- (append_assoc "https://" (stripWww host)).
    rewrite <- (append_assoc ("https://" ++ stripWww host)).
    rewrite removeTrailingSlash_kept; [|discriminate | exact Hslash].
    rewrite !append_assoc. reflexivity.
Qed.

End PlainCanonical.

Section IdempotenceClaims.

Import PlainUrl UrlNormalizationService.

Lemma stripWww_fixed (host : string) :
  Js.startsWith host "www." = false -> stripWww host = host.
Proof. intro H. unfold stripWww. rewrite H. reflexivity. Qed.


End IdempotenceClaims.

(* ================================================================== *)
(* ================================================================== *)
(** * Part III: further properties of the code *)

(* ================================================================== *)
(** * The orchestrator *)

Section OrchestratorOrder.

Import ExtractionService Pipeline.

Lemma tryExtractors_rawHtml (l : list IExtractor) (url : string)
      (force : option ForceMethod) (html1 html2 : option string)
      (lastError : option Exception) :
  tryExtractors l url (mkOptions force html1) lastError
  = tryExtractors l url (mkOptions force html2) lastError.
Proof.
  revert lastError. induction l as [|ex rest IH]; intro lastError; [reflexivity|].
  cbn [tryExtractors].
  change (forcedOut (mkOptions force html1) ex)
    with (forcedOut (mkOptions force html2) ex).
  destruct (negb (canExtract ex url)); [apply IH|].
  destruct (forcedOut (mkOptions force html2) ex); [apply IH|].
  destruct (Types.extract ex url) as [r|e]; [|apply IH].
  destruct (hasGoodData r); [reflexivity | apply IH].
Qed.

(** Two insertions commute when the priorities differ. *)
Lemma insertByPriority_comm (x y : IExtractor) (l : list IExtractor) :
  getPriority x <> getPriority y ->
  insertByPriority x (insertByPriority y l) = insertByPriority y (insertByPriority x l).
Proof.
  intro Hxy. induction l as [|a l IH]; cbn [insertByPriority].
  - destruct (Z.leb_spec (getPriority x) (getPriority y));
      destruct (Z.leb_spec (getPriority y) (getPriority x));
      try reflexivity; lia.
  - destruct (Z.leb_spec (getPriority y) (getPriority a)) as [Hya|Hya];
      destruct (Z.leb_spec (getPriority x) (getPriority a)) as [Hxa|Hxa];
      cbn [insertByPriority].
    + destruct (Z.leb_spec (getPriority x) (getPriority y));
        destruct (Z.leb_spec (getPriority y) (getPriority x)); try lia.
      * destruct (Z.leb_spec (getPriority y) (getPriority a)); [reflexivity | lia].
      * destruct (Z.leb_spec (getPriority x) (getPriority a)); [reflexivity | lia].
    + destruct (Z.leb_spec (getPriority x) (getPriority y)); [lia|].
      destruct (Z.leb_spec (getPriority x) (getPriority a)); [lia|].
      destruct (Z.leb_spec (getPriority y) (getPriority a)); [reflexivity | lia].
    + destruct (Z.leb_spec (getPriority y) (getPriority x)); [lia|].
      destruct (Z.leb_spec (getPriority y) (getPriority a)); [lia|].
      destruct (Z.leb_spec (getPriority x) (getPriority a)); [reflexivity | lia].
    + destruct (Z.leb_spec (getPriority x) (getPriority a)); [lia|].
      destruct (Z.leb_spec (getPriority y) (getPriority a)); [lia|].
      rewrite IH. reflexivity.
Qed.

Lemma sortExtractors_permutation (l l' : list IExtractor) :
  Permutation l l' ->
  NoDup (List.map getPriority l) ->
  sortExtractors l = sortExtractors l'.
Proof.
  induction 1 as [|x l l' Hperm IH|x y l|l l' l'' H1 IH1 H2 IH2]; intro Hnd.
  - reflexivity.
  - cbn [sortExtractors]. rewrite IH; [reflexivity|].
    cbn [List.map] in Hnd. inversion Hnd; assumption.
  - cbn [sortExtractors]. apply insertByPriority_comm.
    cbn [List.map] in Hnd. inversion Hnd as [|? ? Hin _]; subst.
    intro Heq. apply Hin. left. symmetry. exact Heq.
  - rewrite IH1 by exact Hnd. apply IH2.
    eapply Permutation_NoDup; [|exact Hnd].
    apply Permutation_map. exact H1.
Qed.

End OrchestratorOrder.

Section OrchestratorOutcome.

Import ExtractionService Pipeline.

Lemma verdict_accepted (options : ExtractionOptions) (url : string)
      (ex : IExtractor) (r : ExtractionResult) :
  verdict options url ex = Accepted r ->
  canExtract ex url = true /\ forcedOut options ex = false
  /\ Types.extract ex url = Returned r /\ hasGoodData r = true.
Proof.
  unfold verdict.
  destruct (canExtract ex url); cbn [negb]; [|discriminate].
  destruct (forcedOut options ex); [discriminate|].
  destruct (Types.extract ex url) as [r'|e]; [|discriminate].
  destruct (hasGoodData r') eqn:G; [|discriminate].
  intro H. injection H as <-. auto.
Qed.

Lemma hasGoodData_title (r : ExtractionResult) :
  hasGoodData r = true ->
  exists t, title r = Val t
            /\ (20 < String.length t)%nat
            /\ Js.includes (Js.toLowerCase t) "online shopping" = false
            /\ Js.includes (Js.toLowerCase t) "welcome to" = false
            /\ Js.includes (Js.toLowerCase t) "home page" = false.
Proof.
  unfold hasGoodData. destruct (title r) as [| |t]; try discriminate.
  intro H. repeat (apply andb_true_iff in H as [H ?]).
  exists t. repeat split.
  - apply Nat.ltb_lt. assumption.
  - apply negb_true_iff. assumption.
  - apply negb_true_iff. assumption.
  - apply negb_true_iff. assumption.
Qed.

Lemma extract_returned (extractors : list IExtractor) (url : string)
      (options : ExtractionOptions) (o : Outcome) :
  extract extractors url options = Returned o ->
  exists ex, In ex extractors /\ verdict options url ex = Accepted (result o)
             /\ method o = getExtractionMethod ex
             /\ confidence o = calculateConfidence (result o) (method o).
Proof.
  unfold extract, Completion.tryCatch.
  destruct (tryExtractors _ url options None) as [o'|e] eqn:E; [|discriminate].
  intro H. injection H as <-.
  destruct (tryExtractors_returned options url _ _ _ E) as (ex & Hin & Hrest).
  exists ex. split; [|exact Hrest].
  apply sortExtractors_In. exact Hin.
Qed.

Lemma bonus_one :
  (Qmin (inject_Z (Z.of_nat 1) * (5 # 100)) (1 # 10) == 5 # 100)%Q.
Proof. reflexivity. Qed.

Lemma bonus_many (n : nat) :
  (2 <= n)%nat ->
  (Qmin (inject_Z (Z.of_nat n) * (5 # 100)) (1 # 10) == 1 # 10)%Q.
Proof.
  intro H. apply Q.min_r. unfold Qle, Qmult, inject_Z. simpl. lia.
Qed.

End OrchestratorOutcome.

Section OrchestratorExtras.

Import ExtractionService Pipeline.

(** X1.  The outcome of [extract] does not depend on the order in which the
    strategies were registered, as long as their priorities are pairwise
    distinct. *)
Theorem extract_registration_order
        (extractors extractors' : list IExtractor) (url : string)
        (options : ExtractionOptions) :
  Permutation extractors extractors' ->
  NoDup (List.map getPriority extractors) ->
  extract extractors url options = extract extractors' url options.
Proof.
  intros Hperm Hnd. unfold extract.
  rewrite (sortExtractors_permutation extractors extractors' Hperm Hnd).
  reflexivity.
Qed.

Lemma extract_registration_order_witness :
  extract Scenario.offlineRegistry "https://example.com/x" noOptions
  = extract (List.rev Scenario.offlineRegistry) "https://example.com/x" noOptions.
Proof.
  apply extract_registration_order.
  - apply Permutation_rev.
  - repeat constructor; cbn; intuition discriminate.
Defined.

(** X2.  Whatever [extract] returns was produced by a registered strategy that
    accepts the URL, passed the quality gate, and is tagged with that
    strategy's method: the title has more than twenty characters and
    holds none of the three landing-page phrases. *)
Theorem extract_outcome_quality
        (extractors : list IExtractor) (url : string)
        (options : ExtractionOptions) (o : Outcome) :
  extract extractors url options = Returned o ->
  exists ex t,
    In ex extractors
    /\ canExtract ex url = true
    /\ Types.extract ex url = Returned (result o)
    /\ method o = getExtractionMethod ex
    /\ title (result o) = Val t
    /\ (20 < String.length t)%nat
    /\ Js.includes (Js.toLowerCase t) "online shopping" = false
    /\ Js.includes (Js.toLowerCase t) "welcome to" = false
    /\ Js.includes (Js.toLowerCase t) "home page" = false.
Proof.
  intro H.
  destruct (extract_returned _ _ _ _ H) as (ex & Hin & Hv & Hm & _).
  destruct (verdict_accepted _ _ _ _ Hv) as (Hcan & _ & Hex & Hgood).
  destruct (hasGoodData_title _ Hgood) as (t & Ht & Hlen & H1 & H2 & H3).
  exists ex, t. repeat split; assumption.
Qed.

Lemma extract_outcome_quality_witness :
  exists ex t,
    In ex Scenario.offlineRegistry
    /\ canExtract ex "https://example.com/x" = true
    /\ Types.extract ex "https://example.com/x"
       = Returned (FallbackExtractor.recordFor "example.com")
    /\ FALLBACK = getExtractionMethod ex
    /\ Val "Page from example.com" = Val t
    /\ (20 < String.length t)%nat
    /\ Js.includes (Js.toLowerCase t) "online shopping" = false
    /\ Js.includes (Js.toLowerCase t) "welcome to" = false
    /\ Js.includes (Js.toLowerCase t) "home page" = false.
Proof.
  apply (extract_outcome_quality Scenario.offlineRegistry "https://example.com/x" noOptions
           (mkOutcome (FallbackExtractor.recordFor "example.com") FALLBACK
              (calculateConfidence (FallbackExtractor.recordFor "example.com") FALLBACK))).
  vm_compute. reflexivity.
Defined.

End OrchestratorExtras.

Section ConfidenceInDoubles.

Import PrimFloat.
Import ExtractionService Pipeline.

#[local] Set Warnings "-inexact-float".

Lemma nonNull_bound {A} (f : Field A) : (nonNull f <= 1)%nat.
Proof. destruct f; simpl; lia. Qed.

(** A record has seventeen keys. *)
Lemma fieldsCount_bound (r : ExtractionResult) : (fieldsCount r <= 17)%nat.
Proof.
  unfold fieldsCount.
  pose proof (nonNull_bound (title r)). pose proof (nonNull_bound (image r)).
  pose proof (nonNull_bound (images r)). pose proof (nonNull_bound (price r)).
  pose proof (nonNull_bound (currency r)). pose proof (nonNull_bound (originalPrice r)).
  pose proof (nonNull_bound (discount r)). pose proof (nonNull_bound (siteName r)).
  pose proof (nonNull_bound (description r)). pose proof (nonNull_bound (category r)).
  pose proof (nonNull_bound (brand r)). pose proof (nonNull_bound (rating r)).
  pose proof (nonNull_bound (reviewCount r)). pose proof (nonNull_bound (availability r)).
  pose proof (nonNull_bound (features r)). pose proof (nonNull_bound (offers r)).
  pose proof (nonNull_bound (contentType r)). lia.
Qed.

(** From two keys on, the product with 0.05 is not below 0.1, so the bonus
    is 0.1. *)
Lemma double_bonus_many (n : nat) :
  (2 <= n <= 17)%nat ->
  Doubles.min (PrimFloat.mul (Doubles.ofNat n) 0.05%float) 0.1%float = 0.1%float.
Proof.
  intros [Hlo Hhi].
  do 18 (destruct n as [|n]; [try lia; reflexivity|]). lia.
Qed.

(** X3.  The confidence of an outcome, as the code computes it in double
    precision from the returned record and method, takes one of six
    values.  A returned record has at least one key that is not null, the
    title, and at most seventeen.  When the title is the only one, the
    bonus is 0.05 and the sums 0.8 + 0.05 and 0.9 + 0.05 are rounded up:
    the confidence is 0.8500000000000001 for HTTP and 0.9500000000000001
    for AI, not the numbers that the literals 0.85 and 0.95 stand for, and
    0.55 for the fallback.  From two keys on the bonus is 0.1 and the
    confidence is 0.9 for HTTP, 1 for AI and 0.6 for the fallback. *)
Theorem extract_confidence_values
        (extractors : list IExtractor) (url : string)
        (options : ExtractionOptions) (o : Outcome) :
  extract extractors url options = Returned o ->
  (1 <= fieldsCount (result o) <= 17)%nat
  /\ Doubles.calculateConfidence (result o) (method o)
     = match method o, (fieldsCount (result o) =? 1)%nat with
       | HTTP_EXTRACTION, true => 0.8500000000000001
       | HTTP_EXTRACTION, false => 0.9
       | FAST_AI, true => 0.9500000000000001
       | FAST_AI, false => 1
       | FALLBACK, true => 0.55
       | FALLBACK, false => 0.6
       end%float
  /\ PrimFloat.eqb 0.8500000000000001 0.85 = false
  /\ PrimFloat.eqb 0.9500000000000001 0.95 = false.
Proof.
  intro H.
  destruct (extract_returned _ _ _ _ H) as (ex & _ & Hv & _ & _).
  destruct (verdict_accepted _ _ _ _ Hv) as (_ & _ & _ & Hgood).
  destruct (hasGoodData_title _ Hgood) as (t & Ht & _).
  assert (Hn : (1 <= fieldsCount (result o))%nat).
  { unfold fieldsCount. rewrite Ht. cbn [nonNull]. lia. }
  pose proof (fieldsCount_bound (result o)) as Hb.
  split; [lia|]. split; [|split; reflexivity].
  unfold Doubles.calculateConfidence.
  destruct (Nat.eqb_spec (fieldsCount (result o)) 1) as [E|E].
  - rewrite E. destruct (method o); reflexivity.
  - rewrite double_bonus_many by lia. destruct (method o); reflexivity.
Qed.

Lemma extract_confidence_values_witness :
  let o := mkOutcome (FallbackExtractor.recordFor "example.com") FALLBACK
                     (calculateConfidence (FallbackExtractor.recordFor "example.com") FALLBACK) in
  (1 <= fieldsCount (result o) <= 17)%nat
  /\ Doubles.calculateConfidence (result o) (method o)
     = match method o, (fieldsCount (result o) =? 1)%nat with
       | HTTP_EXTRACTION, true => 0.8500000000000001
       | HTTP_EXTRACTION, false => 0.9
       | FAST_AI, true => 0.9500000000000001
       | FAST_AI, false => 1
       | FALLBACK, true => 0.55
       | FALLBACK, false => 0.6
       end%float
  /\ PrimFloat.eqb 0.8500000000000001 0.85 = false
  /\ PrimFloat.eqb 0.9500000000000001 0.95 = false.
Proof.
  apply (extract_confidence_values Scenario.offlineRegistry "https://example.com/x" noOptions).
  vm_compute. reflexivity.
Defined.

End ConfidenceInDoubles.


(* ================================================================== *)
(** * Request validation and the preview endpoint *)

Section ValidationFacts.

Import ConfigManager Validators.

Lemma fromErrors_valid (errors : list string) :
  isValid (fromErrors errors) = true <-> errors = [].
Proof.
  unfold fromErrors. cbn [isValid]. destruct errors; cbn; split; congruence.
Qed.

Lemma host_parse_not_empty (isOpaque : bool) (buffer host : string) :
  isOpaque = false ->
  WhatwgUrl.host_parse isOpaque buffer = Some host -> host <> "".
Proof.
  intros ->. unfold WhatwgUrl.host_parse.
  destruct (Js.startsWith buffer "[").
  - destruct (Js.endsWithChar buffer "]"); [|discriminate].
    destruct (WhatwgUrl.ipv6_parse _); [|discriminate].
    intro H. injection H as <-. discriminate.
  - unfold WhatwgUrl.domain_to_ascii.
    destruct (Js.existsb _ (WhatwgUrl.percent_decode buffer)); [discriminate|].
    destruct (List.existsb _ _); [discriminate|].
    destruct (String.eqb_spec (Js.toLowerCase (WhatwgUrl.percent_decode buffer)) "")
      as [E|E]; [discriminate|].
    destruct (Js.existsb _ _); [discriminate|].
    destruct (WhatwgUrl.ends_in_number _).
    + destruct (WhatwgUrl.ipv4_parse _) as [address|]; [|discriminate].
      cbn [option_map]. intro H. injection H as <-.
      unfold WhatwgUrl.ipv4_serialize.
      destruct (WhatwgUrl.decimal (address / 16777216 mod 256)); discriminate.
    + intro H. injection H as <-. exact E.
Qed.

Lemma parse_authority_facts (scheme : string) (special : bool) (s : string)
      (u : WhatwgUrl.URL) :
  WhatwgUrl.parse_authority scheme special s = Some u ->
  WhatwgUrl.protocol u = scheme ++ ":"
  /\ (special = true -> WhatwgUrl.hostname u <> "").
Proof.
  unfold WhatwgUrl.parse_authority.
  destruct (WhatwgUrl.after_last_at _) as [hostport seen].
  destruct (seen && String.eqb hostport ""); [discriminate|].
  destruct (WhatwgUrl.split_host_port hostport false) as [buffer [portBuffer|]].
  - destruct (String.eqb buffer ""); [discriminate|].
    destruct (WhatwgUrl.host_parse (negb special) buffer) as [host|] eqn:Eh; [|discriminate].
    destruct (WhatwgUrl.parse_port scheme portBuffer); [|discriminate].
    intro H. injection H as <-. cbn. split; [reflexivity|].
    intros ->. eapply host_parse_not_empty; [|exact Eh]. reflexivity.
  - destruct (special && String.eqb buffer ""); [discriminate|].
    destruct (WhatwgUrl.host_parse (negb special) buffer) as [host|] eqn:Eh; [|discriminate].
    intro H. injection H as <-. cbn. split; [reflexivity|].
    intros ->. eapply host_parse_not_empty; [|exact Eh]. reflexivity.
Qed.

Lemma parse_file_protocol (s : string) (u : WhatwgUrl.URL) :
  WhatwgUrl.parse_file s = Some u -> WhatwgUrl.protocol u = "file:".
Proof.
  unfold WhatwgUrl.parse_file.
  destruct s as [|c1 [|c2 rest]]; try (intro H; injection H as <-; reflexivity).
  destruct (WhatwgUrl.is_slash c1 && WhatwgUrl.is_slash c2);
    [|intro H; injection H as <-; reflexivity].
  destruct (WhatwgUrl.is_windows_drive_letter _); [intro H; injection H as <-; reflexivity|].
  destruct (String.eqb _ ""); [intro H; injection H as <-; reflexivity|].
  destruct (WhatwgUrl.host_parse false _); [|discriminate].
  intro H; injection H as <-; reflexivity.
Qed.

Lemma append_colon_inj (a b : string) : a ++ ":" = b ++ ":" -> a = b.
Proof.
  revert b. induction a as [|c a IH]; intros [|d b] H; cbn in H.
  - reflexivity.
  - injection H as _ H. destruct b; discriminate.
  - injection H as _ H. destruct a; discriminate.
  - injection H as -> H. f_equal. apply IH. exact H.
Qed.

(** A parsed URL whose protocol is [http:] or [https:] has a host name. *)
Lemma web_url_has_hostname (input : string) (u : WhatwgUrl.URL) :
  WhatwgUrl.parse input = Some u ->
  WhatwgUrl.protocol u = "http:" \/ WhatwgUrl.protocol u = "https:" ->
  WhatwgUrl.hostname u <> "".
Proof.
  unfold WhatwgUrl.parse.
  destruct (WhatwgUrl.parse_scheme _) as [[scheme rest]|]; [|discriminate].
  destruct (String.eqb scheme "file").
  { intros H [P|P]; rewrite (parse_file_protocol _ _ H) in P; discriminate. }
  destruct (WhatwgUrl.is_special scheme) eqn:Es.
  { intros H _. apply (parse_authority_facts _ _ _ _ H). reflexivity. }
  assert (Hweb : forall p, p = scheme ++ ":" -> p = "http:" \/ p = "https:" -> False).
  { intros p -> [P|P].
    - apply (append_colon_inj scheme "http") in P. subst. discriminate.
    - apply (append_colon_inj scheme "https") in P. subst. discriminate. }
  destruct (Js.startsWith rest "//").
  - intros H P. exfalso.
    apply (Hweb (WhatwgUrl.protocol u)); [|exact P].
    apply (parse_authority_facts _ _ _ _ H).
  - intros H P. injection H as <-. exfalso.
    apply (Hweb (scheme ++ ":")); [reflexivity | exact P].
Qed.

Lemma blockedErrors_nil (patterns : list string) (hostname : string) :
  blockedErrors patterns hostname = []
  <-> Forall (fun pattern => Js.includes hostname pattern = false) patterns.
Proof.
  unfold blockedErrors.
  destruct (List.existsb _ patterns) eqn:E.
  - split; [discriminate|]. intro H. exfalso.
    apply existsb_exists in E as (p & Hin & Hp).
    rewrite Forall_forall in H. rewrite (H p Hin) in Hp. discriminate.
  - split; [|reflexivity]. intros _. apply Forall_forall. intros p Hin.
    destruct (Js.includes hostname p) eqn:Ep; [|reflexivity].
    assert (List.existsb (fun pattern => Js.includes hostname pattern) patterns = true)
      by (apply existsb_exists; eauto).
    congruence.
Qed.

(** What [URLValidator.validate] accepts. *)
Lemma validateUrl_accepts (config : SecurityConfig) (url : option string) :
  isValid (validateUrl config url) = true ->
  exists s u,
    url = Some s
    /\ WhatwgUrl.parse s = Some u
    /\ (WhatwgUrl.protocol u = "http:" \/ WhatwgUrl.protocol u = "https:")
    /\ WhatwgUrl.hostname u <> ""
    /\ Forall (fun pattern =>
                 Js.includes (Js.toLowerCase (WhatwgUrl.hostname u)) pattern = false)
              (blockedPatterns config).
Proof.
  unfold validateUrl.
  destruct url as [[|c s]|]; try discriminate.
  destruct (String.length (Js.trim (String c s)) =? 0)%nat; [discriminate|].
  destruct (WhatwgUrl.parse (String c s)) as [u|] eqn:Ep; [|discriminate].
  intro H. apply fromErrors_valid in H.
  apply app_eq_nil in H as [H1 H2]. apply app_eq_nil in H2 as [H2 H3].
  assert (Hproto : WhatwgUrl.protocol u = "http:" \/ WhatwgUrl.protocol u = "https:").
  { destruct (String.eqb_spec (WhatwgUrl.protocol u) "http:"); [auto|].
    destruct (String.eqb_spec (WhatwgUrl.protocol u) "https:"); [auto|].
    discriminate. }
  exists (String c s), u. repeat split; try assumption.
  - exact (web_url_has_hostname _ _ Ep Hproto).
  - apply blockedErrors_nil. exact H3.
Qed.

End ValidationFacts.

Section ValidationExtras.

Import ConfigManager Validators.

Lemma validateUrl_invariant (config : SecurityConfig) (url : option string) :
  isValid (validateUrl config url) = true <-> errors (validateUrl config url) = [].
Proof.
  unfold validateUrl.
  destruct url as [[|c s]|]; try (cbn; split; discriminate).
  destruct (String.length (Js.trim (String c s)) =? 0)%nat;
    [cbn; split; discriminate|].
  destruct (WhatwgUrl.parse (String c s)); apply fromErrors_valid.
Qed.

Lemma validate_invariant (config : SecurityConfig) (request : option PreviewRequest) :
  isValid (validate config request) = true <-> errors (validate config request) = [].
Proof.
  unfold validate. destruct request; [apply fromErrors_valid | cbn; split; discriminate].
Qed.

(** X4.  The size limit on [raw_html]: a request with a [raw_html] string is
    valid exactly when its URL is valid and the string is not longer than
    [maxHtmlSize]. *)
Theorem raw_html_size_limit (config : SecurityConfig) (url : option string) (s : string) :
  isValid (validate config (Some (mkPreviewRequest url (RawHtmlString s))))
  = isValid (validateUrl config url)
    && (N.of_nat (String.length s) <=? maxHtmlSize config)%N.
Proof.
  unfold validate. cbn [Validators.url raw_html].
  rewrite N.leb_antisym.
  destruct (isValid (validateUrl config url)) eqn:Ev.
  - cbn [List.app andb]. destruct (maxHtmlSize config <? _)%N; reflexivity.
  - cbn [andb].
    destruct (errors (validateUrl config url)) as [|e l] eqn:Ee.
    + apply validateUrl_invariant in Ee. congruence.
    + reflexivity.
Qed.

(** X5.  The host-name check never fires on its own: when the validator
    reports a missing host name it also reports that the protocol is
    neither HTTP nor HTTPS. *)
Theorem hostname_error_never_alone (config : SecurityConfig) (url : option string) :
  In "URL must have a valid hostname" (errors (validateUrl config url)) ->
  In "URL must use HTTP or HTTPS protocol" (errors (validateUrl config url)).
Proof.
  unfold validateUrl.
  destruct url as [[|c s]|]; try (cbn; intuition discriminate).
  destruct (String.length (Js.trim (String c s)) =? 0)%nat;
    [cbn; intuition discriminate|].
  destruct (WhatwgUrl.parse (String c s)) as [u|] eqn:Ep;
    [|cbn; intuition discriminate].
  cbn [fromErrors errors].
  destruct (String.eqb (WhatwgUrl.protocol u) "http:"
            || String.eqb (WhatwgUrl.protocol u) "https:") eqn:Eproto.
  - assert (Hweb : WhatwgUrl.protocol u = "http:" \/ WhatwgUrl.protocol u = "https:").
    { apply orb_true_iff in Eproto as [E|E]; apply String.eqb_eq in E; auto. }
    pose proof (web_url_has_hostname _ _ Ep Hweb) as Hhost.
    destruct (String.eqb_spec (WhatwgUrl.hostname u) ""); [contradiction|].
    cbn [List.app]. unfold blockedErrors.
    destruct (List.existsb _ _); cbn; intuition discriminate.
  - intros _. left. reflexivity.
Qed.

Lemma hostname_error_never_alone_witness :
  In "URL must use HTTP or HTTPS protocol"
     (errors (validateUrl (createSecurityConfig None) (Some "mailto:someone"))).
Proof.
  apply hostname_error_never_alone. vm_compute. right. left. reflexivity.
Defined.

(** X6.  A request that passes validation has a URL that parses, with protocol
    [http:] or [https:], a host name that is not empty and includes none
    of the blocked patterns; the HTTP strategy accepts such a URL and the
    fallback strategy returns its record for it. *)
Theorem validated_request_facts (config : SecurityConfig) (request : PreviewRequest) :
  isValid (validate config (Some request)) = true ->
  exists s u,
    Validators.url request = Some s
    /\ WhatwgUrl.parse s = Some u
    /\ (WhatwgUrl.protocol u = "http:" \/ WhatwgUrl.protocol u = "https:")
    /\ WhatwgUrl.hostname u <> ""
    /\ Forall (fun pattern =>
                 Js.includes (Js.toLowerCase (WhatwgUrl.hostname u)) pattern = false)
              (blockedPatterns config)
    /\ HttpExtractor.canExtract s = true
    /\ FallbackExtractor.extract s
       = Returned (FallbackExtractor.recordFor (WhatwgUrl.hostname u)).
Proof.
  intro H. apply validate_invariant in H. unfold validate in H.
  cbn [fromErrors errors] in H. apply app_eq_nil in H as [H1 _].
  destruct (isValid (validateUrl config (Validators.url request))) eqn:Ev.
  - destruct (validateUrl_accepts _ _ Ev) as (s & u & Hs & Hp & Hproto & Hhost & Hblocked).
    exists s, u. repeat split; try assumption.
    + unfold HttpExtractor.canExtract. rewrite Hp.
      destruct Hproto as [-> | ->]; reflexivity.
    + unfold FallbackExtractor.extract. rewrite Hp. reflexivity.
  - apply validateUrl_invariant in H1. congruence.
Qed.

Lemma validated_request_facts_witness :
  exists s u,
    Some "https://shop.example.com/item" = Some s
    /\ WhatwgUrl.parse s = Some u
    /\ (WhatwgUrl.protocol u = "http:" \/ WhatwgUrl.protocol u = "https:")
    /\ WhatwgUrl.hostname u <> ""
    /\ Forall (fun pattern =>
                 Js.includes (Js.toLowerCase (WhatwgUrl.hostname u)) pattern = false)
              (blockedPatterns (createSecurityConfig None))
    /\ HttpExtractor.canExtract s = true
    /\ FallbackExtractor.extract s
       = Returned (FallbackExtractor.recordFor (WhatwgUrl.hostname u)).
Proof.
  apply (validated_request_facts (createSecurityConfig None)
           (mkPreviewRequest (Some "https://shop.example.com/item") RawHtmlAbsent)).
  vm_compute. reflexivity.
Defined.

End ValidationExtras.

Section EndpointExtras.

Import ConfigManager Validators ExtractionService Server PreviewEndpoint.

(** A forced method filters the strategies by class name. *)
Lemma tryExtractors_forced (l : list IExtractor) (url : string)
      (options : ExtractionOptions) (lastError : option Exception) :
  tryExtractors l url options lastError
  = tryExtractors (List.filter (fun ex => negb (forcedOut options ex)) l)
                  url noOptions lastError.
Proof.
  revert lastError. induction l as [|ex rest IH]; intro lastError; [reflexivity|].
  cbn [tryExtractors List.filter].
  destruct (forcedOut options ex) eqn:F; cbn [negb].
  - destruct (canExtract ex url); cbn [negb]; apply IH.
  - cbn [tryExtractors]. change (forcedOut noOptions ex) with false.
    destruct (negb (canExtract ex url)); [apply IH|].
    destruct (Types.extract ex url) as [r|e]; [|apply IH].
    destruct (hasGoodData r); [reflexivity | apply IH].
Qed.

(** X7.  Forcing a method is the same as running a service in which only the
    strategy of that method is registered: the other strategies are never
    tried, also when the forced one fails. *)
Theorem forceMethod_runs_one_strategy
        (httpClient : string -> Completion.t string)
        (extractFromHTML : string -> WhatwgUrl.URL -> ExtractionResult)
        (isConfigured : bool) (analyse : string -> Completion.t ExtractionResult)
        (url : string) (f : ForceMethod) (html : option string) :
  extract (Container.extractors httpClient extractFromHTML isConfigured analyse)
          url (mkOptions (Some f) html)
  = extract [ match f with
              | ForceHttp => HttpExtractor.instance httpClient extractFromHTML
              | ForceAi => AIExtractor.instance isConfigured analyse
              | ForceFallback => FallbackExtractor.instance
              end ]
            url noOptions.
Proof.
  unfold extract.
  rewrite tryExtractors_forced.
  destruct f; reflexivity.
Qed.

(** X8.  The [raw_html] of a request is checked for its size and then never
    read: a request that passes validation gets the response of the same
    request without [raw_html]. *)
Theorem postPreview_ignores_raw_html
        (config : SecurityConfig) (extractors : list IExtractor)
        (url : option string) (s : string) :
  isValid (validate config (Some (mkPreviewRequest url (RawHtmlString s)))) = true ->
  postPreview config extractors (Some (mkPreviewRequest url (RawHtmlString s)))
  = postPreview config extractors (Some (mkPreviewRequest url RawHtmlAbsent)).
Proof.
  intro H. unfold postPreview. rewrite H.
  rewrite raw_html_size_limit in H. apply andb_true_iff in H as [Hurl _].
  assert (Hv : isValid (validate config (Some (mkPreviewRequest url RawHtmlAbsent))) = true).
  { unfold validate. cbn [Validators.url raw_html]. rewrite Hurl. reflexivity. }
  rewrite Hv. cbn [negb].
  destruct url as [u|]; [|reflexivity].
  unfold extract.
  destruct s as [|c s]; [reflexivity|].
  rewrite (tryExtractors_rawHtml _ u None (Some (String c s)) None).
  reflexivity.
Qed.

Lemma postPreview_ignores_raw_html_witness :
  postPreview (createSecurityConfig None) Scenario.offlineRegistry
              (Some (mkPreviewRequest (Some "https://example.com/x")
                                      (RawHtmlString "<title>A very long product title</title>")))
  = postPreview (createSecurityConfig None) Scenario.offlineRegistry
                (Some (mkPreviewRequest (Some "https://example.com/x") RawHtmlAbsent)).
Proof.
  apply postPreview_ignores_raw_html. vm_compute. reflexivity.
Defined.

(** X9.  The endpoint answers with status 400 exactly when validation found an
    error, whatever the strategies are; the message is the list of errors
    joined by a comma and a space. *)
Theorem handle_bad_request
        (config : SecurityConfig) (extractors : list IExtractor)
        (now : Z) (isoNow : string) (body : option PreviewRequest) (message : string) :
  handle config extractors now isoNow body = ErrorReply 400 message
  <-> errors (validate config body) <> []
      /\ message = String.concat ", " (errors (validate config body)).
Proof.
  unfold handle, postPreview.
  destruct (isValid (validate config body)) eqn:Ev; cbn [negb].
  - assert (He : errors (validate config body) = []) by (apply validate_invariant; exact Ev).
    split.
    + intro H. exfalso.
      destruct body as [[[u|] raw]|]; try discriminate.
      destruct (extract extractors u _); discriminate.
    + intros [Hne _]. contradiction.
  - split.
    + intro H. injection H as <-. split; [|reflexivity].
      intro He. apply validate_invariant in He. congruence.
    + intros [_ ->]. reflexivity.
Qed.

Lemma handle_bad_request_witness :
  handle (createSecurityConfig None) [] 0 "1970-01-01T00:00:00.000Z"
         (Some (mkPreviewRequest (Some "ftp://localhost/x") RawHtmlAbsent))
  = ErrorReply 400 "URL must use HTTP or HTTPS protocol, Access to private/loopback IP addresses is not allowed".
Proof.
  apply (proj2 (handle_bad_request (createSecurityConfig None) [] 0
                  "1970-01-01T00:00:00.000Z"
                  (Some (mkPreviewRequest (Some "ftp://localhost/x") RawHtmlAbsent))
                  "URL must use HTTP or HTTPS protocol, Access to private/loopback IP addresses is not allowed")).
  split; [vm_compute; discriminate | vm_compute; reflexivity].
Defined.

(** X10.  A preview reply always carries a title: the [title] of its data is
    not null, has more than twenty characters, and the data's [sourceUrl]
    is the URL of the request, which passed validation. *)
Theorem handle_preview_reply
        (config : SecurityConfig) (extractors : list IExtractor)
        (now : Z) (isoNow : string) (body : option PreviewRequest)
        (data : ProductData) (meta : ExtractionMetadata) :
  handle config extractors now isoNow body = PreviewReply data meta ->
  exists request s t,
    body = Some request
    /\ Validators.url request = Some s
    /\ isValid (validate config body) = true
    /\ sourceUrl data = s
    /\ PreviewEndpoint.url meta = s
    /\ PreviewEndpoint.title data = Some t
    /\ (20 < String.length t)%nat
    /\ aiUsed meta = isFastAI (extractionMethod meta).
Proof.
  unfold handle, postPreview.
  destruct (isValid (validate config body)) eqn:Ev; cbn [negb]; [|discriminate].
  destruct body as [[[s|] raw]|]; try discriminate.
  destruct (extract extractors s _) as [o|e] eqn:E; [|discriminate].
  intro H. injection H as <- <-.
  destruct (extract_outcome_quality _ _ _ _ E) as (_ & t & _ & _ & _ & _ & Ht & Hlen & _).
  exists (mkPreviewRequest (Some s) raw), s, t.
  repeat split; try reflexivity.
  - cbn. rewrite Ht. unfold orNull. destruct t; [cbn in Hlen; lia | reflexivity].
  - exact Hlen.
Qed.

Lemma handle_preview_reply_witness :
  exists request s t,
    Some (mkPreviewRequest (Some "https://example.com/x") RawHtmlAbsent) = Some request
    /\ Validators.url request = Some s
    /\ isValid (validate (createSecurityConfig None)
                  (Some (mkPreviewRequest (Some "https://example.com/x") RawHtmlAbsent)))
       = true
    /\ "https://example.com/x" = s
    /\ "https://example.com/x" = s
    /\ Some "Page from example.com" = Some t
    /\ (20 < String.length t)%nat
    /\ false = isFastAI FALLBACK.
Proof.
  apply (handle_preview_reply (createSecurityConfig None) Scenario.offlineRegistry
           0%Z "2024-02-01T00:00:00.000Z"
           (Some (mkPreviewRequest (Some "https://example.com/x") RawHtmlAbsent))
           (productData (FallbackExtractor.recordFor "example.com") "https://example.com/x")
           (metadata (mkOutcome (FallbackExtractor.recordFor "example.com") FALLBACK
                        (calculateConfidence (FallbackExtractor.recordFor "example.com")
                                             FALLBACK))
                     "https://example.com/x" 0%Z "2024-02-01T00:00:00.000Z")).
  vm_compute. reflexivity.
Defined.

End EndpointExtras.

(* ================================================================== *)
(** * Sanitising and comparing addresses *)

Section TrimFacts.

Import PlainUrl Wording.

Lemma span_parts (p : ascii -> bool) (s : string) :
  s = fst (Js.span p s) ++ snd (Js.span p s).
Proof.
  induction s as [|c s IH]; [reflexivity|].
  cbn [Js.span]. destruct (p c); [|reflexivity].
  destruct (Js.span p s) as [a b]. cbn [fst snd] in *. cbn. rewrite <- IH. reflexivity.
Qed.

Lemma dropWhile_is_stopped (p : ascii -> bool) (s : string) :
  stops p (Js.dropWhile p s).
Proof.
  unfold Js.dropWhile. induction s as [|c s IH]; [exact I|].
  cbn [Js.span]. destruct (p c) eqn:E; [|exact E].
  destruct (Js.span p s) as [a b]. exact IH.
Qed.

Lemma rev_acc_append (s acc : string) : Js.rev_acc s acc = Js.rev s ++ acc.
Proof.
  unfold Js.rev. revert acc. induction s as [|c s IH]; intro acc; [reflexivity|].
  cbn [Js.rev_acc]. rewrite IH, (IH (String c "")), append_assoc. reflexivity.
Qed.

Lemma rev_cons (c : ascii) (s : string) : Js.rev (String c s) = Js.rev s ++ String c "".
Proof. unfold Js.rev at 1. cbn [Js.rev_acc]. apply rev_acc_append. Qed.

Lemma rev_append (a b : string) : Js.rev (a ++ b) = Js.rev b ++ Js.rev a.
Proof.
  induction a as [|c a IH]; [cbn; rewrite append_nil_r; reflexivity|].
  cbn [append]. rewrite !rev_cons, IH, append_assoc. reflexivity.
Qed.

(** What [dropWhileEnd] removes is a suffix. *)
Lemma dropWhileEnd_prefix (p : ascii -> bool) (s : string) :
  exists w, s = Js.dropWhileEnd p s ++ w.
Proof.
  unfold Js.dropWhileEnd, Js.dropWhile.
  exists (Js.rev (fst (Js.span p (Js.rev s)))).
  rewrite <- rev_append, <- span_parts, rev_involutive. reflexivity.
Qed.

Lemma stops_prefix (p : ascii -> bool) (a w : string) :
  stops p (a ++ w) -> stops p a.
Proof. destruct a; [intros; exact I | exact (fun H => H)]. Qed.

Lemma trim_trimmed (s : string) : trimmed (Js.trim s).
Proof.
  unfold trimmed, Js.trim. split.
  - destruct (dropWhileEnd_prefix Js.is_js_space (Js.dropWhile Js.is_js_space s)) as [w Hw].
    apply (stops_prefix _ _ w). rewrite <- Hw. apply dropWhile_is_stopped.
  - unfold Js.dropWhileEnd. rewrite rev_involutive. apply dropWhile_is_stopped.
Qed.

Lemma trimmed_trim (s : string) : trimmed s -> Js.trim s = s.
Proof.
  intros [H1 H2]. unfold Js.trim, Js.dropWhileEnd.
  rewrite (dropWhile_stops _ s H1), (dropWhile_stops _ _ H2). apply rev_involutive.
Qed.

Lemma rev_empty (s : string) : Js.rev s = "" -> s = "".
Proof.
  intro H. rewrite <- (rev_involutive s), H. reflexivity.
Qed.

Lemma trimmed_https (s : string) : trimmed s -> trimmed ("https://" ++ s).
Proof.
  intros [_ H2]. split; [reflexivity|].
  rewrite rev_append. destruct (Js.rev s) as [|c r] eqn:E; [reflexivity|].
  exact H2.
Qed.

End TrimFacts.

Section SanitisingExtras.

Import UrlNormalizationService Wording.

(** X11.  [sanitizeUrl] is idempotent: a sanitised string has no white space
    at either end and starts with [http://] or [https://], so sanitising
    it again changes nothing. *)
Theorem sanitizeUrl_idempotent (url : string) :
  sanitizeUrl (sanitizeUrl url) = sanitizeUrl url.
Proof.
  assert (Ht : trimmed (sanitizeUrl url)).
  { unfold sanitizeUrl. cbv zeta.
    destruct (negb (hasHttpPrefix (Js.trim url)));
      [apply trimmed_https|]; apply trim_trimmed. }
  pose proof (sanitizeUrl_prefix url) as Hp.
  unfold sanitizeUrl at 1. cbv zeta.
  rewrite (trimmed_trim _ Ht), Hp. reflexivity.
Qed.

(** X12.  [areUrlsEqual] is symmetric and transitive; an address is equal to
    itself exactly when [normalizeUrl] accepts it, and an address that
    [normalizeUrl] rejects is equal to no address. *)
Theorem areUrlsEqual_partial_equivalence :
  (forall a b, areUrlsEqual a b = areUrlsEqual b a)
  /\ (forall a b c, areUrlsEqual a b = true -> areUrlsEqual b c = true ->
                    areUrlsEqual a c = true)
  /\ (forall a, areUrlsEqual a a = true <-> exists n, normalizeUrl a = Returned n)
  /\ (forall a b e, normalizeUrl a = Thrown e -> areUrlsEqual a b = false).
Proof.
  unfold areUrlsEqual. repeat split.
  - intros a b. destruct (normalizeUrl a), (normalizeUrl b); try reflexivity.
    apply String.eqb_sym.
  - intros a b c.
    destruct (normalizeUrl a), (normalizeUrl b), (normalizeUrl c); try discriminate.
    intros H1 H2. apply String.eqb_eq in H1, H2. subst. apply String.eqb_refl.
  - destruct (normalizeUrl a); [eauto | discriminate].
  - intros [n ->]. apply String.eqb_refl.
  - intros a b e ->. reflexivity.
Qed.

Lemma areUrlsEqual_partial_equivalence_witness :
  areUrlsEqual "http://WWW.Shop.com/item/?utm_source=mail" "https://shop.com/item#top"
  = true.
Proof.
  apply (proj1 (proj2 areUrlsEqual_partial_equivalence)
               "http://WWW.Shop.com/item/?utm_source=mail"
               "https://www.shop.com/item/?utm_medium=post"
               "https://shop.com/item#top");
    vm_compute; reflexivity.
Defined.

End SanitisingExtras.

Section CanonicalQueryFacts.

Import PlainUrl Querystringify UrlNormalizationService Wording.

Lemma firstOccurrence_cons (k0 v0 k v : string) (rest : list (string * string)) :
  firstOccurrence ((k0, v0) :: rest) k v
  <-> (k0, v0) = (k, v) \/ (k0 <> k /\ firstOccurrence rest k v).
Proof.
  unfold firstOccurrence. split.
  - intros (before & after & E & Hn). destruct before as [|[k1 v1] before].
    + cbn in E. injection E as -> -> _. left. reflexivity.
    + cbn in E. injection E as <- <- E. right. split.
      * intro Hk. apply Hn. left. exact Hk.
      * exists before, after. split; [exact E|]. intro Hin. apply Hn. right. exact Hin.
  - intros [E | [Hk (before & after & E & Hn)]].
    + injection E as -> ->. exists [], rest. split; [reflexivity | intros []].
    + exists ((k0, v0) :: before), after. split; [cbn; rewrite E; reflexivity|].
      intros [H|H]; [exact (Hk H) | exact (Hn H)].
Qed.

Lemma has_app (o : QueryObject) (k0 v0 k : string) :
  has (o ++ [(k0, v0)])%list k = has o k || String.eqb k0 k.
Proof.
  unfold has. rewrite existsb_app. cbn. rewrite orb_false_r. reflexivity.
Qed.

Lemma has_In (o : QueryObject) (k v : string) : In (k, v) o -> has o k = true.
Proof.
  intro H. unfold has. apply existsb_exists. exists (k, v). split; [exact H|].
  apply String.eqb_refl.
Qed.

(** What the query parser keeps: the first parameter of every key that
    is not a property name of [Object.prototype]. *)
Lemma collect_In (pairs : list (string * string)) :
  forall (result : QueryObject) (k v : string),
    In (k, v) (collect pairs result)
    <-> In (k, v) result
        \/ (key_in result k = false /\ firstOccurrence pairs k v).
Proof.
  induction pairs as [|[k0 v0] rest IH]; intros result k v.
  - cbn [collect]. split; [auto|].
    intros [H | [_ (before & after & E & _)]]; [exact H|].
    destruct before; discriminate.
  - cbn [collect]. rewrite firstOccurrence_cons.
    destruct (key_in result k0) eqn:E0.
    + rewrite IH. split.
      * intros [H | [Hk Hf]]; [auto|]. right. split; [exact Hk|]. right.
        split; [|exact Hf]. intros ->. congruence.
      * intros [H | [Hk [E | [_ Hf]]]]; [auto | | auto].
        injection E as -> _. congruence.
    + rewrite IH. unfold key_in in *. rewrite has_app.
      apply orb_false_iff in E0 as [Eh Ep]. split.
      * intros [H | [Hk Hf]].
        -- apply in_app_or in H as [H | [H | []]]; [auto|].
           injection H as <- <-. right. rewrite Eh, Ep. auto.
        -- apply orb_false_iff in Hk as [Hk Hp].
           apply orb_false_iff in Hk as [Hk Hne].
           right. rewrite Hk, Hp. split; [reflexivity|]. right.
           split; [apply String.eqb_neq; exact Hne | exact Hf].
      * intros [H | [Hk [E | [Hne Hf]]]].
        -- left. apply in_or_app. auto.
        -- left. apply in_or_app. right. left. exact E.
        -- right. apply orb_false_iff in Hk as [Hk Hp].
           apply String.eqb_neq in Hne. rewrite Hk, Hne, Hp. auto.
Qed.

Lemma existsb_eqb_In (k : string) (keys : list string) :
  List.existsb (String.eqb k) keys = true <-> In k keys.
Proof.
  rewrite existsb_exists. split.
  - intros (x & Hin & E). apply String.eqb_eq in E. subst. exact Hin.
  - intro H. exists k. split; [exact H | apply String.eqb_refl].
Qed.

Lemma canonicalQuery_In (pairs : list (string * string)) (k v : string) :
  In (k, v) (canonicalQuery pairs)
  <-> firstOccurrence pairs k v
      /\ ~ In k UTM_PARAMS
      /\ ~ In k objectPrototypeKeys.
Proof.
  unfold canonicalQuery, dropUtm. rewrite delete_as_filter, filter_In, collect_In.
  cbn [fst]. unfold key_in. cbn [has List.existsb orb].
  rewrite negb_true_iff.
  rewrite <- (existsb_eqb_In k UTM_PARAMS), <- (existsb_eqb_In k objectPrototypeKeys).
  cbn [In].
  destruct (List.existsb (String.eqb k) UTM_PARAMS),
           (List.existsb (String.eqb k) objectPrototypeKeys);
    intuition congruence.
Qed.

Lemma canonicalQuery_NoDup (pairs : list (string * string)) :
  NoDup (List.map fst (canonicalQuery pairs)).
Proof.
  apply (dropUtm_goodKeys (collect pairs [])).
  apply collect_goodKeys. split; constructor.
Qed.

Lemma has_filter (f : string -> bool) (o : QueryObject) (k : string) :
  f k = true -> has (List.filter (fun kv => f (fst kv)) o) k = has o k.
Proof.
  intro Hk. unfold has. induction o as [|[k1 v1] o IH]; [reflexivity|].
  cbn [List.filter fst]. destruct (f k1) eqn:E1; cbn [List.existsb fst].
  - rewrite IH. reflexivity.
  - rewrite IH. destruct (String.eqb_spec k1 k) as [->|]; [congruence | reflexivity].
Qed.

(** Filtering by key commutes with the parser's choice of parameters. *)
Lemma filter_collect (f : string -> bool) (pairs : list (string * string)) :
  forall result : QueryObject,
    List.filter (fun kv => f (fst kv)) (collect pairs result)
    = collect (List.filter (fun kv => f (fst kv)) pairs)
              (List.filter (fun kv => f (fst kv)) result).
Proof.
  induction pairs as [|[k v] rest IH]; intro result; [reflexivity|].
  cbn [collect List.filter fst]. destruct (f k) eqn:Ek.
  - cbn [collect]. unfold key_in. rewrite (has_filter f result k Ek).
    destruct (has result k || List.existsb (String.eqb k) objectPrototypeKeys).
    + apply IH.
    + rewrite IH, filter_app. cbn [List.filter fst]. rewrite Ek. reflexivity.
  - destruct (key_in result k).
    + apply IH.
    + rewrite IH, filter_app. cbn [List.filter fst]. rewrite Ek, app_nil_r. reflexivity.
Qed.

Lemma canonicalQuery_withoutTracking (pairs : list (string * string)) :
  canonicalQuery pairs = collect (withoutTracking pairs) [].
Proof.
  unfold canonicalQuery, dropUtm, withoutTracking. rewrite delete_as_filter.
  apply (filter_collect (fun k => negb (List.existsb (String.eqb k) UTM_PARAMS)) pairs []).
Qed.

End CanonicalQueryFacts.

Section PlainAddressExtras.

Import PlainUrl Querystringify UrlNormalizationService Wording.

(** X13.  On a plain address, the canonical URL keeps exactly the first
    parameter of every key that is neither a UTM key nor a property name
    of [Object.prototype]; no key occurs twice in it, and it has no
    fragment. *)
Theorem normalizeUrl_query_parameters
        (secure : bool) (host path : string)
        (pairs : list (string * string)) (fragment : option string) :
  wellFormed host path pairs fragment ->
  exists query,
    normalizeUrl (render secure host path pairs fragment)
    = Returned (render true (stripWww host) (canonicalPath path query) query None)
    /\ NoDup (List.map fst query)
    /\ forall k v,
         In (k, v) query
         <-> firstOccurrence pairs k v
             /\ ~ In k UTM_PARAMS
             /\ ~ In k objectPrototypeKeys.
Proof.
  intro H. exists (canonicalQuery pairs). split; [|split].
  - destruct H as (Hhost & _ & _ & Hstart & Hpath & _ & Hpairs & Hfrag).
    apply normalizeUrl_plain; assumption.
  - apply canonicalQuery_NoDup.
  - apply canonicalQuery_In.
Qed.

Lemma normalizeUrl_query_parameters_witness :
  exists query,
    normalizeUrl "http://www.shop.com/item?ref=1&utm_source=mail&ref=2&toString=x#top"
    = Returned (render true "shop.com" (canonicalPath "/item" query) query None)
    /\ NoDup (List.map fst query)
    /\ forall k v,
         In (k, v) query
         <-> firstOccurrence
               [("ref", "1"); ("utm_source", "mail"); ("ref", "2"); ("toString", "x")] k v
             /\ ~ In k UTM_PARAMS
             /\ ~ In k objectPrototypeKeys.
Proof.
  apply (normalizeUrl_query_parameters false "www.shop.com" "/item"
           [("ref", "1"); ("utm_source", "mail"); ("ref", "2"); ("toString", "x")]
           (Some "top")).
  unfold wellFormed, canonicalHost.
  repeat split; try (vm_compute; reflexivity).
  right. vm_compute. reflexivity.
Defined.

(** X14.  Scheme, one leading [www.], fragment and UTM parameters do not tell
    plain addresses apart: two plain addresses with the same path whose
    hosts agree up to a leading [www.] and whose parameters agree once the
    UTM parameters are left out are equal for [areUrlsEqual]. *)
Theorem areUrlsEqual_ignores_tracking
        (secure secure' : bool) (host host' path : string)
        (pairs pairs' : list (string * string)) (fragment fragment' : option string) :
  wellFormed host path pairs fragment ->
  wellFormed host' path pairs' fragment' ->
  stripWww host = stripWww host' ->
  withoutTracking pairs = withoutTracking pairs' ->
  areUrlsEqual (render secure host path pairs fragment)
               (render secure' host' path pairs' fragment') = true.
Proof.
  intros H H' Hhost Hpairs.
  destruct H as (Hh & _ & _ & Hstart & Hpath & _ & Hp & Hf).
  destruct H' as (Hh' & _ & _ & _ & _ & _ & Hp' & Hf').
  unfold areUrlsEqual.
  rewrite (normalizeUrl_plain secure host path pairs fragment) by assumption.
  rewrite (normalizeUrl_plain secure' host' path pairs' fragment') by assumption.
  unfold canonical.
  rewrite Hhost, !canonicalQuery_withoutTracking, Hpairs.
  apply String.eqb_refl.
Qed.

Lemma areUrlsEqual_ignores_tracking_witness :
  areUrlsEqual "http://www.shop.com/item?utm_source=mail&ref=1#top"
               "https://shop.com/item?ref=1&utm_campaign=spring" = true.
Proof.
  apply (areUrlsEqual_ignores_tracking false true "www.shop.com" "shop.com" "/item"
           [("utm_source", "mail"); ("ref", "1")]
           [("ref", "1"); ("utm_campaign", "spring")] (Some "top") None).
  - unfold wellFormed, canonicalHost.
    repeat split; try (vm_compute; reflexivity).
    right. vm_compute. reflexivity.
  - unfold wellFormed, canonicalHost.
    repeat split; try (vm_compute; reflexivity).
    right. vm_compute. reflexivity.
  - reflexivity.
  - reflexivity.
Defined.

End PlainAddressExtras.

Section ValidationExact.

Import PlainUrl ConfigManager Validators Wording.

Lemma span_all_first (p : ascii -> bool) (s : string) :
  snd (Js.span p s) = "" -> Js.forallb p s = true.
Proof.
  induction s as [|c s IH]; [reflexivity|].
  cbn [Js.span Js.forallb]. destruct (p c); [|discriminate].
  destruct (Js.span p s) as [a b]. cbn [snd] in *. exact IH.
Qed.

Lemma dropWhile_all (p : ascii -> bool) (s : string) :
  Js.forallb p s = true -> Js.dropWhile p s = "".
Proof. intro H. unfold Js.dropWhile. rewrite (span_all p s H). reflexivity. Qed.

(** A string that the URL parser accepts is not blank. *)
Lemma parsed_not_blank (s : string) (u : WhatwgUrl.URL) :
  WhatwgUrl.parse s = Some u -> s <> "" /\ (String.length (Js.trim s) =? 0)%nat = false.
Proof.
  intro H. split; [intros ->; discriminate|].
  destruct (String.length (Js.trim s) =? 0)%nat eqn:E; [|reflexivity]. exfalso.
  apply Nat.eqb_eq in E.
  assert (Et : Js.trim s = "") by (destruct (Js.trim s); [reflexivity | discriminate]).
  assert (Ed : Js.dropWhile Js.is_js_space s = "").
  { unfold Js.trim in Et.
    destruct (dropWhileEnd_prefix Js.is_js_space (Js.dropWhile Js.is_js_space s)) as [w Hw].
    rewrite Et in Hw. cbn in Hw.
    pose proof (dropWhile_is_stopped Js.is_js_space s) as Hs.
    destruct (Js.dropWhile Js.is_js_space s) as [|c r] eqn:Er; [reflexivity|].
    exfalso. cbn in Hs.
    assert (Hrev : Js.dropWhile Js.is_js_space (Js.rev (String c r)) = "").
    { unfold Js.dropWhileEnd in Et. apply rev_empty in Et. exact Et. }
    unfold Js.dropWhile in Hrev. apply span_all_first in Hrev.
    rewrite rev_cons, forallb_append in Hrev.
    apply andb_true_iff in Hrev as [_ Hc]. cbn in Hc. rewrite Hs in Hc. discriminate. }
  assert (Hall : Js.forallb WhatwgUrl.is_c0_or_space s = true).
  { unfold Js.dropWhile in Ed. apply span_all_first in Ed.
    eapply forallb_impl; [|exact Ed].
    clear. intro c. each_ascii c; vm_compute; intro; try discriminate; reflexivity. }
  unfold WhatwgUrl.parse, WhatwgUrl.preprocess in H.
  rewrite (dropWhile_all _ s Hall) in H. discriminate.
Qed.

(** X15.  [URLValidator.validate] accepts exactly the strings that the URL
    parser accepts with the protocol [http:] or [https:] and a host name
    whose lower-case form includes no blocked pattern.  The checks for an
    empty string, for a blank string and for a missing host name add
    nothing to that. *)
Theorem validateUrl_accepts_exactly (config : SecurityConfig) (s : string) :
  isValid (validateUrl config (Some s)) = true
  <-> exists u,
        WhatwgUrl.parse s = Some u
        /\ (WhatwgUrl.protocol u = "http:" \/ WhatwgUrl.protocol u = "https:")
        /\ Forall (fun pattern =>
                     Js.includes (Js.toLowerCase (WhatwgUrl.hostname u)) pattern = false)
                  (blockedPatterns config).
Proof.
  split.
  - intro H. destruct (validateUrl_accepts _ _ H) as (s' & u & E & Hp & Hproto & _ & Hb).
    injection E as <-. exists u. auto.
  - intros (u & Hp & Hproto & Hb).
    destruct (parsed_not_blank s u Hp) as [Hne Htrim].
    pose proof (web_url_has_hostname s u Hp Hproto) as Hhost.
    unfold validateUrl. destruct s as [|c s]; [contradiction|].
    rewrite Htrim, Hp.
    apply fromErrors_valid.
    replace (String.eqb (WhatwgUrl.protocol u) "http:"
             || String.eqb (WhatwgUrl.protocol u) "https:") with true
      by (destruct Hproto as [-> | ->]; reflexivity).
    apply String.eqb_neq in Hhost. rewrite Hhost. cbn [List.app].
    apply blockedErrors_nil. exact Hb.
Qed.

Lemma validateUrl_accepts_exactly_witness :
  isValid (validateUrl (createSecurityConfig None) (Some "https://shop.example.com/item"))
  = true.
Proof.
  apply (proj2 (validateUrl_accepts_exactly (createSecurityConfig None)
                  "https://shop.example.com/item")).
  exists (WhatwgUrl.mkURL "https:" "shop.example.com" "").
  split; [vm_compute; reflexivity|]. split; [right; reflexivity|].
  repeat constructor.
Defined.

End ValidationExact.

(* ================================================================== *)
(** * The wishlist database *)

Section DatabaseFacts.

Import DatabaseService.

Lemma filter_length_all {A} (p : A -> bool) (l : list A) :
  (List.length (List.filter p l) =? List.length l)%nat = List.forallb p l.
Proof.
  assert (Hle : forall l', (List.length (List.filter p l') <= List.length l')%nat)
    by (intro l'; apply filter_length_le).
  induction l as [|x l IH]; [reflexivity|].
  cbn [List.filter List.forallb]. destruct (p x); cbn [andb List.length].
  - exact IH.
  - apply Nat.eqb_neq. specialize (Hle l). lia.
Qed.

Lemma filter_all_true {A} (p : A -> bool) (l : list A) :
  List.forallb p l = true -> List.filter p l = l.
Proof.
  induction l as [|x l IH]; [reflexivity|].
  cbn. intro H. apply andb_true_iff in H as [H1 H2]. rewrite H1, (IH H2). reflexivity.
Qed.

(** [updateFirst] finds nothing exactly when no entry has the identifier;
    otherwise it replaces the first entry that has it. *)
Lemma updateFirst_spec (itemId : string) (updates : Updates) (now : string)
      (items : list WishlistItem) :
  match updateFirst itemId updates now items with
  | None => Forall (fun item => id item <> itemId) items
  | Some (merged, items') =>
      exists before old after,
        items = (before ++ old :: after)%list
        /\ Forall (fun item => id item <> itemId) before
        /\ id old = itemId
        /\ merged = merge old updates now
        /\ items' = (before ++ merged :: after)%list
  end.
Proof.
  induction items as [|item rest IH]; [constructor|].
  cbn [updateFirst]. destruct (String.eqb_spec (id item) itemId) as [E|E].
  - exists [], item, rest. repeat split; [constructor | exact E].
  - destruct (updateFirst itemId updates now rest) as [[merged rest']|].
    + destruct IH as (before & old & after & -> & Hb & Ho & Hm & ->).
      exists (item :: before), old, after. repeat split; try assumption.
      constructor; assumption.
    + constructor; assumption.
Qed.

End DatabaseFacts.

Section DatabaseExtras.

Import DatabaseService.

(** X16.  Adding and looking up.  When no stored entry has the item's
    canonical URL, [addItem] appends one entry, built from the item, the
    fresh identifier and the clock; afterwards [itemExists] finds the
    URL, every URL found before is still found, and adding an item with
    the same canonical URL again is refused and changes nothing. *)
Theorem addItem_then_itemExists
        (newId now : string) (item : NewItem) (st : Storage) :
  itemExists (n_normalizedUrl item) st = false ->
  exists newItem st',
    addItem newId now item st = (Returned newItem, st')
    /\ newItem = mkItem newId (n_title item) (n_imageUrl item) (n_price item)
                        (n_sourceDomain item) (n_originalUrl item)
                        (Some (n_normalizedUrl item)) now now
    /\ getAllItems st' = (getAllItems st ++ [newItem])%list
    /\ schemaVersion st' = schemaVersion st
    /\ itemExists (n_normalizedUrl item) st' = true
    /\ (forall url, itemExists url st = true -> itemExists url st' = true)
    /\ (forall newId' now' item',
           n_normalizedUrl item' = n_normalizedUrl item ->
           addItem newId' now' item' st'
           = (Thrown (ErrorObject "Item already exists in wishlist"), st')).
Proof.
  intro H. unfold itemExists in H. unfold addItem. cbv zeta. rewrite H.
  eexists. eexists. split; [reflexivity|]. split; [reflexivity|].
  assert (Hnew : List.existsb
                   (fun existing => option_eqb (normalizedUrl existing)
                                               (Some (n_normalizedUrl item)))
                   (getAllItems st
                    ++ [mkItem newId (n_title item) (n_imageUrl item) (n_price item)
                               (n_sourceDomain item) (n_originalUrl item)
                               (Some (n_normalizedUrl item)) now now]) = true).
  { rewrite existsb_app. cbn. rewrite String.eqb_refl. apply orb_true_r. }
  repeat split.
  - exact Hnew.
  - intros url Hu. unfold itemExists in *. cbn [getAllItems saveItems wishlist] in *.
    rewrite existsb_app, Hu. reflexivity.
  - intros newId' now' item' E. cbn [getAllItems saveItems wishlist].
    rewrite E, Hnew. reflexivity.
Qed.

Lemma addItem_then_itemExists_witness :
  exists newItem st',
    addItem "3" "2024-02-01T00:00:00.000Z" StoreScenario.chair StoreScenario.twoItems
    = (Returned newItem, st')
    /\ newItem = mkItem "3" "Chair" None None "c.com" "https://c.com/chair"
                        (Some "https://c.com/chair")
                        "2024-02-01T00:00:00.000Z" "2024-02-01T00:00:00.000Z"
    /\ getAllItems st' = (getAllItems StoreScenario.twoItems ++ [newItem])%list
    /\ schemaVersion st' = schemaVersion StoreScenario.twoItems
    /\ itemExists "https://c.com/chair" st' = true
    /\ (forall url, itemExists url StoreScenario.twoItems = true ->
                    itemExists url st' = true)
    /\ (forall newId' now' item',
           n_normalizedUrl item' = "https://c.com/chair" ->
           addItem newId' now' item' st'
           = (Thrown (ErrorObject "Item already exists in wishlist"), st')).
Proof.
  apply (addItem_then_itemExists "3" "2024-02-01T00:00:00.000Z"
           StoreScenario.chair StoreScenario.twoItems).
  vm_compute. reflexivity.
Defined.

(** X17.  [deleteItem] removes every entry that has the identifier, keeps the
    others in their order, answers whether an entry had it, and leaves
    the schema version alone; deleting the same identifier again answers
    [false] and changes nothing. *)
Theorem deleteItem_removes_every_match (itemId : string) (st : Storage) :
  let result := deleteItem itemId st in
  fst result
  = Returned (List.existsb (fun item => String.eqb (id item) itemId) (getAllItems st))
  /\ getAllItems (snd result)
     = List.filter (fun item => negb (String.eqb (id item) itemId)) (getAllItems st)
  /\ schemaVersion (snd result) = schemaVersion st
  /\ deleteItem itemId (snd result) = (Returned false, snd result).
Proof.
  cbv zeta. unfold deleteItem. cbv zeta.
  set (keep := fun item => negb (String.eqb (id item) itemId)).
  rewrite (filter_length_all keep (getAllItems st)).
  assert (Hex : List.existsb (fun item => String.eqb (id item) itemId) (getAllItems st)
                = negb (List.forallb keep (getAllItems st))).
  { unfold keep. induction (getAllItems st) as [|x l IH]; [reflexivity|].
    cbn. rewrite IH. destruct (String.eqb (id x) itemId); reflexivity. }
  rewrite Hex.
  destruct (List.forallb keep (getAllItems st)) eqn:E; cbn [fst snd negb].
  - repeat split.
    + symmetry. apply filter_all_true. exact E.
    + rewrite (filter_length_all keep (getAllItems st)), E. reflexivity.
  - repeat split. cbn [getAllItems saveItems wishlist].
    rewrite filter_idempotent, Nat.eqb_refl. reflexivity.
Qed.

(** X18.  [updateItem] answers [null] and changes nothing when no entry has
    the identifier.  Otherwise it replaces the first entry that has it by
    the merge of that entry with the update, stamped with the clock: the
    number and the order of the entries stay the same, and an [updatedAt]
    carried by the update is overridden. *)
Theorem updateItem_replaces_first_match
        (itemId : string) (updates : Updates) (now : string) (st : Storage) :
  (Forall (fun item => id item <> itemId) (getAllItems st)
   /\ updateItem itemId updates now st = (Returned None, st))
  \/ (exists before old after,
         getAllItems st = (before ++ old :: after)%list
         /\ Forall (fun item => id item <> itemId) before
         /\ id old = itemId
         /\ fst (updateItem itemId updates now st)
            = Returned (Some (merge old updates now))
         /\ getAllItems (snd (updateItem itemId updates now st))
            = (before ++ merge old updates now :: after)%list
         /\ updatedAt (merge old updates now) = now
         /\ schemaVersion (snd (updateItem itemId updates now st)) = schemaVersion st).
Proof.
  unfold updateItem.
  pose proof (updateFirst_spec itemId updates now (getAllItems st)) as H.
  destruct (updateFirst itemId updates now (getAllItems st)) as [[merged items']|].
  - right. destruct H as (before & old & after & E & Hb & Ho & -> & ->).
    exists before, old, after. repeat split; assumption.
  - left. split; [exact H | reflexivity].
Qed.

End DatabaseExtras.

Section MigrationFacts.

Import DatabaseService UrlNormalizationService Wording.

Lemma normalizeUrl_thrown (url : string) (e : Exception) :
  normalizeUrl url = Thrown e -> e = invalidUrlFormat.
Proof.
  unfold normalizeUrl, Completion.tryCatch.
  destruct (negb (isValidUrl url)); [intro H; injection H as <-; reflexivity|].
  destruct (URLParse.construct url true); cbn [Completion.bind]; [discriminate|].
  intro H; injection H as <-; reflexivity.
Qed.

Lemma migrateItem_returned (old new : WishlistItem) :
  migrateItem old = Returned new -> migrated old new.
Proof.
  unfold migrateItem, migrated, lacksNormalizedUrl. cbv zeta.
  destruct (normalizedUrl old) as [n|] eqn:En.
  - destruct (String.eqb_spec n "") as [->|Hn]; cbn [andb].
    + destruct (String.eqb_spec (originalUrl old) "") as [Eo|Eo]; cbn [negb].
      * intro H. injection H as <-. right. auto.
      * destruct (normalizeUrl (originalUrl old)) as [c|e] eqn:Ec; [|discriminate].
        cbn [Completion.bind]. intro H. injection H as <-. left.
        split; [auto|]. split; [exact Eo|]. exists c. split; [reflexivity|].
        split; [exact (normalizeUrl_https _ _ Ec) | reflexivity].
    + intro H. injection H as <-. right. split; [|reflexivity].
      left. intros [H|H]; [discriminate | injection H as ->; contradiction].
  - cbn [andb].
    destruct (String.eqb_spec (originalUrl old) "") as [Eo|Eo]; cbn [negb].
    + intro H. injection H as <-. right. auto.
    + destruct (normalizeUrl (originalUrl old)) as [c|e] eqn:Ec; [|discriminate].
      cbn [Completion.bind]. intro H. injection H as <-. left.
      split; [auto|]. split; [exact Eo|]. exists c. split; [reflexivity|].
      split; [exact (normalizeUrl_https _ _ Ec) | reflexivity].
Qed.

Lemma migrateItem_thrown (item : WishlistItem) (e : Exception) :
  migrateItem item = Thrown e ->
  lacksNormalizedUrl item /\ originalUrl item <> ""
  /\ normalizeUrl (originalUrl item) = Thrown invalidUrlFormat
  /\ e = invalidUrlFormat.
Proof.
  unfold migrateItem, lacksNormalizedUrl. cbv zeta.
  assert (Hgo : originalUrl item <> "" ->
                Completion.bind (normalizeUrl (originalUrl item))
                  (fun n => Returned (mkItem (id item) (title item) (imageUrl item)
                                             (price item) (sourceDomain item)
                                             (originalUrl item) (Some n)
                                             (createdAt item) (updatedAt item)))
                = Thrown e ->
                normalizeUrl (originalUrl item) = Thrown invalidUrlFormat
                /\ e = invalidUrlFormat).
  { intros _. destruct (normalizeUrl (originalUrl item)) as [c|e'] eqn:Ec; [discriminate|].
    cbn [Completion.bind]. intro H. injection H as <-.
    rewrite (normalizeUrl_thrown _ _ Ec). auto. }
  destruct (normalizedUrl item) as [n|].
  - destruct (String.eqb_spec n "") as [->|Hn]; cbn [andb]; [|discriminate].
    destruct (String.eqb_spec (originalUrl item) "") as [Eo|Eo]; cbn [negb]; [discriminate|].
    intro H. destruct (Hgo Eo H). auto.
  - cbn [andb].
    destruct (String.eqb_spec (originalUrl item) "") as [Eo|Eo]; cbn [negb]; [discriminate|].
    intro H. destruct (Hgo Eo H). auto.
Qed.

Lemma migrateItems_returned (items items' : list WishlistItem) :
  migrateItems items = Returned items' -> Forall2 migrated items items'.
Proof.
  revert items'. induction items as [|item rest IH]; intros items' H.
  - injection H as <-. constructor.
  - cbn [migrateItems] in H.
    destruct (migrateItem item) as [item'|] eqn:E1; [|discriminate].
    cbn [Completion.bind] in H.
    destruct (migrateItems rest) as [rest'|]; [|discriminate].
    cbn [Completion.bind] in H. injection H as <-.
    constructor; [apply migrateItem_returned; exact E1 | apply IH; reflexivity].
Qed.

Lemma migrateItems_thrown (items : list WishlistItem) (e : Exception) :
  migrateItems items = Thrown e ->
  exists item, In item items /\ migrateItem item = Thrown e.
Proof.
  induction items as [|item rest IH]; [discriminate|].
  cbn [migrateItems]. destruct (migrateItem item) as [item'|e1] eqn:E1.
  - cbn [Completion.bind]. destruct (migrateItems rest) as [rest'|e2]; [discriminate|].
    cbn [Completion.bind]. intro H. injection H as <-.
    destruct (IH eq_refl) as (x & Hin & Hx). exists x. split; [right; exact Hin | exact Hx].
  - cbn [Completion.bind]. intro H. injection H as <-.
    exists item. split; [left; reflexivity | exact E1].
Qed.

End MigrationFacts.

Section MigrationExtras.

Import DatabaseService UrlNormalizationService Wording.

(** X19.  A successful [initialize] of a store below schema version 2 records
    version 2 and migrates entry by entry: an entry without a
    [normalizedUrl] that has an [originalUrl] gets the canonical form of
    that URL, which starts with [https:/]; every other entry is left as
    it is.  Initialising the result again changes nothing. *)
Theorem initialize_migrates_once (st : Storage) :
  (getSchemaVersion st < 2)%N ->
  fst (initialize st) = Returned tt ->
  schemaVersion (snd (initialize st)) = Some 2%N
  /\ Forall2 migrated (getAllItems st) (getAllItems (snd (initialize st)))
  /\ initialize (snd (initialize st)) = (Returned tt, snd (initialize st)).
Proof.
  intros Hv. unfold initialize, runMigrations, CURRENT_SCHEMA_VERSION. cbv zeta.
  assert (Hlt : (getSchemaVersion st <? 2)%N = true) by (apply N.ltb_lt; exact Hv).
  rewrite Hlt. unfold migrateToV2, getAllItems.
  destruct (wishlist st) as [items|] eqn:Ew.
  - destruct (migrateItems items) as [items'|e] eqn:Em; [|discriminate].
    intros _. cbn. split; [reflexivity|]. split; [|reflexivity].
    apply migrateItems_returned. exact Em.
  - intros _. cbn. rewrite Ew. split; [reflexivity|]. split; [constructor | reflexivity].
Qed.

Lemma initialize_migrates_once_witness :
  let v1 := mkStorage
              (Some [mkItem "1" "Lamp" None None "a.com"
                            "http://www.a.com/lamp?utm_source=mail" None
                            "2024-01-01T00:00:00.000Z" "2024-01-01T00:00:00.000Z";
                     StoreScenario.itemB])
              None in
  schemaVersion (snd (initialize v1)) = Some 2%N
  /\ Forall2 migrated (getAllItems v1) (getAllItems (snd (initialize v1)))
  /\ initialize (snd (initialize v1)) = (Returned tt, snd (initialize v1)).
Proof.
  cbv zeta. apply initialize_migrates_once; vm_compute; reflexivity.
Defined.

End MigrationExtras.

Section StorageFailures.

Import DatabaseService UrlNormalizationService Wording AsyncStorage.

Lemma next_keys (d : Device) : keys (snd (next d)) = keys d.
Proof. unfold next. destruct (answers d); reflexivity. Qed.

Lemma next_reliable (d : Device) :
  reliable d -> fst (next d) = None /\ reliable (snd (next d)).
Proof.
  unfold reliable, next. destruct (answers d) as [|answer rest] eqn:E; cbn [fst snd].
  - intros _. split; [reflexivity|]. rewrite E. constructor.
  - intro H. inversion H; subst. split; [reflexivity | assumption].
Qed.

Lemma next_rejects (d : Device) (e : Exception) :
  fst (next d) = Some e -> In (Some e) (answers d).
Proof.
  unfold next. destruct (answers d) as [|answer rest]; cbn [fst]; [discriminate|].
  intros ->. left. reflexivity.
Qed.

Lemma next_answers (d : Device) (a : option Exception) :
  In a (answers (snd (next d))) -> In a (answers d).
Proof.
  unfold next. destruct (answers d) as [|answer rest] eqn:E; cbn [snd answers].
  - rewrite E. auto.
  - intro H. right. exact H.
Qed.

(** What a read does: it is served with the key, or rejected, and the
    keys stay as they are. *)
Lemma getItem_cases {A} (read : Storage -> A) (d : Device) :
  keys (snd (getItem read d)) = keys d
  /\ (forall a, In a (answers (snd (getItem read d))) -> In a (answers d))
  /\ (fst (getItem read d) = Returned (read (keys d))
      \/ exists e, fst (getItem read d) = Thrown e /\ In (Some e) (answers d))
  /\ (reliable d ->
      fst (getItem read d) = Returned (read (keys d)) /\ reliable (snd (getItem read d))).
Proof.
  unfold getItem.
  pose proof (next_keys d) as K. pose proof (next_rejects d) as J.
  pose proof (next_answers d) as I. pose proof (next_reliable d) as R.
  destruct (next d) as [[e|] d']; cbn [fst snd] in *.
  - split; [exact K|]. split; [exact I|]. split.
    + right. exists e. split; [reflexivity | apply J; reflexivity].
    + intro H. destruct (R H) as [N _]. discriminate.
  - rewrite K. split; [reflexivity|]. split; [exact I|]. split; [left; reflexivity|].
    intro H. destruct (R H) as [_ R']. split; [reflexivity | exact R'].
Qed.

(** What a write does: it is served and the key is written, or it is
    rejected and the keys stay as they are. *)
Lemma setItem_cases (write : Storage -> Storage) (d : Device) :
  (forall a, In a (answers (snd (setItem write d))) -> In a (answers d))
  /\ ((fst (setItem write d) = Returned tt /\ keys (snd (setItem write d)) = write (keys d))
      \/ exists e, fst (setItem write d) = Thrown e
                   /\ In (Some e) (answers d)
                   /\ keys (snd (setItem write d)) = keys d)
  /\ (reliable d ->
      fst (setItem write d) = Returned tt
      /\ keys (snd (setItem write d)) = write (keys d)
      /\ reliable (snd (setItem write d))).
Proof.
  unfold setItem.
  pose proof (next_keys d) as K. pose proof (next_rejects d) as J.
  pose proof (next_answers d) as I. pose proof (next_reliable d) as R.
  destruct (next d) as [[e|] d']; cbn [fst snd keys answers] in *.
  - split; [exact I|]. split.
    + right. exists e. split; [reflexivity|]. split; [apply J; reflexivity | exact K].
    + intro H. destruct (R H) as [N _]. discriminate.
  - rewrite K. split; [exact I|]. split; [left; split; reflexivity|].
    intro H. destruct (R H) as [_ R']. repeat split. exact R'.
Qed.

(** What [migrateToV2] does on the device. *)
Lemma migrateToV2_cases (d : Device) :
  (forall a, In a (answers (snd (AsyncStorage.migrateToV2 d))) -> In a (answers d))
  /\ schemaVersion (keys (snd (AsyncStorage.migrateToV2 d))) = schemaVersion (keys d)
  /\ ((fst (AsyncStorage.migrateToV2 d) = Returned tt
       /\ (keys (snd (AsyncStorage.migrateToV2 d)) = keys d
           \/ exists items migratedItems,
                wishlist (keys d) = Some items
                /\ migrateItems items = Returned migratedItems
                /\ wishlist (keys (snd (AsyncStorage.migrateToV2 d))) = Some migratedItems))
      \/ exists e,
           fst (AsyncStorage.migrateToV2 d) = Thrown e
           /\ keys (snd (AsyncStorage.migrateToV2 d)) = keys d
           /\ (In (Some e) (answers d)
               \/ exists items,
                    wishlist (keys d) = Some items /\ migrateItems items = Thrown e))
  /\ (reliable d ->
      fst (AsyncStorage.migrateToV2 d) = fst (DatabaseService.migrateToV2 (keys d))
      /\ keys (snd (AsyncStorage.migrateToV2 d)) = snd (DatabaseService.migrateToV2 (keys d))
      /\ reliable (snd (AsyncStorage.migrateToV2 d))).
Proof.
  unfold AsyncStorage.migrateToV2, DatabaseService.migrateToV2.
  destruct (getItem_cases wishlist d) as (K1 & I1 & C1 & R1).
  destruct (getItem wishlist d) as [c1 d1]. cbn [fst snd] in K1, I1, C1, R1.
  destruct C1 as [-> | (e & -> & He)].
  - destruct (wishlist (keys d)) as [items|] eqn:Ew.
    + destruct (migrateItems items) as [migratedItems|e] eqn:Em.
      * unfold AsyncStorage.saveItems.
        destruct (setItem_cases (DatabaseService.saveItems migratedItems) d1) as (I2 & C2 & R2).
        destruct (setItem (DatabaseService.saveItems migratedItems) d1) as [c2 d2].
        cbn [fst snd] in I2, C2, R2 |- *.
        split; [intros a Ha; apply I1, I2, Ha|].
        destruct C2 as [(-> & K2) | (e & -> & He & K2)].
        -- rewrite K2, K1. split; [reflexivity|]. split.
           ++ left. split; [reflexivity|]. right. exists items, migratedItems. auto.
           ++ intro R. destruct (R1 R) as [_ R1']. destruct (R2 R1') as (_ & _ & R2').
              auto.
        -- rewrite K2, K1. split; [reflexivity|]. split.
           ++ right. exists e. split; [reflexivity|]. split; [reflexivity|].
              left. apply I1, He.
           ++ intro R. destruct (R1 R) as [_ R1']. destruct (R2 R1') as (N & _). discriminate.
      * cbn [fst snd]. rewrite K1. split; [exact I1|]. split; [reflexivity|]. split.
        -- right. exists e. split; [reflexivity|]. split; [reflexivity|].
           right. exists items. auto.
        -- intro R. destruct (R1 R) as [_ R1']. auto.
    + cbn [fst snd]. rewrite K1. split; [exact I1|]. split; [reflexivity|]. split.
      * left. auto.
      * intro R. destruct (R1 R) as [_ R1']. auto.
  - cbn [fst snd]. rewrite K1. split; [exact I1|]. split; [reflexivity|]. split.
    + right. exists e. auto.
    + intro R. destruct (R1 R) as [N _]. discriminate.
Qed.

(** On a platform that serves every call, [initialize] does what it does
    on the keys alone. *)
Lemma initialize_reliable (d : Device) :
  reliable d ->
  fst (AsyncStorage.initialize d) = fst (DatabaseService.initialize (keys d))
  /\ keys (snd (AsyncStorage.initialize d)) = snd (DatabaseService.initialize (keys d))
  /\ reliable (snd (AsyncStorage.initialize d)).
Proof.
  intro R.
  unfold AsyncStorage.initialize, AsyncStorage.getSchemaVersion.
  unfold DatabaseService.initialize, DatabaseService.getSchemaVersion.
  destruct (getItem_cases schemaVersion d) as (K1 & _ & _ & R1).
  destruct (R1 R) as [E1 R1']. clear R1.
  destruct (getItem schemaVersion d) as [c1 d1]. cbn [fst snd] in K1, E1, R1'. subst c1.
  assert (Hgo : forall current,
             fst (if (current <? CURRENT_SCHEMA_VERSION)%N
                  then match AsyncStorage.runMigrations current d1 with
                       | (Returned _, d2) =>
                           AsyncStorage.setSchemaVersion CURRENT_SCHEMA_VERSION d2
                       | (Thrown e, d2) => (Thrown e, d2)
                       end
                  else (Returned tt, d1))
             = fst (if (current <? CURRENT_SCHEMA_VERSION)%N
                    then match DatabaseService.runMigrations current (keys d) with
                         | (Returned _, st') =>
                             (Returned tt,
                              mkStorage (wishlist st') (Some CURRENT_SCHEMA_VERSION))
                         | (Thrown e, st') => (Thrown e, st')
                         end
                    else (Returned tt, keys d))
             /\ keys (snd (if (current <? CURRENT_SCHEMA_VERSION)%N
                           then match AsyncStorage.runMigrations current d1 with
                                | (Returned _, d2) =>
                                    AsyncStorage.setSchemaVersion CURRENT_SCHEMA_VERSION d2
                                | (Thrown e, d2) => (Thrown e, d2)
                                end
                           else (Returned tt, d1)))
                = snd (if (current <? CURRENT_SCHEMA_VERSION)%N
                       then match DatabaseService.runMigrations current (keys d) with
                            | (Returned _, st') =>
                                (Returned tt,
                                 mkStorage (wishlist st') (Some CURRENT_SCHEMA_VERSION))
                            | (Thrown e, st') => (Thrown e, st')
                            end
                       else (Returned tt, keys d))
             /\ reliable (snd (if (current <? CURRENT_SCHEMA_VERSION)%N
                               then match AsyncStorage.runMigrations current d1 with
                                    | (Returned _, d2) =>
                                        AsyncStorage.setSchemaVersion CURRENT_SCHEMA_VERSION d2
                                    | (Thrown e, d2) => (Thrown e, d2)
                                    end
                               else (Returned tt, d1)))).
  { intro current.
    destruct (current <? CURRENT_SCHEMA_VERSION)%N; [|cbn [fst snd]; auto].
    assert (Hrun : fst (AsyncStorage.runMigrations current d1)
                   = fst (DatabaseService.runMigrations current (keys d))
                   /\ keys (snd (AsyncStorage.runMigrations current d1))
                      = snd (DatabaseService.runMigrations current (keys d))
                   /\ reliable (snd (AsyncStorage.runMigrations current d1))).
    { unfold AsyncStorage.runMigrations, DatabaseService.runMigrations.
      destruct (current <? 2)%N; [|cbn [fst snd]; auto].
      destruct (migrateToV2_cases d1) as (_ & _ & _ & R2). rewrite <- K1. apply R2, R1'. }
    destruct Hrun as (F2 & K2 & R2).
    destruct (AsyncStorage.runMigrations current d1) as [c2 d2].
    destruct (DatabaseService.runMigrations current (keys d)) as [c2' st2].
    cbn [fst snd] in F2, K2, R2. subst c2' st2.
    destruct c2 as [u|e]; [|cbn [fst snd]; auto].
    unfold AsyncStorage.setSchemaVersion.
    destruct (setItem_cases
                (fun st => mkStorage (wishlist st) (Some CURRENT_SCHEMA_VERSION)) d2)
      as (_ & _ & R3).
    destruct (R3 R2) as (F3 & K3 & R3'). cbn [fst snd].
    rewrite F3, K3. auto. }
  destruct (schemaVersion (keys d)) as [v|]; apply Hgo.
Qed.

(** X20.  What a failed [initialize] leaves behind, on a storage that can
    reject calls.  It never writes the schema version.  The stored entries
    are as they were, unless the call that failed is the write of the
    version: then the migrated entries are already written.  The error is
    the one of a rejected call, or it is [invalidUrlFormat], thrown by
    [normalizeUrl] on the [originalUrl] of an entry without
    [normalizedUrl], and then nothing is written.  When the platform
    serves every call, only the latter happens, and the next run fails in
    the same way. *)
Theorem initialize_failure_effects (d : Device) (e : Exception) :
  fst (AsyncStorage.initialize d) = Thrown e ->
  let d' := snd (AsyncStorage.initialize d) in
  schemaVersion (keys d') = schemaVersion (keys d)
  /\ (wishlist (keys d') = wishlist (keys d)
      \/ (In (Some e) (answers d)
          /\ exists items migratedItems,
               wishlist (keys d) = Some items
               /\ Forall2 migrated items migratedItems
               /\ wishlist (keys d') = Some migratedItems))
  /\ (In (Some e) (answers d)
      \/ (e = invalidUrlFormat
          /\ keys d' = keys d
          /\ exists item,
               In item (getAllItems (keys d))
               /\ lacksNormalizedUrl item
               /\ originalUrl item <> ""
               /\ normalizeUrl (originalUrl item) = Thrown invalidUrlFormat))
  /\ (reliable d ->
      e = invalidUrlFormat
      /\ keys d' = keys d
      /\ fst (AsyncStorage.initialize d') = Thrown e
      /\ keys (snd (AsyncStorage.initialize d')) = keys d).
Proof.
  intro H. cbv zeta.
  assert (Hmain :
    schemaVersion (keys (snd (AsyncStorage.initialize d))) = schemaVersion (keys d)
    /\ (wishlist (keys (snd (AsyncStorage.initialize d))) = wishlist (keys d)
        \/ (In (Some e) (answers d)
            /\ exists items migratedItems,
                 wishlist (keys d) = Some items
                 /\ Forall2 migrated items migratedItems
                 /\ wishlist (keys (snd (AsyncStorage.initialize d))) = Some migratedItems))
    /\ (In (Some e) (answers d)
        \/ (e = invalidUrlFormat
            /\ keys (snd (AsyncStorage.initialize d)) = keys d
            /\ exists item,
                 In item (getAllItems (keys d))
                 /\ lacksNormalizedUrl item
                 /\ originalUrl item <> ""
                 /\ normalizeUrl (originalUrl item) = Thrown invalidUrlFormat))).
  { revert H. unfold AsyncStorage.initialize, AsyncStorage.getSchemaVersion.
    destruct (getItem_cases schemaVersion d) as (K1 & I1 & _ & _).
    destruct (getItem schemaVersion d) as [c1 d1]. cbn [fst snd] in K1, I1.
    assert (Hgo : forall current,
               fst (if (current <? CURRENT_SCHEMA_VERSION)%N
                    then match AsyncStorage.runMigrations current d1 with
                         | (Returned _, d2) =>
                             AsyncStorage.setSchemaVersion CURRENT_SCHEMA_VERSION d2
                         | (Thrown e0, d2) => (Thrown e0, d2)
                         end
                    else (Returned tt, d1)) = Thrown e ->
               let d' := snd (if (current <? CURRENT_SCHEMA_VERSION)%N
                              then match AsyncStorage.runMigrations current d1 with
                                   | (Returned _, d2) =>
                                       AsyncStorage.setSchemaVersion CURRENT_SCHEMA_VERSION d2
                                   | (Thrown e0, d2) => (Thrown e0, d2)
                                   end
                              else (Returned tt, d1)) in
               schemaVersion (keys d') = schemaVersion (keys d)
               /\ (wishlist (keys d') = wishlist (keys d)
                   \/ (In (Some e) (answers d)
                       /\ exists items migratedItems,
                            wishlist (keys d) = Some items
                            /\ Forall2 migrated items migratedItems
                            /\ wishlist (keys d') = Some migratedItems))
               /\ (In (Some e) (answers d)
                   \/ (e = invalidUrlFormat
                       /\ keys d' = keys d
                       /\ exists item,
                            In item (getAllItems (keys d))
                            /\ lacksNormalizedUrl item
                            /\ originalUrl item <> ""
                            /\ normalizeUrl (originalUrl item) = Thrown invalidUrlFormat))).
    { intro current. cbv zeta.
      destruct (current <? CURRENT_SCHEMA_VERSION)%N; [|discriminate].
      unfold AsyncStorage.runMigrations.
      destruct (current <? 2)%N.
      - destruct (migrateToV2_cases d1) as (I2 & V2 & C2 & _).
        destruct (AsyncStorage.migrateToV2 d1) as [c2 d2]. cbn [fst snd] in I2, V2, C2.
        rewrite K1 in V2, C2.
        destruct C2 as [(-> & W2) | (e2 & -> & K2 & Hcause)].
        + unfold AsyncStorage.setSchemaVersion.
          destruct (setItem_cases
                      (fun st => mkStorage (wishlist st) (Some CURRENT_SCHEMA_VERSION)) d2)
            as (_ & C3 & _).
          destruct (setItem _ d2) as [c3 d3]. cbn [fst snd] in C3 |- *.
          destruct C3 as [(-> & _) | (e3 & -> & He3 & K3)]; [discriminate|].
          intro H. injection H as ->.
          assert (Hin : In (Some e) (answers d)) by (apply I1, I2, He3).
          rewrite K3. split; [exact V2|]. split; [|left; exact Hin].
          destruct W2 as [-> | (items & migratedItems & Ew & Em & Ew')].
          * left. reflexivity.
          * right. split; [exact Hin|]. exists items, migratedItems.
            split; [exact Ew|]. split; [apply migrateItems_returned; exact Em | exact Ew'].
        + cbn [fst snd]. intro H. injection H as ->.
          rewrite K2. split; [reflexivity|]. split; [left; reflexivity|].
          destruct Hcause as [Hin | (items & Ew & Em)]; [left; apply I1, Hin|].
          destruct (migrateItems_thrown _ _ Em) as (item & Hin & Hitem).
          destruct (migrateItem_thrown _ _ Hitem) as (Hl & Ho & Hn & ->).
          right. split; [reflexivity|]. split; [reflexivity|].
          exists item. unfold getAllItems. rewrite Ew. auto.
      - unfold AsyncStorage.setSchemaVersion.
        destruct (setItem_cases
                    (fun st => mkStorage (wishlist st) (Some CURRENT_SCHEMA_VERSION)) d1)
          as (_ & C3 & _).
        destruct (setItem _ d1) as [c3 d3]. cbn [fst snd] in C3 |- *.
        destruct C3 as [(-> & _) | (e3 & -> & He3 & K3)]; [discriminate|].
        intro H. injection H as ->.
        rewrite K3, K1. split; [reflexivity|]. split; [left; reflexivity|].
        left. apply I1, He3. }
    destruct c1 as [[v|]|e1]; apply Hgo. }
  destruct Hmain as (Hv & Hw & He).
  split; [exact Hv|]. split; [exact Hw|]. split; [exact He|].
  intro R.
  assert (Hnone : ~ In (Some e) (answers d)).
  { intro Hin. unfold reliable in R. rewrite Forall_forall in R.
    specialize (R _ Hin). discriminate. }
  destruct He as [Hin | (-> & Hk & _)]; [contradiction|].
  split; [reflexivity|]. split; [exact Hk|].
  destruct (initialize_reliable d R) as (F & K & R').
  destruct (initialize_reliable _ R') as (F' & K' & _).
  rewrite Hk in F', K'. rewrite F', K', <- F, <- K. auto.
Qed.

Lemma initialize_failure_effects_witness :
  let d := mkDevice StoreScenario.legacyStore
                    [None; None; None; Some (ErrorObject "No space left on device")] in
  let e := ErrorObject "No space left on device" in
  let d' := snd (AsyncStorage.initialize d) in
  schemaVersion (keys d') = schemaVersion (keys d)
  /\ (wishlist (keys d') = wishlist (keys d)
      \/ (In (Some e) (answers d)
          /\ exists items migratedItems,
               wishlist (keys d) = Some items
               /\ Forall2 migrated items migratedItems
               /\ wishlist (keys d') = Some migratedItems))
  /\ (In (Some e) (answers d)
      \/ (e = invalidUrlFormat
          /\ keys d' = keys d
          /\ exists item,
               In item (getAllItems (keys d))
               /\ lacksNormalizedUrl item
               /\ originalUrl item <> ""
               /\ normalizeUrl (originalUrl item) = Thrown invalidUrlFormat))
  /\ (reliable d ->
      e = invalidUrlFormat
      /\ keys d' = keys d
      /\ fst (AsyncStorage.initialize d') = Thrown e
      /\ keys (snd (AsyncStorage.initialize d')) = keys d).
Proof.
  cbv zeta.
  apply (initialize_failure_effects
           (mkDevice StoreScenario.legacyStore
                     [None; None; None; Some (ErrorObject "No space left on device")])
           (ErrorObject "No space left on device")).
  vm_compute. reflexivity.
Defined.

(** The two ways of failing, run: a rejected write of the version leaves
    the migrated entries behind with the version unwritten; an entry whose
    address [normalizeUrl] rejects stops the migration before any write. *)
Lemma initialize_failure_scenarios :
  let full := mkDevice StoreScenario.legacyStore
                       [None; None; None; Some (ErrorObject "No space left on device")] in
  let note := mkItem "1" "Note" None None "" "see my notes" None
                     "2024-01-01T00:00:00.000Z" "2024-01-01T00:00:00.000Z" in
  let notes := mkDevice (mkStorage (Some [note]) None) [] in
  (fst (AsyncStorage.initialize full) = Thrown (ErrorObject "No space left on device")
   /\ schemaVersion (keys (snd (AsyncStorage.initialize full))) = None
   /\ List.map normalizedUrl (getAllItems (keys (snd (AsyncStorage.initialize full))))
      = [Some "https://a.com/lamp"])
  /\ (reliable notes
      /\ AsyncStorage.initialize notes = (Thrown invalidUrlFormat, notes)).
Proof. vm_compute. repeat split. constructor. Qed.

End StorageFailures.

(* ================================================================== *)
(** * The client retry wrapper *)

Section RetryFacts.

Import UrlNormalizationService UrlPreviewService Vocabulary.

Variable network : nat -> string -> Completion.t string.
Variable extractTitle extractDescription extractPrice : string -> option string.
Variable extractImageUrl : string -> string -> option string.

(** One turn of the retry loop. *)
Lemma attempts_step (remaining attempt : nat) (url : string)
      (lastError : option Exception) (trace : list Event) :
  attempts network extractTitle extractDescription extractImageUrl extractPrice
           (S remaining) attempt url lastError trace
  = let retry e :=
      attempts network extractTitle extractDescription extractImageUrl extractPrice
               remaining (S attempt) url (Some e)
               (trace ++ Request url
                  :: (if (attempt <? MAX_RETRIES)%nat
                      then [Delay (RETRY_DELAY * N.of_nat attempt)] else []))%list in
    match network (requestCount trace) url with
    | Returned data =>
        match parsePreviewData extractTitle extractDescription extractImageUrl
                               extractPrice data url with
        | Returned preview => (Returned preview, (trace ++ [Request url])%list)
        | Thrown e => retry e
        end
    | Thrown e => retry e
    end.
Proof.
  cbv zeta. cbn [attempts]. unfold catch, bind, makeRequest, lift.
  destruct (network (requestCount trace) url) as [data|e].
  - destruct (parsePreviewData _ _ _ _ data url) as [preview|e]; [reflexivity|].
    destruct (attempt <? MAX_RETRIES)%nat; unfold delay, ret.
    + rewrite <- app_assoc. reflexivity.
    + reflexivity.
  - destruct (attempt <? MAX_RETRIES)%nat; unfold delay, ret.
    + rewrite <- app_assoc. reflexivity.
    + reflexivity.
Qed.

Lemma parsePreviewData_returned (html url : string) (preview : UrlPreview) :
  parsePreviewData extractTitle extractDescription extractImageUrl extractPrice html url
  = Returned preview ->
  originalUrl preview = url
  /\ title preview <> ""
  /\ normalizeUrl url = Returned (normalizedUrl preview)
  /\ sourceDomain preview = extractDomain url.
Proof.
  unfold parsePreviewData.
  destruct (normalizeUrl url) as [n|e]; [|discriminate].
  cbn [Completion.bind]. intro H. injection H as <-. cbn.
  repeat split. destruct (extractTitle html) as [[|c t]|]; discriminate.
Qed.

Lemma parsePreviewData_thrown (html url : string) (e : Exception) :
  normalizeUrl url = Thrown e ->
  parsePreviewData extractTitle extractDescription extractImageUrl extractPrice html url
  = Thrown e.
Proof. intro H. unfold parsePreviewData. rewrite H. reflexivity. Qed.

(** X21.  Whatever the network does, one call of [fetchPreview] makes at most
    three requests, all to the sanitised URL, and waits one second after
    the first and two seconds after the second failed attempt.  A preview
    that it returns comes from a request, keeps the sanitised URL as its
    [originalUrl], has a title that is not empty, and carries the
    canonical form and the domain of the sanitised URL. *)
Theorem fetchPreview_request_budget (url : string) :
  let sanitizedUrl := sanitizeUrl url in
  let request := Request sanitizedUrl in
  let result :=
    fetchPreview network extractTitle extractDescription extractImageUrl extractPrice
                 url [] in
  In (snd result)
     [ [];
       [request];
       [request; Delay 1000; request];
       [request; Delay 1000; request; Delay 2000; request] ]
  /\ forall preview,
       fst result = Returned preview ->
       snd result <> []
       /\ originalUrl preview = sanitizedUrl
       /\ title preview <> ""
       /\ normalizeUrl sanitizedUrl = Returned (normalizedUrl preview)
       /\ sourceDomain preview = extractDomain sanitizedUrl.
Proof.
  cbv zeta. unfold fetchPreview. cbv zeta.
  set (s := sanitizeUrl url).
  destruct (isValidUrl s); cbn [negb].
  2:{ split; [left; reflexivity | discriminate]. }
  change MAX_RETRIES with 3%nat. rewrite !attempts_step. cbv zeta.
  cbn [requestCount List.filter List.length app Nat.ltb Nat.leb MAX_RETRIES].
  assert (Hok : forall html preview (trace : list Event),
             parsePreviewData extractTitle extractDescription extractImageUrl
                              extractPrice html s = Returned preview ->
             trace <> [] ->
             forall preview',
               fst (Returned preview, trace) = Returned preview' ->
               snd (@Returned UrlPreview preview, trace) <> []
               /\ originalUrl preview' = s
               /\ title preview' <> ""
               /\ normalizeUrl s = Returned (normalizedUrl preview')
               /\ sourceDomain preview' = extractDomain s).
  { intros html preview trace Hp Ht preview' E. cbn in E. injection E as <-.
    split; [exact Ht|]. apply (parsePreviewData_returned html). exact Hp. }
  assert (Hstep2 :
            forall e1,
              let result :=
                attempts network extractTitle extractDescription extractImageUrl
                         extractPrice 2 2 s (Some e1)
                         [Request s; Delay (RETRY_DELAY * N.of_nat 1)] in
              In (snd result)
                 [ []; [Request s]; [Request s; Delay 1000; Request s];
                   [Request s; Delay 1000; Request s; Delay 2000; Request s] ]
              /\ forall preview,
                   fst result = Returned preview ->
                   snd result <> []
                   /\ originalUrl preview = s
                   /\ title preview <> ""
                   /\ normalizeUrl s = Returned (normalizedUrl preview)
                   /\ sourceDomain preview = extractDomain s).
  { intro e1. cbv zeta. rewrite attempts_step. cbv zeta.
    cbn [requestCount List.filter List.length app Nat.ltb Nat.leb MAX_RETRIES].
    assert (Hstep3 :
              forall e2,
                let result :=
                  attempts network extractTitle extractDescription extractImageUrl
                           extractPrice 1 3 s (Some e2)
                           [Request s; Delay (RETRY_DELAY * N.of_nat 1);
                            Request s; Delay (RETRY_DELAY * N.of_nat 2)] in
                In (snd result)
                   [ []; [Request s]; [Request s; Delay 1000; Request s];
                     [Request s; Delay 1000; Request s; Delay 2000; Request s] ]
                /\ forall preview,
                     fst result = Returned preview ->
                     snd result <> []
                     /\ originalUrl preview = s
                     /\ title preview <> ""
                     /\ normalizeUrl s = Returned (normalizedUrl preview)
                     /\ sourceDomain preview = extractDomain s).
    { intro e2. cbv zeta. rewrite attempts_step. cbv zeta.
      cbn [requestCount List.filter List.length app Nat.ltb Nat.leb MAX_RETRIES attempts].
      destruct (network 2 s) as [html|e3].
      - destruct (parsePreviewData _ _ _ _ html s) as [preview|e3] eqn:Ep.
        + split; [right; right; right; left; reflexivity|].
          apply (Hok html); [exact Ep | discriminate].
        + split; [right; right; right; left; reflexivity | discriminate].
      - split; [right; right; right; left; reflexivity | discriminate]. }
    destruct (network 1 s) as [html|e2].
    - destruct (parsePreviewData _ _ _ _ html s) as [preview|e2] eqn:Ep.
      + split; [right; right; left; reflexivity|].
        apply (Hok html); [exact Ep | discriminate].
      + apply Hstep3.
    - apply Hstep3. }
  destruct (network 0 s) as [html|e1].
  - destruct (parsePreviewData _ _ _ _ html s) as [preview|e1] eqn:Ep.
    + split; [right; left; reflexivity|].
      apply (Hok html); [exact Ep | discriminate].
    + apply Hstep2.
  - apply Hstep2.
Qed.

(** X22.  An address that [isValidUrl] accepts and [normalizeUrl] rejects is
    never previewed: every response is thrown away when the preview is
    built, so [fetchPreview] makes all three requests and ends with the
    retryable network error, whose message is that of the third
    failure. *)
Theorem fetchPreview_retries_rejected_address (url : string) (e : Exception) :
  let sanitizedUrl := sanitizeUrl url in
  isValidUrl sanitizedUrl = true ->
  normalizeUrl sanitizedUrl = Thrown e ->
  fetchPreview network extractTitle extractDescription extractImageUrl extractPrice
               url []
  = (Thrown (AppErrorObject
               (mkAppError NETWORK
                  ("Failed to fetch preview after 3 attempts: "
                   ++ match network 2 sanitizedUrl with
                      | Returned _ => "Invalid URL format"
                      | Thrown e3 => messageOf e3
                      end)
                  true)),
     [Request sanitizedUrl; Delay 1000; Request sanitizedUrl; Delay 2000;
      Request sanitizedUrl]).
Proof.
  cbv zeta. intros Hv Hn. unfold fetchPreview. cbv zeta. rewrite Hv. cbn [negb].
  set (s := sanitizeUrl url) in *.
  assert (He : e = invalidUrlFormat).
  { revert Hn. unfold normalizeUrl, Completion.tryCatch.
    destruct (negb (isValidUrl s)); [intro H; injection H as <-; reflexivity|].
    destruct (URLParse.construct s true); cbn [Completion.bind]; [discriminate|].
    intro H; injection H as <-; reflexivity. }
  subst e.
  assert (Hp : forall html,
             parsePreviewData extractTitle extractDescription extractImageUrl
                              extractPrice html s = Thrown invalidUrlFormat)
    by (intro html; apply parsePreviewData_thrown; exact Hn).
  unfold MAX_RETRIES at 1.
  rewrite attempts_step. cbv zeta.
  cbn [requestCount List.filter List.length app Nat.ltb Nat.leb MAX_RETRIES].
  assert (H3 : forall e2,
             attempts network extractTitle extractDescription extractImageUrl
                      extractPrice 1 3 s (Some e2)
                      [Request s; Delay (RETRY_DELAY * N.of_nat 1);
                       Request s; Delay (RETRY_DELAY * N.of_nat 2)]
             = (Thrown (AppErrorObject
                          (mkAppError NETWORK
                             ("Failed to fetch preview after 3 attempts: "
                              ++ match network 2 s with
                                 | Returned _ => "Invalid URL format"
                                 | Thrown e3 => messageOf e3
                                 end)
                             true)),
                [Request s; Delay 1000; Request s; Delay 2000; Request s])).
  { intro e2. rewrite attempts_step. cbv zeta.
    cbn [requestCount List.filter List.length app Nat.ltb Nat.leb MAX_RETRIES attempts].
    destruct (network 2 s) as [html|e3]; [rewrite Hp|]; reflexivity. }
  assert (H2 : forall e1,
             attempts network extractTitle extractDescription extractImageUrl
                      extractPrice 2 2 s (Some e1)
                      [Request s; Delay (RETRY_DELAY * N.of_nat 1)]
             = (Thrown (AppErrorObject
                          (mkAppError NETWORK
                             ("Failed to fetch preview after 3 attempts: "
                              ++ match network 2 s with
                                 | Returned _ => "Invalid URL format"
                                 | Thrown e3 => messageOf e3
                                 end)
                             true)),
                [Request s; Delay 1000; Request s; Delay 2000; Request s])).
  { intro e1. rewrite attempts_step. cbv zeta.
    cbn [requestCount List.filter List.length app Nat.ltb Nat.leb MAX_RETRIES].
    destruct (network 1 s) as [html|e2]; [rewrite Hp|]; apply H3. }
  destruct (network 0 s) as [html|e1]; [rewrite Hp|]; apply H2.
Qed.

End RetryFacts.

Section RetryExtrasWitness.

Import UrlNormalizationService UrlPreviewService Vocabulary RetryScenario PreviewScenario.

Lemma fetchPreview_request_budget_witness :
  let preview :=
    mkUrlPreview "Desk lamp" None None None "example.com"
                 "https://www.Example.com/lamp?utm_source=x" "https://example.com/lamp" in
  let trace :=
    [Request "https://www.Example.com/lamp?utm_source=x"; Delay 1000;
     Request "https://www.Example.com/lamp?utm_source=x"] in
  trace <> []
  /\ originalUrl preview = "https://www.Example.com/lamp?utm_source=x"
  /\ title preview <> ""
  /\ normalizeUrl "https://www.Example.com/lamp?utm_source=x"
     = Returned (normalizedUrl preview)
  /\ sourceDomain preview = extractDomain "https://www.Example.com/lamp?utm_source=x".
Proof.
  exact (proj2 (fetchPreview_request_budget flakyNetwork lampTitle noScan noScan noImage
                  "www.Example.com/lamp?utm_source=x")
               _ eq_refl).
Defined.

Lemma fetchPreview_retries_rejected_address_witness :
  fetchPreview deadNetwork noScan noScan noImage noScan "http://%zz@example.com/" []
  = (Thrown (AppErrorObject
               (mkAppError NETWORK
                  "Failed to fetch preview after 3 attempts: timeout of 10000ms exceeded (request 2)"
                  true)),
     [Request "http://%zz@example.com/"; Delay 1000;
      Request "http://%zz@example.com/"; Delay 2000;
      Request "http://%zz@example.com/"])
  /\ fetchPreview pageNetwork lampTitle noScan noImage noScan "http://%zz@example.com/" []
     = (Thrown (AppErrorObject
                  (mkAppError NETWORK
                     "Failed to fetch preview after 3 attempts: Invalid URL format"
                     true)),
        [Request "http://%zz@example.com/"; Delay 1000;
         Request "http://%zz@example.com/"; Delay 2000;
         Request "http://%zz@example.com/"]).
Proof.
  split.
  - exact (fetchPreview_retries_rejected_address deadNetwork noScan noScan noScan noImage
             "http://%zz@example.com/" invalidUrlFormat eq_refl eq_refl).
  - exact (fetchPreview_retries_rejected_address pageNetwork lampTitle noScan noScan noImage
             "http://%zz@example.com/" invalidUrlFormat eq_refl eq_refl).
Defined.

End RetryExtrasWitness.

(* ================================================================== *)
(** * Paging through the wishlist *)

Section PagingFacts.

Import DatabaseService DatabaseQueries Wording.

Variable getTime : string -> Z.

Lemma insertByDate_permutation (x : WishlistItem) (l : list WishlistItem) :
  Permutation (x :: l) (insertByDate getTime x l).
Proof.
  induction l as [|y l IH]; cbn [insertByDate]; [apply Permutation_refl|].
  destruct (_ <=? 0)%Z; [apply Permutation_refl|].
  eapply perm_trans; [apply perm_swap|]. apply perm_skip. exact IH.
Qed.

Lemma sortByDate_permutation (l : list WishlistItem) :
  Permutation l (sortByDate getTime l).
Proof.
  induction l as [|x l IH]; cbn [sortByDate]; [constructor|].
  eapply perm_trans; [apply perm_skip; exact IH | apply insertByDate_permutation].
Qed.

Lemma sortByDate_length (l : list WishlistItem) :
  List.length (sortByDate getTime l) = List.length l.
Proof. symmetry. apply Permutation_length, sortByDate_permutation. Qed.

Lemma insertByDate_sorted (x : WishlistItem) (l : list WishlistItem) :
  newestFirst getTime l -> newestFirst getTime (insertByDate getTime x l).
Proof.
  unfold newestFirst. induction l as [|y l IH]; intro H; cbn [insertByDate].
  - constructor; constructor.
  - inversion H as [|? ? Hs Hf]; subst.
    destruct (Z.leb_spec (getTime (createdAt y) - getTime (createdAt x)) 0) as [Hle|Hgt].
    + constructor; [exact H|]. constructor; [lia|].
      eapply Forall_impl; [|exact Hf]. cbn. intros z Hz. lia.
    + constructor; [apply IH; exact Hs|].
      eapply Permutation_Forall; [apply insertByDate_permutation|].
      constructor; [lia | exact Hf].
Qed.

Lemma sortByDate_sorted (l : list WishlistItem) :
  newestFirst getTime (sortByDate getTime l).
Proof.
  induction l as [|x l IH]; cbn [sortByDate]; [constructor|].
  apply insertByDate_sorted. exact IH.
Qed.

Lemma newestFirst_skipn (n : nat) (l : list WishlistItem) :
  newestFirst getTime l -> newestFirst getTime (List.skipn n l).
Proof.
  unfold newestFirst. revert l. induction n as [|n IH]; intros l H; [exact H|].
  destruct l as [|x l]; [constructor|]. cbn [List.skipn].
  apply IH. inversion H; assumption.
Qed.

Lemma newestFirst_firstn (n : nat) (l : list WishlistItem) :
  newestFirst getTime l -> newestFirst getTime (List.firstn n l).
Proof.
  unfold newestFirst. revert l. induction n as [|n IH]; intros l H; [constructor|].
  destruct l as [|x l]; [constructor|]. cbn [List.firstn].
  inversion H as [|? ? Hs Hf]; subst. constructor; [apply IH; exact Hs|].
  rewrite Forall_forall in *. intros z Hz. apply Hf.
  rewrite <- (firstn_skipn n l). apply in_or_app. left. exact Hz.
Qed.

(** [slice] between two indices that are not negative. *)
Lemma slice_window {A} (l : list A) (startIndex limit : Z) :
  (0 <= startIndex)%Z -> (0 <= limit)%Z ->
  slice l startIndex (startIndex + limit)
  = List.firstn (Z.to_nat limit) (List.skipn (Z.to_nat startIndex) l).
Proof.
  intros Hs Hl. unfold slice. cbv zeta.
  destruct (Z.ltb_spec startIndex 0) as [|_]; [lia|].
  destruct (Z.ltb_spec (startIndex + limit) 0) as [|_]; [lia|].
  set (len := Z.of_nat (List.length l)).
  destruct (Z.le_gt_cases len startIndex) as [Hbig|Hsmall].
  - rewrite (Z.min_r startIndex len) by lia.
    rewrite (Z.min_r (startIndex + limit) len) by lia.
    rewrite !skipn_all2 by (unfold len in *; lia).
    rewrite !firstn_nil. reflexivity.
  - rewrite (Z.min_l startIndex len) by lia.
    destruct (Z.le_gt_cases (startIndex + limit) len) as [Hin|Hout].
    + rewrite (Z.min_l (startIndex + limit) len) by lia.
      f_equal. lia.
    + rewrite (Z.min_r (startIndex + limit) len) by lia.
      rewrite !firstn_all2; [reflexivity | |];
        rewrite length_skipn; unfold len in *; lia.
Qed.

Lemma getItems_items (page limit : Z) (st : Storage) :
  (1 <= page)%Z -> (0 <= limit)%Z ->
  items (getItems getTime page limit st)
  = List.firstn (Z.to_nat limit)
                (List.skipn (Z.to_nat ((page - 1) * limit))
                            (sortByDate getTime (getAllItems st))).
Proof.
  intros Hp Hl. unfold getItems. cbv zeta. cbn [items].
  apply slice_window; nia.
Qed.

End PagingFacts.

Section PagingExtras.

Import DatabaseService DatabaseQueries Wording.

Variable getTime : string -> Z.

(** X23.  A page of [getItems], for a page number from 1 and a limit that is
    not negative: the entries are ordered newest first, with entries of
    the same date in storage order; page [p] holds the [limit] entries
    after the first [(p - 1) * limit], so at most [limit] of them;
    [total] counts all stored entries, and [hasMore] tells whether
    entries are left after this page. *)
Theorem getItems_window (page limit : Z) (st : Storage) :
  (1 <= page)%Z -> (0 <= limit)%Z ->
  let result := getItems getTime page limit st in
  let sorted := sortByDate getTime (getAllItems st) in
  Permutation (getAllItems st) sorted
  /\ newestFirst getTime sorted
  /\ items result
     = List.firstn (Z.to_nat limit) (List.skipn (Z.to_nat ((page - 1) * limit)) sorted)
  /\ (List.length (items result) <= Z.to_nat limit)%nat
  /\ newestFirst getTime (items result)
  /\ total result = List.length (getAllItems st)
  /\ (hasMore result = true <-> (page * limit < Z.of_nat (total result))%Z).
Proof.
  intros Hp Hl. cbv zeta. unfold getItems. cbv zeta. cbn [items total hasMore].
  rewrite slice_window by nia.
  split; [apply sortByDate_permutation|].
  split; [apply sortByDate_sorted|].
  split; [reflexivity|].
  split; [apply firstn_le_length|].
  split; [apply newestFirst_firstn, newestFirst_skipn, sortByDate_sorted|].
  split; [reflexivity|].
  rewrite Z.ltb_lt. split; intro H; nia.
Qed.

End PagingExtras.

Section PagingWitness.

Import DatabaseService DatabaseQueries Wording ClockScenario.

Lemma getItems_window_witness :
  let result := getItems isoDigits 1 1 StoreScenario.twoItems in
  let sorted := sortByDate isoDigits (getAllItems StoreScenario.twoItems) in
  Permutation (getAllItems StoreScenario.twoItems) sorted
  /\ newestFirst isoDigits sorted
  /\ items result = List.firstn 1 (List.skipn 0 sorted)
  /\ (List.length (items result) <= 1)%nat
  /\ newestFirst isoDigits (items result)
  /\ total result = 2%nat
  /\ (hasMore result = true <-> (1 * 1 < Z.of_nat (total result))%Z).
Proof.
  apply (getItems_window isoDigits 1 1 StoreScenario.twoItems); lia.
Defined.

End PagingWitness.

(* ================================================================== *)
(** * The store's actions *)

Section ScrollingFacts.

Import DatabaseService WishlistStore WishlistActions Wording.

Lemma firstn_more {A} (a b : nat) (l : list A) :
  (List.firstn a l ++ List.firstn b (List.skipn a l))%list = List.firstn (a + b) l.
Proof.
  revert l. induction a as [|a IH]; intro l; [reflexivity|].
  destruct l as [|x l]; [cbn; rewrite firstn_nil; reflexivity|].
  cbn. rewrite IH. reflexivity.
Qed.

Variable getTime : string -> Z.

Lemma loadUpTo_items (n : nat) (limit : Z) (v : View) (db : Storage) :
  (0 < limit)%Z ->
  items (state (loadUpTo getTime (S n) limit v db))
  = List.firstn (S n * Z.to_nat limit)
                (DatabaseQueries.sortByDate getTime (getAllItems db)).
Proof.
  intro Hl. induction n as [|n IH].
  - cbn [loadUpTo]. unfold loadItems. cbv zeta. cbn [state items].
    change (Z.of_nat 1) with 1%Z. change (1 =? 1)%Z with true. cbv iota.
    rewrite (getItems_items getTime 1 limit db) by lia.
    cbn [Z.sub Z.mul Z.to_nat List.skipn].
    f_equal. lia.
  - remember (S n) as m eqn:Em. cbn [loadUpTo]. unfold loadItems. cbv zeta.
    cbn [state items]. rewrite IH.
    destruct (Z.eqb_spec (Z.of_nat (S m)) 1) as [E1|_]; [lia|].
    rewrite (getItems_items getTime (Z.of_nat (S m)) limit db) by lia.
    replace (Z.to_nat ((Z.of_nat (S m) - 1) * limit)) with (m * Z.to_nat limit)%nat by nia.
    rewrite firstn_more. f_equal. lia.
Qed.

End ScrollingFacts.

Section ScrollingExtras.

Import DatabaseService WishlistStore WishlistActions Wording.

Variable getTime : string -> Z.

(** X24.  Scrolling.  After the pages [1] to [n] have been loaded one after the
    other from an unchanged database, the store shows the first
    [n * limit] entries, newest first, and the right total; when the last
    page reports that nothing is left, the store shows every stored entry
    exactly once. *)
Theorem scrolling_shows_every_entry (n : nat) (limit : Z) (v : View) (db : Storage) :
  (1 <= n)%nat -> (0 < limit)%Z ->
  let v' := loadUpTo getTime n limit v db in
  let sorted := DatabaseQueries.sortByDate getTime (getAllItems db) in
  items (state v') = List.firstn (n * Z.to_nat limit) sorted
  /\ newestFirst getTime (items (state v'))
  /\ countsAgree v' db
  /\ currentPage v' = Z.of_nat n
  /\ loadingState (state v') = SUCCESS
  /\ error (state v') = None
  /\ (hasMore v' = false ->
      items (state v') = sorted /\ Permutation (getAllItems db) (items (state v'))).
Proof.
  intros Hn Hl. destruct n as [|n]; [lia|]. cbv zeta.
  pose proof (loadUpTo_items getTime n limit v db Hl) as Hitems.
  split; [exact Hitems|].
  split; [rewrite Hitems; apply newestFirst_firstn, sortByDate_sorted|].
  split; [reflexivity|]. split; [reflexivity|]. split; [reflexivity|].
  split; [reflexivity|].
  intro Hmore. rewrite Hitems.
  assert (Hall : List.firstn (S n * Z.to_nat limit)
                             (DatabaseQueries.sortByDate getTime (getAllItems db))
                 = DatabaseQueries.sortByDate getTime (getAllItems db)).
  { apply firstn_all2. rewrite sortByDate_length.
    cbn [loadUpTo] in Hmore. unfold loadItems in Hmore. cbv zeta in Hmore.
    cbn [hasMore] in Hmore. unfold DatabaseQueries.getItems in Hmore.
    cbv zeta in Hmore. cbn [DatabaseQueries.hasMore] in Hmore.
    apply Z.ltb_ge in Hmore. nia. }
  rewrite Hall. split; [reflexivity | apply sortByDate_permutation].
Qed.

End ScrollingExtras.

Section StoreCountExtras.

Import DatabaseService WishlistStore WishlistActions Wording.

Lemma filter_distinct_id (itemId : string) (l : list WishlistItem) :
  NoDup (List.map id l) ->
  List.existsb (fun item => String.eqb (id item) itemId) l = true ->
  S (List.length (List.filter (fun item => negb (String.eqb (id item) itemId)) l))
  = List.length l.
Proof.
  induction l as [|x l IH]; [discriminate|].
  cbn [List.map List.existsb List.filter List.length]. intros Hnd Hex.
  inversion Hnd as [|? ? Hnotin Hnd']; subst.
  destruct (String.eqb_spec (id x) itemId) as [E|E]; cbn [negb].
  - f_equal. rewrite filter_all_true; [reflexivity|].
    apply forallb_forall. intros y Hy. apply negb_true_iff, String.eqb_neq.
    intro Ey. apply Hnotin. rewrite E, <- Ey. apply in_map. exact Hy.
  - cbn [orb] in Hex. cbn [List.length]. f_equal. apply IH; assumption.
Qed.

(** X25.  The count shown by the store stays right.  When [totalItems] is the
    number of stored entries, it still is after adding an item, with or
    without a preview, whether the database accepts or refuses it, and
    after updating an item; after deleting an item it still is, provided
    no two stored entries share an identifier. *)
Theorem store_count_stays_right (v : View) (db : Storage) :
  countsAgree v db ->
  (forall newId now url,
      countsAgree (fst (addItem newId now url v db)) (snd (addItem newId now url v db)))
  /\ (forall newId now preview,
         countsAgree (fst (addItemWithPreview newId now preview v db))
                     (snd (addItemWithPreview newId now preview v db)))
  /\ (forall itemId updates now,
         countsAgree (fst (updateItem itemId updates now v db))
                     (snd (updateItem itemId updates now v db)))
  /\ (forall itemId,
         distinctIds db ->
         countsAgree (fst (deleteItem itemId v db)) (snd (deleteItem itemId v db))).
Proof.
  unfold countsAgree. intro H.
  assert (Hadd : forall newId now item,
             match DatabaseService.addItem newId now item db with
             | (Returned _, db') =>
                 Z.of_nat (List.length (getAllItems db'))
                 = (Z.of_nat (List.length (getAllItems db)) + 1)%Z
             | (Thrown _, db') => db' = db
             end).
  { intros newId now item. unfold DatabaseService.addItem. cbv zeta.
    destruct (List.existsb _ (getAllItems db)); [reflexivity|].
    cbn [getAllItems saveItems wishlist]. rewrite length_app. cbn [List.length]. lia. }
  repeat split.
  - intros newId now url. unfold addItem.
    specialize (Hadd newId now (itemFromUrl url)).
    destruct (DatabaseService.addItem newId now (itemFromUrl url) db) as [[item|e] db'];
      cbn [fst snd state totalItems].
    + rewrite Hadd, H. reflexivity.
    + rewrite Hadd. exact H.
  - intros newId now preview. unfold addItemWithPreview, WishlistStore.addItemWithPreview.
    specialize (Hadd newId now preview).
    destruct (DatabaseService.addItem newId now preview db) as [[item|e] db'];
      cbn [fst snd state totalItems].
    + rewrite Hadd, H. reflexivity.
    + rewrite Hadd. exact H.
  - intros itemId updates now. unfold updateItem, DatabaseService.updateItem.
    pose proof (updateFirst_spec itemId updates now (getAllItems db)) as Hu.
    destruct (updateFirst itemId updates now (getAllItems db)) as [[merged items']|];
      cbn [fst snd state totalItems]; [|exact H].
    destruct Hu as (before & old & after & E & _ & _ & _ & ->).
    cbn [getAllItems saveItems wishlist]. rewrite H, E, !length_app. reflexivity.
  - intros itemId Hd. unfold deleteItem, DatabaseService.deleteItem. cbv zeta.
    rewrite filter_length_all.
    destruct (List.forallb _ (getAllItems db)) eqn:Ef; cbn [fst snd state totalItems];
      [exact H|].
    cbn [getAllItems saveItems wishlist]. rewrite H.
    rewrite <- (filter_distinct_id itemId (getAllItems db) Hd); [lia|].
    destruct (List.existsb _ (getAllItems db)) eqn:Ex; [reflexivity|].
    exfalso. rewrite <- not_true_iff_false in Ef. apply Ef.
    apply forallb_forall. intros x Hx. apply negb_true_iff.
    destruct (String.eqb (id x) itemId) eqn:E; [|reflexivity].
    assert (List.existsb (fun item => String.eqb (id item) itemId) (getAllItems db) = true)
      by (apply existsb_exists; eauto).
    congruence.
Qed.

(** X26.  [addItem(url)] of the store never canonicalises: it stores the URL as
    it was typed, as [originalUrl] and as [normalizedUrl], and the
    duplicate check compares that string.  The item is refused as a
    duplicate exactly when a stored entry has that very string as its
    [normalizedUrl]. *)
Theorem store_addItem_keeps_raw_url
        (newId now url : string) (v : View) (db : Storage) :
  (itemExists url db = true ->
   snd (addItem newId now url v db) = db
   /\ items (state (fst (addItem newId now url v db))) = items (state v)
   /\ loadingState (state (fst (addItem newId now url v db))) = ERROR
   /\ error (state (fst (addItem newId now url v db)))
      = Some (mkAppError DUPLICATE "This item is already in your wishlist" false))
  /\ (itemExists url db = false ->
      exists newItem,
        getAllItems (snd (addItem newId now url v db)) = (getAllItems db ++ [newItem])%list
        /\ items (state (fst (addItem newId now url v db))) = newItem :: items (state v)
        /\ originalUrl newItem = url
        /\ normalizedUrl newItem = Some url
        /\ loadingState (state (fst (addItem newId now url v db))) = SUCCESS
        /\ error (state (fst (addItem newId now url v db))) = None).
Proof.
  unfold addItem, DatabaseService.addItem, itemExists. cbv zeta.
  change (n_normalizedUrl (itemFromUrl url)) with url.
  split; intro H; rewrite H; cbn [fst snd state items loadingState error].
  - repeat split.
  - eexists. repeat split.
Qed.

End StoreCountExtras.

Section StoreExtrasWitness.

Import DatabaseService WishlistStore WishlistActions Wording ClockScenario StoreScenario.

Lemma scrolling_shows_every_entry_witness :
  let v' := loadUpTo isoDigits 2 1 initialView twoItems in
  let sorted := DatabaseQueries.sortByDate isoDigits (getAllItems twoItems) in
  items (state v') = List.firstn 2 sorted
  /\ newestFirst isoDigits (items (state v'))
  /\ countsAgree v' twoItems
  /\ currentPage v' = 2%Z
  /\ loadingState (state v') = SUCCESS
  /\ error (state v') = None
  /\ (hasMore v' = false ->
      items (state v') = sorted /\ Permutation (getAllItems twoItems) (items (state v'))).
Proof.
  apply (scrolling_shows_every_entry isoDigits 2 1 initialView twoItems); lia.
Defined.

Lemma store_count_stays_right_witness :
  let v := loadItems isoDigits 1 20 initialView twoItems in
  countsAgree (fst (addItem "3" "2024-02-01T00:00:00.000Z" "https://c.com/chair" v twoItems))
              (snd (addItem "3" "2024-02-01T00:00:00.000Z" "https://c.com/chair" v twoItems))
  /\ countsAgree (fst (deleteItem "1" v twoItems)) (snd (deleteItem "1" v twoItems)).
Proof.
  cbv zeta.
  assert (H : countsAgree (loadItems isoDigits 1 20 initialView twoItems) twoItems)
    by reflexivity.
  split.
  - exact (proj1 (store_count_stays_right _ twoItems H)
                 "3" "2024-02-01T00:00:00.000Z" "https://c.com/chair").
  - refine (proj2 (proj2 (proj2 (store_count_stays_right _ twoItems H))) "1" _).
    unfold distinctIds. cbn. repeat constructor; cbn; intuition discriminate.
Defined.

Lemma store_addItem_keeps_raw_url_witness :
  let v := loadItems isoDigits 1 20 initialView twoItems in
  (snd (addItem "3" "2024-02-01T00:00:00.000Z" "https://a.com/lamp" v twoItems) = twoItems
   /\ items (state (fst (addItem "3" "2024-02-01T00:00:00.000Z" "https://a.com/lamp"
                                 v twoItems)))
      = items (state v)
   /\ loadingState (state (fst (addItem "3" "2024-02-01T00:00:00.000Z" "https://a.com/lamp"
                                        v twoItems))) = ERROR
   /\ error (state (fst (addItem "3" "2024-02-01T00:00:00.000Z" "https://a.com/lamp"
                                 v twoItems)))
      = Some (mkAppError DUPLICATE "This item is already in your wishlist" false))
  /\ exists newItem,
       getAllItems (snd (addItem "3" "2024-02-01T00:00:00.000Z" "https://a.com/lamp/"
                                 v twoItems))
       = (getAllItems twoItems ++ [newItem])%list
       /\ items (state (fst (addItem "3" "2024-02-01T00:00:00.000Z" "https://a.com/lamp/"
                                     v twoItems)))
          = newItem :: items (state v)
       /\ originalUrl newItem = "https://a.com/lamp/"
       /\ normalizedUrl newItem = Some "https://a.com/lamp/"
       /\ loadingState (state (fst (addItem "3" "2024-02-01T00:00:00.000Z"
                                            "https://a.com/lamp/" v twoItems))) = SUCCESS
       /\ error (state (fst (addItem "3" "2024-02-01T00:00:00.000Z"
                                     "https://a.com/lamp/" v twoItems))) = None.
Proof.
  cbv zeta. split.
  - exact (proj1 (store_addItem_keeps_raw_url "3" "2024-02-01T00:00:00.000Z"
                    "https://a.com/lamp"
                    (loadItems isoDigits 1 20 initialView twoItems) twoItems)
                 eq_refl).
  - exact (proj2 (store_addItem_keeps_raw_url "3" "2024-02-01T00:00:00.000Z"
                    "https://a.com/lamp/"
                    (loadItems isoDigits 1 20 initialView twoItems) twoItems)
                 eq_refl).
Defined.

End StoreExtrasWitness.

(* ================================================================== *)
(** * What a pattern captures *)

Section RegexFacts.

Import Regex RegexShape.

Lemma take_append (t s : string) : take (String.length t) (t ++ s) = t.
Proof. induction t as [|c t IH]; [destruct s; reflexivity|]. cbn. rewrite IH. reflexivity. Qed.

Lemma consumed_append (t s : string) : consumed (t ++ s) s = t.
Proof.
  unfold consumed. rewrite length_append.
  replace (String.length t + String.length s - String.length s)%nat
    with (String.length t) by lia.
  apply take_append.
Qed.

(** A pattern without a group consumes a prefix of the input made of
    characters of its classes, and leaves the capture alone. *)
Lemma run_consumes (R : Type) (q : ascii -> bool) (r : Re) :
  groupFree r = true -> within q r ->
  forall (s : string) (capture : option string)
         (k : string -> option string -> option R) (x : R),
    run r s capture k = Some x ->
    exists t s', s = t ++ s' /\ Js.forallb q t = true /\ k s' capture = Some x.
Proof.
  induction r as [|p|r1 IH1 r2 IH2|r1 IH1 r2 IH2|r1 IH1|r1 IH1];
    cbn [groupFree within]; intros Hfree Hin s capture k x H.
  - exists "", s. auto.
  - cbn [run] in H. destruct s as [|c s]; [discriminate|].
    destruct (p c) eqn:Ep; [|discriminate].
    exists (String c ""), s. cbn. rewrite (Hin c Ep). auto.
  - apply andb_true_iff in Hfree as [F1 F2]. destruct Hin as [W1 W2].
    cbn [run] in H.
    destruct (IH1 F1 W1 _ _ _ _ H) as (t1 & s1 & -> & Q1 & H1).
    destruct (IH2 F2 W2 _ _ _ _ H1) as (t2 & s2 & -> & Q2 & H2).
    exists (t1 ++ t2), s2. rewrite append_assoc, forallb_append, Q1, Q2. auto.
  - apply andb_true_iff in Hfree as [F1 F2]. destruct Hin as [W1 W2].
    cbn [run] in H. destruct (run r1 s capture k) as [y|] eqn:E1.
    + injection H as <-. exact (IH1 F1 W1 _ _ _ _ E1).
    + exact (IH2 F2 W2 _ _ _ _ H).
  - cbn [run] in H. revert H. generalize (String.length s) at 1. intro fuel.
    revert s. induction fuel as [|fuel IHf]; intros s H.
    + exists "", s. auto.
    + match type of H with
      | match ?m with _ => _ end = _ => destruct m as [y|] eqn:E1
      end.
      * injection H as <-.
        destruct (IH1 Hfree Hin _ _ _ _ E1) as (t1 & s1 & -> & Q1 & H1).
        destruct (String.length s1 <? String.length (t1 ++ s1))%nat; [|discriminate].
        destruct (IHf _ H1) as (t2 & s2 & -> & Q2 & H2).
        exists (t1 ++ t2), s2. rewrite append_assoc, forallb_append, Q1, Q2. auto.
      * exists "", s. auto.
  - discriminate.
Qed.

(** The body of a group consumes a [text]. *)
Lemma run_headed (R : Type) (first q : ascii -> bool) (g : Re) :
  headed first q g ->
  forall (s : string) (capture : option string)
         (k : string -> option string -> option R) (x : R),
    run g s capture k = Some x ->
    exists t s', s = t ++ s' /\ text first q t /\ k s' capture = Some x.
Proof.
  destruct g as [| |[|p| | | |] g'| | |]; try contradiction.
  intros (Hp & Hfree & Hin) s capture k x H. cbn [run] in H.
  destruct s as [|c s]; [discriminate|].
  destruct (p c) eqn:Ep; [|discriminate].
  destruct (run_consumes R q g' Hfree Hin _ _ _ _ H) as (t & s' & -> & Q & H').
  exists (String c t), s'. split; [reflexivity|]. split; [|exact H'].
  exists c, t. auto.
Qed.

(** What a match leaves in the capture. *)
Lemma run_captured (R : Type) (first q : ascii -> bool) (r : Re) :
  groups first q r ->
  forall (s : string) (capture : option string)
         (k : string -> option string -> option R) (x : R),
    run r s capture k = Some x ->
    exists s' capture',
      k s' capture' = Some x /\ captured first q (captures r) capture capture'.
Proof.
  induction r as [|p|r1 IH1 r2 IH2|r1 IH1 r2 IH2|r1 IH1|g IHg];
    cbn [groups captures]; intros Hg s capture k x H.
  - exists s, capture. split; [exact H | right; auto].
  - cbn [run] in H. destruct s as [|c s]; [discriminate|].
    destruct (p c); [|discriminate].
    exists s, capture. split; [exact H | right; auto].
  - destruct Hg as [G1 G2]. cbn [run] in H.
    destruct (IH1 G1 _ _ _ _ H) as (s1 & c1 & H1 & C1).
    destruct (IH2 G2 _ _ _ _ H1) as (s2 & c2 & H2 & C2).
    exists s2, c2. split; [exact H2|].
    destruct C2 as [C2 | [E2 ->]]; [left; exact C2|].
    destruct C1 as [C1 | [E1 ->]]; [left; exact C1|].
    right. rewrite E1, E2. auto.
  - destruct Hg as [G1 G2]. cbn [run] in H.
    destruct (run r1 s capture k) as [y|] eqn:E1.
    + injection H as <-.
      destruct (IH1 G1 _ _ _ _ E1) as (s1 & c1 & H1 & C1).
      exists s1, c1. split; [exact H1|].
      destruct C1 as [C1 | [E ->]]; [left; exact C1|].
      right. rewrite E. auto.
    + destruct (IH2 G2 _ _ _ _ H) as (s2 & c2 & H2 & C2).
      exists s2, c2. split; [exact H2|].
      destruct C2 as [C2 | [E ->]]; [left; exact C2|].
      right. rewrite E. split; [apply andb_false_r | reflexivity].
  - destruct (run_consumes R (fun _ => true) (Star r1)) with (1 := Hg) (3 := H)
      as (t & s' & _ & _ & H').
    { clear. induction r1; cbn; auto. }
    exists s', capture. split; [exact H' | right; auto].
  - cbn [run] in H.
    destruct (run_headed R first q g Hg _ _ _ _ H) as (t & s' & -> & T & H').
    rewrite consumed_append in H'.
    exists s', (Some t). split; [exact H' | left; eauto].
Qed.

(** A match found by [search]. *)
Lemma search_sure (first q : ascii -> bool) (r : Re) (s : string)
      (capture : option string) :
  groups first q r -> captures r = true ->
  search r s = Some capture ->
  exists t, capture = Some t /\ text first q t.
Proof.
  intros Hg Hc. induction s as [|c s IH]; cbn [search]; unfold matchAt.
  - destruct (run r "" None _) as [y|] eqn:E; [|discriminate].
    intro H. injection H as <-.
    destruct (run_captured _ first q r Hg _ _ _ _ E) as (s' & c' & H' & C).
    injection H' as <-. destruct C as [C | [E' _]]; [exact C | congruence].
  - destruct (run r (String c s) None _) as [y|] eqn:E; [|exact IH].
    intro H. injection H as <-.
    destruct (run_captured _ first q r Hg _ _ _ _ E) as (s' & c' & H' & C).
    injection H' as <-. destruct C as [C | [E' _]]; [exact C | congruence].
Qed.

Lemma LitI_shape (first q : ascii -> bool) (s : string) :
  groups first q (LitI s) /\ captures (LitI s) = false.
Proof. induction s as [|c s [IH1 IH2]]; cbn; auto. Qed.

End RegexFacts.

Section HttpScanFacts.

Import Regex RegexShape HttpScan Wording.

Lemma titlePattern_shape :
  groups (fun _ => true) (fun _ => true) titlePattern /\ captures titlePattern = true.
Proof. cbn. repeat split; auto. Qed.

Lemma metaPattern_shape (property : string) :
  groups (fun _ => true) (fun _ => true) (metaPattern property)
  /\ captures (metaPattern property) = true.
Proof.
  unfold metaPattern. cbn [Seq groups captures].
  destruct (LitI_shape (fun _ => true) (fun _ => true) property) as [G C].
  destruct (LitI_shape (fun _ => true) (fun _ => true) "<meta") as [G1 _].
  destruct (LitI_shape (fun _ => true) (fun _ => true) "property=") as [G2 _].
  destruct (LitI_shape (fun _ => true) (fun _ => true) "content=") as [G3 _].
  split.
  - repeat split; auto.
  - rewrite C. cbn. repeat rewrite orb_true_r. reflexivity.
Qed.

Lemma price_patterns_shape :
  Forall (fun pattern => groups Js.is_digit priceChar (fst pattern)
                         /\ captures (fst pattern) = true
                         /\ In (snd pattern) currencies)
         PRICE_PATTERNS.
Proof.
  unfold PRICE_PATTERNS, currencies.
  repeat constructor; cbn; auto 6;
    repeat split; auto;
    intros c H; unfold priceChar, exactly in *; rewrite H;
    repeat rewrite orb_true_r; reflexivity.
Qed.

(** An assignment from a match never throws: the group takes part in
    every match of these patterns. *)
Lemma assignMatch_returns (pattern : Re) (html : string)
      (assign : string -> ExtractionResult -> ExtractionResult) (r : ExtractionResult) :
  groups (fun _ => true) (fun _ => true) pattern -> captures pattern = true ->
  exists r', assignMatch pattern html assign r = Some r'
             /\ (r' = r \/ exists v, r' = assign v r).
Proof.
  intros G C. unfold assignMatch.
  destruct (search pattern html) as [capture|] eqn:E; [|eauto].
  destruct (search_sure _ _ _ _ _ G C E) as (t & -> & _). eauto.
Qed.

Lemma removeCommas_price (t : string) :
  text Js.is_digit priceChar t -> priceText (removeCommas t).
Proof.
  intros (c & t' & -> & Hc & Ht). unfold priceText, text, removeCommas.
  cbn [Js.filter].
  assert (Hd : negb (Ascii.eqb c ",") = true).
  { revert Hc. clear. each_ascii c; vm_compute; intro; try discriminate; reflexivity. }
  rewrite Hd. exists c, (Js.filter (fun x => negb (Ascii.eqb x ",")) t').
  split; [reflexivity|]. split; [exact Hc|].
  clear - Ht. induction t' as [|x t' IH]; [reflexivity|].
  cbn [Js.forallb] in Ht. apply andb_true_iff in Ht as [Hx Ht].
  cbn [Js.filter]. destruct (Ascii.eqb x ",") eqn:E; cbn [negb]; [exact (IH Ht)|].
  cbn [Js.forallb]. rewrite (IH Ht), andb_true_r.
  unfold priceChar in Hx. rewrite E, orb_false_r in Hx. exact Hx.
Qed.

Lemma firstPrice_returns (patterns : list (Re * string)) (priceText' : string)
      (r : ExtractionResult) :
  Forall (fun pattern => groups Js.is_digit priceChar (fst pattern)
                         /\ captures (fst pattern) = true
                         /\ In (snd pattern) currencies)
         patterns ->
  exists r', firstPrice patterns priceText' r = Some r'
             /\ (r' = r
                 \/ exists p c, r' = setPrice p c r /\ priceText p /\ In c currencies).
Proof.
  induction 1 as [|[pattern currency] rest (G & C & Hin) _ IH]; cbn [firstPrice];
    [eauto|].
  cbn [fst snd] in *.
  destruct (search pattern priceText') as [capture|] eqn:E; [|exact IH].
  destruct (search_sure _ _ _ _ _ G C E) as (t & -> & T).
  eexists. split; [reflexivity|]. right. exists (removeCommas t), currency.
  split; [reflexivity|]. split; [apply removeCommas_price; exact T | exact Hin].
Qed.

Lemma extractFromHTML_shape (html : string) (urlObj : WhatwgUrl.URL) :
  let r := extractFromHTML html urlObj in
  (exists s, siteName r = Val s) /\ onlyScannedKeys r /\ pricedOrNot r.
Proof.
  cbv zeta. unfold extractFromHTML. cbn [runSteps].
  assert (Hstep : forall pattern assign r,
             groups (fun _ => true) (fun _ => true) pattern -> captures pattern = true ->
             (forall v r0, beforeSiteName r0 -> beforeSiteName (assign v r0)) ->
             beforeSiteName r ->
             exists r', assignMatch pattern html assign r = Some r' /\ beforeSiteName r').
  { intros pattern assign r G C Hassign Hr.
    destruct (assignMatch_returns pattern html assign r G C) as (r' & E & [-> | [v ->]]);
      eauto. }
  assert (H0 : beforeSiteName emptyResult) by (repeat split).
  assert (Ht : forall v r0, beforeSiteName r0 -> beforeSiteName (setTitle v r0))
    by (intros v r0 H; exact H).
  assert (Hi : forall v r0, beforeSiteName r0 -> beforeSiteName (setImage v r0))
    by (intros v r0 H; exact H).
  assert (Hd : forall v r0, beforeSiteName r0 -> beforeSiteName (setDescription v r0))
    by (intros v r0 H; exact H).
  destruct (Hstep titlePattern setTitle emptyResult
                  (proj1 titlePattern_shape) (proj2 titlePattern_shape) Ht H0)
    as (r1 & -> & H1).
  destruct (Hstep (metaPattern "og:title") setTitle r1
                  (proj1 (metaPattern_shape _)) (proj2 (metaPattern_shape _)) Ht H1)
    as (r2 & -> & H2).
  destruct (Hstep (metaPattern "og:image") setImage r2
                  (proj1 (metaPattern_shape _)) (proj2 (metaPattern_shape _)) Hi H2)
    as (r3 & -> & H3).
  destruct (Hstep (metaPattern "og:description") setDescription r3
                  (proj1 (metaPattern_shape _)) (proj2 (metaPattern_shape _)) Hd H3)
    as (r4 & -> & H4).
  assert (Hsite : exists s, siteNameStep html urlObj r4 = Some (setSiteName s r4)).
  { unfold siteNameStep.
    destruct (search (metaPattern "og:site_name") html) as [capture|] eqn:E; [|eauto].
    destruct (search_sure _ _ _ _ _ (proj1 (metaPattern_shape _))
                          (proj2 (metaPattern_shape _)) E) as (t & -> & _).
    eauto. }
  destruct Hsite as (s & ->).
  unfold extractPriceInfo. cbv zeta.
  destruct (firstPrice_returns PRICE_PATTERNS
              (orBlank (title (setSiteName s r4)) ++ " "
               ++ orBlank (description (setSiteName s r4)))
              (setSiteName s r4) price_patterns_shape)
    as (r6 & -> & Hr6).
  destruct H4 as (Hkeys & Hp & Hc).
  destruct Hr6 as [-> | (p & c & -> & Hprice & Hcur)].
  - split; [exists s; reflexivity|]. split; [exact Hkeys|]. left. auto.
  - split; [exists s; reflexivity|]. split; [exact Hkeys|]. right.
    exists p, c. auto.
Qed.

End HttpScanFacts.

Section HttpScanExtras.

Import Regex RegexShape HttpScan Wording ExtractionService Pipeline.

(** X27.  The record that the HTTP strategy returns, whatever the response
    is.  The strategy returns one exactly for a fetched response and a URL
    that parses, and the record is the scan of the response body.  It
    always has a site name, the Open Graph one or the host name of the
    URL.  The price and the currency are written together or not at all; a
    price starts with a digit and goes on with digits and dots, the commas
    of the matched text being removed, and the currency is one of INR,
    USD, EUR and GBP.  The keys other than title, image, description, site
    name, price and currency are never written. *)
Theorem http_scan_record (httpClient : string -> Completion.t string)
        (url : string) (r : ExtractionResult) :
  HttpExtractor.extract httpClient extractFromHTML url = Returned r ->
  (exists data urlObj,
      httpClient url = Returned data
      /\ WhatwgUrl.parse url = Some urlObj
      /\ r = extractFromHTML data urlObj)
  /\ (exists s, siteName r = Val s) /\ onlyScannedKeys r /\ pricedOrNot r.
Proof.
  unfold HttpExtractor.extract. intro H.
  destruct (httpClient url) as [data|e]; [|discriminate].
  cbn [Completion.bind] in H.
  destruct (WhatwgUrl.parse url) as [urlObj|]; [|discriminate].
  injection H as <-. split.
  - exists data, urlObj. repeat split.
  - apply (extractFromHTML_shape data urlObj).
Qed.

Lemma http_scan_record_witness :
  let r := mkExtractionResult
             (Val "Blue desk lamp with brass stand - Rs. 1,299.50")
             (Val "https://shop.example.com/lamp.png") Absent
             (Val "1299.50") (Val "INR") Absent Absent (Val "shop.example.com")
             Absent Absent Absent Absent Absent Absent Absent Absent Absent in
  (exists data urlObj,
      ShopScenario.shopClient "https://shop.example.com/lamp" = Returned data
      /\ WhatwgUrl.parse "https://shop.example.com/lamp" = Some urlObj
      /\ r = extractFromHTML data urlObj)
  /\ (exists s, siteName r = Val s) /\ onlyScannedKeys r /\ pricedOrNot r.
Proof.
  apply (http_scan_record ShopScenario.shopClient "https://shop.example.com/lamp").
  vm_compute. reflexivity.
Defined.

(** X28.  Every outcome of the HTTP strategy has confidence 0.9: a record
    that passes the quality gate has a title, the scan always adds a site
    name, and two non-null fields already earn the full bonus. *)
Theorem http_outcome_confidence
        (httpClient : string -> Completion.t string)
        (isConfigured : bool) (analyse : string -> Completion.t ExtractionResult)
        (url : string) (options : ExtractionOptions) (o : Outcome) :
  extract (Container.extractors httpClient extractFromHTML isConfigured analyse)
          url options = Returned o ->
  method o = HTTP_EXTRACTION ->
  (confidence o == 9 # 10)%Q
  /\ (exists s, siteName (result o) = Val s)
  /\ (2 <= fieldsCount (result o))%nat.
Proof.
  intros H Hm.
  destruct (extract_returned _ _ _ _ H) as (ex & Hin & Hv & Hmethod & Hc).
  destruct (verdict_accepted _ _ _ _ Hv) as (_ & _ & Hex & Hgood).
  destruct (hasGoodData_title _ Hgood) as (t & Ht & _).
  assert (Hsite : exists s, siteName (result o) = Val s).
  { destruct Hin as [<- | [<- | [<- | []]]].
    - cbn [Types.extract HttpExtractor.instance] in Hex.
      unfold HttpExtractor.extract in Hex.
      destruct (httpClient url) as [data|e]; [|discriminate].
      cbn [Completion.bind] in Hex.
      destruct (WhatwgUrl.parse url) as [u|]; [|discriminate].
      injection Hex as <-. apply (extractFromHTML_shape data u).
    - rewrite Hm in Hmethod. discriminate.
    - rewrite Hm in Hmethod. discriminate. }
  assert (Hn : (2 <= fieldsCount (result o))%nat).
  { destruct Hsite as (s & Hs). unfold fieldsCount. rewrite Ht, Hs. cbn [nonNull]. lia. }
  split; [|split; assumption].
  rewrite Hc, Hm. unfold calculateConfidence.
  rewrite bonus_many by exact Hn. reflexivity.
Qed.

Lemma http_outcome_confidence_witness :
  let r := mkExtractionResult
             (Val "Blue desk lamp with brass stand - Rs. 1,299.50")
             (Val "https://shop.example.com/lamp.png") Absent
             (Val "1299.50") (Val "INR") Absent Absent (Val "shop.example.com")
             Absent Absent Absent Absent Absent Absent Absent Absent Absent in
  let o := mkOutcome r HTTP_EXTRACTION (calculateConfidence r HTTP_EXTRACTION) in
  (confidence o == 9 # 10)%Q
  /\ (exists s, siteName (result o) = Val s)
  /\ (2 <= fieldsCount (result o))%nat.
Proof.
  apply (http_outcome_confidence ShopScenario.shopClient false
           (fun _ => Thrown (ErrorObject "OpenAI API key not configured"))
           "https://shop.example.com/lamp" noOptions).
  - vm_compute. reflexivity.
  - reflexivity.
Defined.

End HttpScanExtras.

(* ================================================================== *)
(** * The scans of the preview service *)

Section ResolveFacts.

Import PlainUrl Wording UrlNormalizationService PreviewScan.

Lemma prefix_split (p s : string) :
  String.prefix p s = true -> exists rest, s = p ++ rest.
Proof.
  revert s. induction p as [|c p IH]; intros s H; [exists s; reflexivity|].
  destruct s as [|d s]; [discriminate|]. cbn in H.
  destruct (ascii_dec c d) as [->|]; [|discriminate].
  destruct (IH s H) as [rest ->]. exists rest. reflexivity.
Qed.

Lemma dropWhile_append (p : ascii -> bool) (x y : string) :
  y <> "" -> stops p y -> Js.dropWhile p (x ++ y) = Js.dropWhile p x ++ y.
Proof.
  intros Hy Hs. unfold Js.dropWhile. induction x as [|c x IH].
  - cbn. rewrite span_stops by exact Hs. reflexivity.
  - cbn [append Js.span]. destruct (p c); [|reflexivity].
    destruct (Js.span p (x ++ y)) as [a b]. destruct (Js.span p x) as [a' b'].
    exact IH.
Qed.

(** Trailing characters are dropped from the end of the second part
    only, when the first part ends with a character that stays. *)
Lemma dropWhileEnd_append (p : ascii -> bool) (a b : string) :
  a <> "" -> stops p (Js.rev a) ->
  Js.dropWhileEnd p (a ++ b) = a ++ Js.dropWhileEnd p b.
Proof.
  intros Ha Hs. unfold Js.dropWhileEnd.
  rewrite rev_append, dropWhile_append, rev_append, rev_involutive; auto.
  intro E. apply Ha. apply rev_empty. exact E.
Qed.

Lemma filter_append (f : ascii -> bool) (a b : string) :
  Js.filter f (a ++ b) = Js.filter f a ++ Js.filter f b.
Proof.
  induction a as [|c a IH]; [reflexivity|]. cbn. destruct (f c); cbn; rewrite IH; reflexivity.
Qed.

(** The parser's clean-up leaves a scheme and its slashes at the start
    of the address alone. *)
Lemma preprocess_prefix (secure : bool) (rest : string) :
  exists rest',
    WhatwgUrl.preprocess ((if secure then "https://" else "http://") ++ rest)
    = (if secure then "https" else "http") ++ ":" ++ String "/" (String "/" rest').
Proof.
  unfold WhatwgUrl.preprocess.
  exists (Js.filter (fun c => negb (WhatwgUrl.is_tab_or_newline c))
                    (Js.dropWhileEnd WhatwgUrl.is_c0_or_space rest)).
  rewrite dropWhile_stops by (destruct secure; reflexivity).
  rewrite dropWhileEnd_append;
    [|destruct secure; discriminate | destruct secure; reflexivity].
  rewrite filter_append. destruct secure; reflexivity.
Qed.

(** An address that starts with [http://] or [https://] and that the
    URL parser accepts has that protocol. *)
Lemma parse_http_protocol (baseUrl : string) (base : WhatwgUrl.URL) :
  hasHttpPrefix baseUrl = true ->
  WhatwgUrl.parse baseUrl = Some base ->
  WhatwgUrl.protocol base = "http:" \/ WhatwgUrl.protocol base = "https:".
Proof.
  intros Hp. unfold hasHttpPrefix, Js.startsWith in Hp.
  assert (E : exists (secure : bool) (rest : string),
             baseUrl = (if secure then "https://" else "http://") ++ rest).
  { apply orb_true_iff in Hp as [H|H]; apply prefix_split in H as [rest ->].
    - exists false, rest. reflexivity.
    - exists true, rest. reflexivity. }
  destruct E as (secure & rest & ->).
  unfold WhatwgUrl.parse.
  destruct (preprocess_prefix secure rest) as [rest' ->].
  rewrite parse_scheme_http.
  assert (F : String.eqb (if secure then "https" else "http") "file" = false)
    by (destruct secure; reflexivity).
  assert (S : WhatwgUrl.is_special (if secure then "https" else "http") = true)
    by (destruct secure; reflexivity).
  rewrite F, S. intro H.
  destruct (parse_authority_facts _ _ _ _ H) as [-> _].
  destruct secure; auto.
Qed.

Lemma resolveRelativeUrl_absolute (url baseUrl : string) :
  hasHttpPrefix baseUrl = true ->
  isValidUrl baseUrl = true ->
  exists resolved,
    resolveRelativeUrl url baseUrl = Returned resolved
    /\ hasHttpPrefix resolved = true.
Proof.
  intros Hp Hv. unfold resolveRelativeUrl.
  destruct (Js.startsWith url "http://" || Js.startsWith url "https://") eqn:E1;
    [exists url; auto|].
  destruct (Js.startsWith url "//") eqn:E2.
  { eexists. split; [reflexivity|].
    change ("https:" ++ url) with ("https:" ++ "" ++ url).
    apply prefix_split in E2 as [rest ->].
    change ("https:" ++ "" ++ "//" ++ rest) with ("https://" ++ rest).
    unfold hasHttpPrefix.
    rewrite (startsWith_append "https://" rest "https://" eq_refl). apply orb_true_r. }
  destruct (Js.startsWith url "/") eqn:E3.
  - unfold isValidUrl in Hv.
    destruct (WhatwgUrl.parse baseUrl) as [base|] eqn:Eb; [|discriminate].
    eexists. split; [reflexivity|]. unfold hasHttpPrefix.
    destruct (parse_http_protocol _ _ Hp Eb) as [-> | ->].
    + change ("http:" ++ "//" ++ hostOf base ++ url)
        with ("http://" ++ hostOf base ++ url).
      rewrite (startsWith_append "http://" _ "http://" eq_refl). reflexivity.
    + change ("https:" ++ "//" ++ hostOf base ++ url)
        with ("https://" ++ hostOf base ++ url).
      rewrite (startsWith_append "https://" _ "https://" eq_refl). apply orb_true_r.
  - eexists. split; [reflexivity|].
    unfold hasHttpPrefix in *. apply orb_true_iff in Hp as [H|H].
    + rewrite (startsWith_append _ _ _ H). reflexivity.
    + rewrite (startsWith_append _ _ _ H). apply orb_true_r.
Qed.

End ResolveFacts.

Section PreviewScanExtras.

Import Regex RegexShape Wording UrlNormalizationService PreviewScan.

Lemma preview_metaPattern_shape (attribute name : string) :
  groups (fun _ => true) (fun _ => true) (metaPattern attribute name)
  /\ captures (metaPattern attribute name) = true.
Proof.
  unfold metaPattern. cbn [Seq groups captures].
  destruct (LitI_shape (fun _ => true) (fun _ => true) attribute) as [G1 C1].
  destruct (LitI_shape (fun _ => true) (fun _ => true) name) as [G2 C2].
  destruct (LitI_shape (fun _ => true) (fun _ => true) "<meta") as [G3 _].
  destruct (LitI_shape (fun _ => true) (fun _ => true) "=") as [G4 _].
  destruct (LitI_shape (fun _ => true) (fun _ => true) "content=") as [G5 _].
  split.
  - repeat split; auto.
  - rewrite C1, C2. cbn. repeat rewrite orb_true_r. reflexivity.
Qed.

(** The group of a match is a text of at least one character. *)
Lemma group1_returns (pattern : Re) (html : string) :
  groups (fun _ => true) (fun _ => true) pattern -> captures pattern = true ->
  group1 pattern html = Returned None
  \/ exists c t, group1 pattern html = Returned (Some (String c t)).
Proof.
  intros G C. unfold group1.
  destruct (search pattern html) as [capture|] eqn:E; [|auto].
  destruct (search_sure _ _ _ _ _ G C E) as (t & -> & c & t' & -> & _). eauto.
Qed.

(** X29.  The scans of the preview service never throw.  A title or a
    description that they find has at least one character.  An image URL
    that they find is resolved against the sanitised address of the page,
    when the URL parser accepts that address, into a URL that starts with
    [http://] or [https://]. *)
Theorem preview_scans_results (html url : string) :
  (exists title, extractTitle html = Returned title /\ title <> Some "")
  /\ (exists description,
         extractDescription html = Returned description /\ description <> Some "")
  /\ (isValidUrl (sanitizeUrl url) = true ->
      exists image,
        extractImageUrl html (sanitizeUrl url) = Returned image
        /\ match image with
           | Some imageUrl => hasHttpPrefix imageUrl = true
           | None => True
           end).
Proof.
  assert (Hmeta : forall attribute name,
             group1 (metaPattern attribute name) html = Returned None
             \/ exists c t,
                 group1 (metaPattern attribute name) html = Returned (Some (String c t))).
  { intros attribute name. apply group1_returns; apply preview_metaPattern_shape. }
  assert (Htitle : group1 HttpScan.titlePattern html = Returned None
                   \/ exists c t,
                       group1 HttpScan.titlePattern html = Returned (Some (String c t))).
  { apply group1_returns; apply titlePattern_shape. }
  split; [|split].
  - unfold extractTitle.
    destruct (Hmeta "property" "og:title") as [-> | (c & t & ->)]; cbn [Completion.bind].
    + destruct Htitle as [-> | (c & t & ->)]; eexists; split; try reflexivity; discriminate.
    + eexists; split; [reflexivity | discriminate].
  - unfold extractDescription.
    destruct (Hmeta "property" "og:description") as [-> | (c & t & ->)];
      cbn [Completion.bind].
    + destruct (Hmeta "name" "description") as [-> | (c & t & ->)];
        eexists; split; try reflexivity; discriminate.
    + eexists; split; [reflexivity | discriminate].
  - intro Hv. pose proof (sanitizeUrl_prefix url) as Hp.
    unfold extractImageUrl.
    destruct (Hmeta "property" "og:image") as [-> | (c & t & ->)]; cbn [Completion.bind].
    + destruct (Hmeta "name" "twitter:image") as [-> | (c & t & ->)];
        cbn [Completion.bind].
      * exists None. auto.
      * destruct (resolveRelativeUrl_absolute (String c t) _ Hp Hv) as (r & -> & Hr).
        exists (Some r). auto.
    + destruct (resolveRelativeUrl_absolute (String c t) _ Hp Hv) as (r & -> & Hr).
      exists (Some r). auto.
Qed.

Lemma preview_scans_results_witness :
  exists image,
    extractImageUrl "<meta property='og:image' content='/img/lamp.png'>"
                    "https://shop.example.com/lamp" = Returned image
    /\ match image with
       | Some imageUrl => hasHttpPrefix imageUrl = true
       | None => True
       end.
Proof.
  exact (proj2 (proj2 (preview_scans_results
                         "<meta property='og:image' content='/img/lamp.png'>"
                         "shop.example.com/lamp"))
               eq_refl).
Defined.

End PreviewScanExtras.

(* ================================================================== *)
(** * The domain of an address *)

Section DomainFacts.

Import PlainUrl UrlNormalizationService.

(** Whether the query is parsed changes the query of the record and
    nothing else. *)
Lemma construct_hostname (address : string) :
  match URLParse.construct address true with
  | Returned parsed =>
      exists unparsed,
        URLParse.construct address false = Returned unparsed
        /\ URLParse.hostname unparsed = URLParse.hostname parsed
  | Thrown e => URLParse.construct address false = Thrown e
  end.
Proof.
  unfold URLParse.construct. cbv zeta.
  repeat match goal with
         | |- context [let (_, _) := ?x in _] => destruct x
         end.
  match goal with
  | |- context [match ?c with Some _ => _ | None => _ end] => destruct c as [[u p]|]
  end.
  - eexists. split; reflexivity.
  - reflexivity.
Qed.

Lemma extractDomain_render (secure : bool) (host path : string)
      (pairs : list (string * string)) (fragment : option string) :
  wellFormed host path pairs fragment ->
  extractDomain (render secure host path pairs fragment) = stripWww host.
Proof.
  intros (Hhost & _ & _ & Hstart & Hpath & _ & Hpairs & Hfrag).
  destruct (canonicalHost_chars host Hhost) as [Hchars Hne].
  destruct Hhost as [Hparse _].
  pose proof (construct_hostname (render secure host path pairs fragment)) as H.
  rewrite (construct_plain secure host path pairs fragment) in H by assumption.
  destruct H as (unparsed & E & Hh).
  unfold extractDomain. rewrite E, Hh. cbn [parsedRecord URLParse.hostname].
  rewrite (lower_host host Hchars). reflexivity.
Qed.

End DomainFacts.

Section DomainExtras.

Import PlainUrl UrlNormalizationService UrlPreviewService.

(** X30.  The domain of a plain address is the host of its canonical URL: the
    host without one leading [www.].  A preview built for such an
    address carries that domain and that canonical URL. *)
Theorem extractDomain_is_canonical_host
        (secure : bool) (host path : string)
        (pairs : list (string * string)) (fragment : option string) :
  wellFormed host path pairs fragment ->
  let address := render secure host path pairs fragment in
  extractDomain address = stripWww host
  /\ (exists rest, normalizeUrl address = Returned ("https://" ++ stripWww host ++ rest))
  /\ forall extractTitle extractDescription extractImageUrl extractPrice html,
       exists preview,
         parsePreviewData extractTitle extractDescription extractImageUrl extractPrice
                          html address = Returned preview
         /\ sourceDomain preview = stripWww host
         /\ normalizedUrl preview = canonical host path pairs.
Proof.
  intro H. cbv zeta.
  pose proof (extractDomain_render secure host path pairs fragment H) as Hd.
  assert (Hn : normalizeUrl (render secure host path pairs fragment)
               = Returned (canonical host path pairs)).
  { destruct H as (Hhost & _ & _ & Hstart & Hpath & _ & Hpairs & Hfrag).
    apply normalizeUrl_plain; assumption. }
  split; [exact Hd|]. split.
  - rewrite Hn. unfold canonical, render. eexists.
    change ("https" ++ "://" ++ stripWww host ++ ?x) with ("https://" ++ stripWww host ++ x).
    reflexivity.
  - intros extractTitle extractDescription extractImageUrl extractPrice html.
    unfold parsePreviewData. rewrite Hn, Hd. cbn [Completion.bind].
    eexists. split; [reflexivity|]. split; reflexivity.
Qed.

Lemma extractDomain_is_canonical_host_witness :
  let address := "http://www.shop.com/item?utm_source=mail&ref=1#top" in
  extractDomain address = "shop.com"
  /\ (exists rest, normalizeUrl address = Returned ("https://" ++ "shop.com" ++ rest))
  /\ forall extractTitle extractDescription extractImageUrl extractPrice html,
       exists preview,
         parsePreviewData extractTitle extractDescription extractImageUrl extractPrice
                          html address = Returned preview
         /\ sourceDomain preview = "shop.com"
         /\ normalizedUrl preview = "https://shop.com/item?ref=1".
Proof.
  apply (extractDomain_is_canonical_host false "www.shop.com" "/item"
           [("utm_source", "mail"); ("ref", "1")] (Some "top")).
  unfold wellFormed, canonicalHost.
  repeat split; try (vm_compute; reflexivity).
  right. vm_compute. reflexivity.
Defined.

End DomainExtras.

(* ================================================================== *)
(* ================================================================== *)
(** * Part IV: canonicalisation of web addresses *)

(* ================================================================== *)
(** * Encoding and decoding *)

Section EncodingFacts.

Import PlainUrl Querystringify WebAddress.
























End EncodingFacts.

(* ================================================================== *)
(** * The query of a web address *)

Section EnumerationFacts.

Import PlainUrl Querystringify WebAddress.











End EnumerationFacts.

Section QueryParsing.

Import PlainUrl Querystringify WebAddress.












End QueryParsing.

Section QueryWriting.

Import PlainUrl Querystringify WebAddress.










End QueryWriting.

(* ================================================================== *)
(** * The two parsers on a web address *)

Section AddressCharacters.

Import PlainUrl WhatwgUrl WebAddress.

















End AddressCharacters.

Section AddressParsing.

Import PlainUrl WebAddress.

Variable scheme : string.
Variable userinfo : option string.
Variable host : string.
Variable port : option string.
Variable path : string.
Variables query fragment : option string.

Hypothesis scheme_web : webScheme scheme = true.
Hypothesis userinfo_chars : optionForallb userinfo_char userinfo = true.
Hypothesis host_chars : Js.forallb domain_char host = true.
Hypothesis host_not_empty : host <> "".
Hypothesis port_digits : optionForallb Js.is_digit port = true.
Hypothesis path_start : path = "" \/ Js.startsWith path "/" = true.
Hypothesis path_chars : Js.forallb (fun c => printable c && path_char c) path = true.
Hypothesis query_chars : optionForallb query_char query = true.
Hypothesis fragment_chars : optionForallb printable fragment = true.












End AddressParsing.

Section AddressRebuilding.

Import PlainUrl WebAddress UrlNormalizationService.

Variable scheme : string.
Variable userinfo : option string.
Variable host : string.
Variable port : option string.
Variable path : string.
Variables query fragment : option string.
Variables username password : string.

Hypothesis host_chars : Js.forallb domain_char host = true.
Hypothesis port_digits : optionForallb Js.is_digit port = true.
Hypothesis query_chars : optionForallb query_char query = true.
Hypothesis userinfo_parts : credentials userinfo = Some (username, password).







End AddressRebuilding.

(* ================================================================== *)
(** * Canonicalisation of a web address, once and twice *)

Section AddressCanonical.

Import PlainUrl WebAddress UrlNormalizationService.



(** The canonical query is not empty when there is one. *)
Lemma canonicalSearch_some (query : option string) (w : string) :
  canonicalSearch query = Some w -> w <> "".
Proof.
  unfold canonicalSearch. cbv zeta.
  destruct (String.eqb_spec (Querystringify.stringify (canonicalParameters query)) "");
    [discriminate|].
  intro H. injection H as <-. assumption.
Qed.





(** ** The port *)





(** ** The host name *)



(** ** The path *)




(** ** The canonical address is an address of the same class *)









End AddressCanonical.

Section AddressWitness.

Import WebAddress UrlNormalizationService.


(** The three inputs of the test suite are web addresses without any of
    the three causes; the three counterexamples are web addresses with one
    cause each. *)
Remark web_address_examples :
  let address (a : Address) (written : string) (causes : bool * bool * bool) :=
    render a = written /\ wellFormed a = true
    /\ (secondWww a, secondSlash a, httpsPort a) = causes in
  address (mkAddress "https" None "www.amazon.com" None "/product"
                     (Some "utm_source=google&ref=123") (Some "section"))
          "https://www.amazon.com/product?utm_source=google&ref=123#section"
          (false, false, false)
  /\ address (mkAddress "http" None "WWW.EXAMPLE.COM" None "/path"
                        (Some "utm_medium=email") None)
             "http://WWW.EXAMPLE.COM/path?utm_medium=email"
             (false, false, false)
  /\ address (mkAddress "https" None "example.com" None "" None None)
             "https://example.com"
             (false, false, false)
  /\ address (mkAddress "https" None "www.www.example.com" None "" None None)
             "https://www.www.example.com"
             (true, false, false)
  /\ address (mkAddress "https" None "example.com" None "/path//" None None)
             "https://example.com/path//"
             (false, true, false)
  /\ address (mkAddress "http" None "example.com" (Some "443") "/x" None None)
             "http://example.com:443/x"
             (false, false, true).
Proof. cbv zeta. repeat split; vm_compute; reflexivity. Qed.

End AddressWitness.
